(** * Order execution and fill monitoring of [morelogin/nado/open_page.py]

    A shallow embedding of the price calculator, the fill monitor, the
    retry loop and the two trade methods of [open_page.py], together with
    the properties of these functions that the specification states.

    Python values are modelled as follows.
    - [int] is [Z] (unbounded).
    - [float] is an IEEE-754 binary64 number, [spec_float] with precision 53
      and maximal exponent 1024; arithmetic is the correctly rounded
      arithmetic of [SpecFloat].
    - [str] is [string]; [None]-or-value is [option].
    - A dictionary with string keys is a [gmap string _].
    - The Playwright page, the price API and the clock are an external
      world: an interface [Env] over an abstract world state.  Every call
      that reaches the world is recorded in a trace.
    - Exceptions and the return value are an outcome [res]; a [while True]
      loop takes a fuel argument and yields [OutOfFuel] when it is used up.
      Every exception of the model derives from [Exception]; interrupts
      such as [KeyboardInterrupt] are not modelled.
    - A text is held as its UTF-8 encoding.  [strip] removes the blanks of
      [str.isspace] and [float] reads the decimal digits and the blanks of
      Unicode, as Python does; [upper] is the upper case of a text whose
      cased letters are ASCII letters.
    - [print] and the formatting of its arguments are left out; they have
      no effect on any result for prices in the binary64 range, which is
      where the price API takes them from.

    The further parts embed [load_config], [get_price_from_api] with
    [get_product_id], and [start], [get_url], [open_page] and the loop of
    [main] that opens the windows, each over the calls that leave it, and
    state what the code shows of them.
    - A value decoded from JSON is an [Api.json]; an object lists its
      fields, and [None] is [JNull].
    - A row of [csv.DictReader] is a [gmap] from the columns of the header
      to a cell, which is [None] when the row is too short.
    - The exceptions of a class that the source catches by name are
      [Error] with the name of the class. *)

From Stdlib Require Import ZArith QArith Qabs Lia List Ascii String Bool.
From Stdlib Require Import Floats.SpecFloat.
From stdpp Require Import base gmap strings list pretty.

Local Open Scope string_scope.
Local Open Scope list_scope.
Local Open Scope Z_scope.

(** ** Python numbers *)

Module PyNum.

(** binary64 *)
Definition prec : Z := 53.
Definition emax : Z := 1024.

Definition fmul : spec_float -> spec_float -> spec_float := SFmul prec emax.
Definition fsub : spec_float -> spec_float -> spec_float := SFsub prec emax.
Definition fdiv : spec_float -> spec_float -> spec_float := SFdiv prec emax.

(** The float nearest to an integer (ties to even); infinite when the
    integer is beyond the binary64 range. *)
Definition float_of_Z (z : Z) : spec_float := binary_normalize prec emax z 0 false.

(** The float nearest to the fraction [n / d], for [n >= 0] and [d > 0]. *)
Definition float_of_fraction (neg : bool) (n d : Z) : spec_float :=
  match n with
  | Z0 => S754_zero neg
  | _ =>
      let '(mz, ez, lz) := SFdiv_core_binary prec emax n 0 d 0 in
      binary_round_aux prec emax neg mz ez lz
  end.

(** The rational number [m * 2^e]. *)
Definition dyadic (m e : Z) : Q :=
  if 0 <=? e then inject_Z (m * 2 ^ e) else Qmake m (Z.to_pos (2 ^ (- e))).

(** Values on the extended real line; a NaN has no value. *)
Inductive xval : Type :=
| NegInf
| Fin (q : Q)
| PosInf.

Definition float_val (f : spec_float) : option xval :=
  match f with
  | S754_nan => None
  | S754_infinity s => Some (if s then NegInf else PosInf)
  | S754_zero _ => Some (Fin 0)
  | S754_finite s m e => Some (Fin (dyadic (cond_Zopp s (Zpos m)) e))
  end.

Definition xcompare (a b : xval) : comparison :=
  match a, b with
  | NegInf, NegInf => Eq
  | NegInf, _ => Lt
  | _, NegInf => Gt
  | PosInf, PosInf => Eq
  | PosInf, _ => Gt
  | _, PosInf => Lt
  | Fin p, Fin q => Qcompare p q
  end.

(** A Python number: [int] or [float]. *)
Inductive py_num : Type :=
| PyInt (z : Z)
| PyFloat (f : spec_float).

Definition num_val (n : py_num) : option xval :=
  match n with
  | PyInt z => Some (Fin (inject_Z z))
  | PyFloat f => float_val f
  end.

(** Python compares an [int] with a [float] by exact value, and every
    ordering test against a NaN is false. *)
Definition num_compare (a b : py_num) : option comparison :=
  match num_val a, num_val b with
  | Some x, Some y => Some (xcompare x y)
  | _, _ => None
  end.

Definition py_lt (a b : py_num) : bool :=
  match num_compare a b with Some Lt => true | _ => false end.
Definition py_gt (a b : py_num) : bool :=
  match num_compare a b with Some Gt => true | _ => false end.
Definition py_ge (a b : py_num) : bool :=
  match num_compare a b with Some (Gt | Eq) => true | _ => false end.

End PyNum.
Export PyNum.

(** ** Exceptions and outcomes *)

(** The exceptions that occur; all of them derive from [Exception]. *)
Inductive exn : Type :=
| ValueError
| OverflowError
| KeyError
| IndexError
| Error (kind : string).

(** What a call does: it returns, raises, or has not finished when the
    fuel of a [while True] loop is used up. *)
Inductive res (A : Type) : Type :=
| Ok (a : A)
| Raise (e : exn)
| OutOfFuel.
Arguments Ok {A} a.
Arguments Raise {A} e.
Arguments OutOfFuel {A}.

(** ** Python builtins *)

Module PyBuiltins.

Definition float_of_int (z : Z) : res spec_float :=
  match float_of_Z z with
  | S754_infinity _ => Raise OverflowError
  | f => Ok f
  end.

(** [a * b] *)
Definition py_mul (a b : py_num) : res py_num :=
  match a, b with
  | PyInt x, PyInt y => Ok (PyInt (x * y))
  | PyFloat x, PyFloat y => Ok (PyFloat (fmul x y))
  | PyFloat x, PyInt y =>
      match float_of_int y with
      | Ok fy => Ok (PyFloat (fmul x fy))
      | Raise e => Raise e
      | OutOfFuel => OutOfFuel
      end
  | PyInt x, PyFloat y =>
      match float_of_int x with
      | Ok fx => Ok (PyFloat (fmul fx y))
      | Raise e => Raise e
      | OutOfFuel => OutOfFuel
      end
  end.

(** [z / d] for an [int] [z] and a non-zero [float] [d] *)
Definition py_truediv_int_float (z : Z) (d : spec_float) : res spec_float :=
  match float_of_int z with
  | Ok fz => Ok (fdiv fz d)
  | Raise e => Raise e
  | OutOfFuel => OutOfFuel
  end.

(** The integer nearest to [m * 2^e] for [m >= 0], ties to the even one. *)
Definition round_half_even (m e : Z) : Z :=
  if 0 <=? e then m * 2 ^ e
  else
    let d := 2 ^ (- e) in
    let q := m / d in
    match 2 * (m mod d) ?= d with
    | Lt => q
    | Gt => q + 1
    | Eq => if Z.even q then q else q + 1
    end.

(** [round(x)] with one argument: an [int], ties to even. *)
Definition py_round (x : py_num) : res Z :=
  match x with
  | PyInt z => Ok z
  | PyFloat S754_nan => Raise ValueError
  | PyFloat (S754_infinity _) => Raise OverflowError
  | PyFloat (S754_zero _) => Ok 0
  | PyFloat (S754_finite s m e) => Ok (cond_Zopp s (round_half_even (Zpos m) e))
  end.

(** [int(x)]: truncation towards zero. *)
Definition py_int (x : py_num) : res Z :=
  match x with
  | PyInt z => Ok z
  | PyFloat S754_nan => Raise ValueError
  | PyFloat (S754_infinity _) => Raise OverflowError
  | PyFloat (S754_zero _) => Ok 0
  | PyFloat (S754_finite s m e) =>
      Ok (cond_Zopp s (if 0 <=? e then Zpos m * 2 ^ e else Zpos m / 2 ^ (- e)))
  end.

(** [abs(z)] on [int] *)
Definition py_abs (z : Z) : Z := Z.abs z.

(** Decimal digits of a natural number. *)
Definition digits (n : Z) : string := pretty (Z.to_N n).

(** [f"{x:.2f}"]: the exact value of [x] rounded to two decimals, ties to
    even. *)
Definition format_2f (x : spec_float) : string :=
  match x with
  | S754_nan => "nan"
  | S754_infinity s => if s then "-inf" else "inf"
  | S754_zero s => (if s then "-" else "") +:+ "0.00"
  | S754_finite s m e =>
      let n := round_half_even (100 * Zpos m) e in
      (if s then "-" else "") +:+ digits (n / 100) +:+ "."
        +:+ digits (n mod 100 / 10) +:+ digits (n mod 10)
  end.

(** *** Strings *)

(** A [str] is held as its UTF-8 encoding.  The value of a byte: *)
Definition byte (c : ascii) : Z := Z.of_N (N_of_ascii c).

(** A byte [10xxxxxx] continues the character that began before it. *)
Definition is_continuation (c : ascii) : bool :=
  (128 <=? byte c) && (byte c <=? 191).

(** The characters of a text, each as the bytes that encode it: a byte
    opens a character unless it continues the one before. *)
Fixpoint chars (s : string) : list string :=
  match s with
  | String c s' =>
      match chars s' with
      | String d ch :: rest =>
          if is_continuation d then String c (String d ch) :: rest
          else String c EmptyString :: String d ch :: rest
      | rest => String c EmptyString :: rest
      end
  | EmptyString => []
  end.

(** The code point that the bytes of a character encode. *)
Definition code_point (ch : string) : option Z :=
  match ch with
  | String a EmptyString =>
      if byte a <? 128 then Some (byte a) else None
  | String a (String b EmptyString) =>
      if (194 <=? byte a) && (byte a <=? 223)
      then Some ((byte a - 192) * 64 + (byte b - 128))
      else None
  | String a (String b (String c EmptyString)) =>
      if (224 <=? byte a) && (byte a <=? 239)
      then Some ((byte a - 224) * 4096 + (byte b - 128) * 64 + (byte c - 128))
      else None
  | String a (String b (String c (String d EmptyString))) =>
      if (240 <=? byte a) && (byte a <=? 244)
      then Some ((byte a - 240) * 262144 + (byte b - 128) * 4096
                 + (byte c - 128) * 64 + (byte d - 128))
      else None
  | _ => None
  end.

(** The code points that [str.isspace] accepts, as ranges: the ASCII
    blanks and separators, NEL, the no-break space, and the spaces and
    line separators beyond Latin-1. *)
Definition space_ranges : list (Z * Z) :=
  [ (0x9, 0xd); (0x1c, 0x20); (0x85, 0x85); (0xa0, 0xa0); (0x1680, 0x1680);
    (0x2000, 0x200a); (0x2028, 0x2029); (0x202f, 0x202f); (0x205f, 0x205f);
    (0x3000, 0x3000) ].

Definition is_space_code (n : Z) : bool :=
  existsb (fun r => (fst r <=? n) && (n <=? snd r)) space_ranges.

Definition is_space (ch : string) : bool :=
  match code_point ch with
  | Some n => is_space_code n
  | None => false
  end.

Fixpoint lstrip (l : list string) : list string :=
  match l with
  | ch :: l' => if is_space ch then lstrip l' else l
  | [] => []
  end.

(** [rstrip l] drops the trailing blanks: a character is kept when it is
    not blank or something is kept after it. *)
Fixpoint rstrip (l : list string) : list string :=
  match l with
  | ch :: l' =>
      match rstrip l' with
      | [] => if is_space ch then [] else [ch]
      | r => ch :: r
      end
  | [] => []
  end.

(** The text that a list of characters makes. *)
Definition join (l : list string) : string :=
  fold_right String.append EmptyString l.

(** [s.strip()] *)
Definition py_strip (s : string) : string := join (rstrip (lstrip (chars s))).

Definition upper_char (c : ascii) : ascii :=
  let n := nat_of_ascii c in
  if Nat.leb 97 n && Nat.leb n 122 then ascii_of_nat (n - 32) else c.

(** [s.upper()] for a text whose cased letters are ASCII letters.  The
    case mappings of the other letters are not modelled: their bytes are
    left as they are. *)
Fixpoint py_upper (s : string) : string :=
  match s with
  | String c s' => String (upper_char c) (py_upper s')
  | EmptyString => EmptyString
  end.

Definition lower_char (c : ascii) : ascii :=
  let n := nat_of_ascii c in
  if Nat.leb 65 n && Nat.leb n 90 then ascii_of_nat (n + 32) else c.

(** The ASCII letters in lower case: the parser of [float] compares the
    words [inf], [infinity] and [nan] in this way. *)
Fixpoint py_lower (s : string) : string :=
  match s with
  | String c s' => String (lower_char c) (py_lower s')
  | EmptyString => EmptyString
  end.

(** [needle in hay] *)
Fixpoint py_in (needle hay : string) : bool :=
  String.prefix needle hay
  || match hay with
     | String _ hay' => py_in needle hay'
     | EmptyString => false
     end.

(** Every character of the text is an ASCII character. *)
Fixpoint is_ascii (s : string) : bool :=
  match s with
  | String c s' => (byte c <? 128) && is_ascii s'
  | EmptyString => true
  end.

(** *** [float(s)] *)

(** The code point of the digit zero of each set of decimal digits
    (Unicode 14.0, the data of CPython 3.11); the nine code points after
    it are the digits one to nine of the set. *)
Definition decimal_zeros : list Z :=
  [ 0x30; 0x660; 0x6f0; 0x7c0; 0x966; 0x9e6; 0xa66; 0xae6; 0xb66; 0xbe6;
    0xc66; 0xce6; 0xd66; 0xde6; 0xe50; 0xed0; 0xf20; 0x1040; 0x1090; 0x17e0;
    0x1810; 0x1946; 0x19d0; 0x1a80; 0x1a90; 0x1b50; 0x1bb0; 0x1c40; 0x1c50;
    0xa620; 0xa8d0; 0xa900; 0xa9d0; 0xa9f0; 0xaa50; 0xabf0; 0xff10; 0x104a0;
    0x10d30; 0x11066; 0x110f0; 0x11136; 0x111d0; 0x112f0; 0x11450; 0x114d0;
    0x11650; 0x116c0; 0x11730; 0x118e0; 0x11950; 0x11c50; 0x11d50; 0x11da0;
    0x16a60; 0x16ac0; 0x16b50; 0x1d7ce; 0x1d7d8; 0x1d7e2; 0x1d7ec; 0x1d7f6;
    0x1e140; 0x1e2f0; 0x1e950; 0x1fbf0 ].

(** The value of a decimal digit, if the code point is one. *)
Definition decimal_digit (n : Z) : option Z :=
  match List.find (fun zero => (zero <=? n) && (n <=? zero + 9)) decimal_zeros with
  | Some zero => Some (n - zero)
  | None => None
  end.

Definition ascii_of_code (n : Z) : ascii := ascii_of_N (Z.to_N n).

(** What [float] makes of a text that is not all ASCII before it parses
    it: a character below 127 stays, a blank becomes a space, a decimal
    digit becomes the ASCII digit of its value, and at any other character
    the text ends with a question mark. *)
Fixpoint to_ascii (l : list string) : string :=
  match l with
  | ch :: l' =>
      match code_point ch with
      | Some n =>
          if n <? 127 then String (ascii_of_code n) (to_ascii l')
          else if is_space_code n then String " " (to_ascii l')
          else
            match decimal_digit n with
            | Some d => String (ascii_of_code (48 + d)) (to_ascii l')
            | None => "?"
            end
      | None => "?"
      end
  | [] => EmptyString
  end.

(** The blanks that the parser of [float] skips at both ends. *)
Definition is_ascii_space (c : ascii) : bool :=
  (9 <=? byte c) && (byte c <=? 13) || (byte c =? 32).

Fixpoint skip_spaces (s : string) : string :=
  match s with
  | String c s' => if is_ascii_space c then skip_spaces s' else s
  | EmptyString => s
  end.

Fixpoint drop_trailing_spaces (s : string) : string :=
  match s with
  | String c s' =>
      match drop_trailing_spaces s' with
      | EmptyString => if is_ascii_space c then EmptyString else String c EmptyString
      | r => String c r
      end
  | EmptyString => EmptyString
  end.

Definition is_digit (c : ascii) : bool :=
  let n := nat_of_ascii c in Nat.leb 48 n && Nat.leb n 57.

Definition digit_val (c : ascii) : Z := Z.of_nat (nat_of_ascii c) - 48.

(** A run of digits, where single underscores may separate digits.
    Returns the number read after [acc], how many digits were read after
    [cnt], and the rest of the input. *)
Fixpoint scan_digits (acc cnt : Z) (s : string) : Z * Z * string :=
  match s with
  | String c s' =>
      if is_digit c then scan_digits (10 * acc + digit_val c) (cnt + 1) s'
      else if Ascii.eqb c "_" then
        match s' with
        | String d s'' =>
            if is_digit d && (0 <? cnt)
            then scan_digits (10 * acc + digit_val d) (cnt + 1) s''
            else (acc, cnt, s)
        | EmptyString => (acc, cnt, s)
        end
      else (acc, cnt, s)
  | EmptyString => (acc, cnt, s)
  end.

Definition scan_sign (s : string) : bool * string :=
  match s with
  | String "-" s' => (true, s')
  | String "+" s' => (false, s')
  | _ => (false, s)
  end.

(** [n * 10^x] as a float, for [n >= 0]. *)
Definition float_of_decimal (neg : bool) (n x : Z) : spec_float :=
  if 0 <=? x then binary_normalize prec emax (cond_Zopp neg (n * 10 ^ x)) 0 neg
  else float_of_fraction neg n (10 ^ (- x)).

(** The exponent part, if there is one. *)
Definition scan_exponent (s : string) : option (Z * string) :=
  match s with
  | String c s' =>
      if Ascii.eqb c "e" || Ascii.eqb c "E" then
        let '(eneg, s1) := scan_sign s' in
        let '(x, cnt, s2) := scan_digits 0 0 s1 in
        if 0 <? cnt then Some (cond_Zopp eneg x, s2) else None
      else Some (0, s)
  | EmptyString => Some (0, s)
  end.

(** [float(s)] for a text [s]: the digits and blanks of a text that is not
    all ASCII are made ASCII, the ASCII blanks at both ends are skipped,
    and what is left has to be a number, [inf], [infinity] or [nan]. *)
Definition py_float (s : string) : res spec_float :=
  let text := if is_ascii s then s else to_ascii (chars s) in
  let '(neg, body) := scan_sign (drop_trailing_spaces (skip_spaces text)) in
  let low := py_lower body in
  if String.eqb low "inf" || String.eqb low "infinity" then Ok (S754_infinity neg)
  else if String.eqb low "nan" then Ok S754_nan
  else
    let '(ip, icnt, s1) := scan_digits 0 0 body in
    let '(n, fcnt, s2) :=
      match s1 with
      | String "." s1' => scan_digits ip 0 s1'
      | _ => (ip, 0, s1)
      end in
    if icnt + fcnt =? 0 then Raise ValueError
    else
      match scan_exponent s2 with
      | Some (x, EmptyString) => Ok (float_of_decimal neg n (x - fcnt))
      | _ => Raise ValueError
      end.

(** The float that a literal denotes, as in [0.5] or [-5.00]. *)
Definition float_lit (s : string) : spec_float :=
  match py_float s with
  | Ok f => f
  | _ => S754_nan
  end.

End PyBuiltins.
Export PyBuiltins.

(** ** The external world *)

(** A Playwright page object. *)
Definition page : Type := nat.

(** An element handle: the page and the selector it was found with, and
    the handle the browser gave. *)
Record elem : Type := Elem {
  elem_page : page;
  elem_selector : string;
  elem_handle : nat
}.

(** What the world answers to a call: a value or an exception. *)
Inductive answer (A : Type) : Type :=
| Returns (a : A)
| Throws (e : exn).
Arguments Returns {A} a.
Arguments Throws {A} e.

(** The calls that leave the program: the clock, the price API and the
    Playwright methods that the source uses. *)
Record Env (W : Type) : Type := {
  (** [time.time()] *)
  env_time : W -> spec_float * W;
  (** [get_price_from_api(symbol, product_type)]: [None] or a dictionary
      with some of the keys [bid], [ask], [mid], in integer cents *)
  env_get_price_from_api : string -> string -> W -> answer (option (gmap string Z)) * W;
  (** [page.query_selector(selector)] *)
  env_query_selector : page -> string -> W -> answer (option nat) * W;
  (** [element.inner_text()] *)
  env_inner_text : elem -> W -> answer string * W;
  (** [element.click()] and [element.click(timeout=ms)] *)
  env_click : elem -> option Z -> W -> answer unit * W;
  (** [element.get_attribute(name)] *)
  env_get_attribute : elem -> string -> W -> answer (option string) * W;
  (** [element.fill(text)] *)
  env_fill : elem -> string -> W -> answer unit * W;
  (** [element.evaluate(js)], for a script that yields a boolean *)
  env_evaluate : elem -> string -> W -> answer bool * W;
  (** [page.wait_for_timeout(ms)] *)
  env_wait_for_timeout : page -> Z -> W -> answer unit * W
}.
Arguments env_time {W}.
Arguments env_get_price_from_api {W}.
Arguments env_query_selector {W}.
Arguments env_inner_text {W}.
Arguments env_click {W}.
Arguments env_get_attribute {W}.
Arguments env_fill {W}.
Arguments env_evaluate {W}.
Arguments env_wait_for_timeout {W}.

(** One entry of the trace. *)
Inductive call : Type :=
| TimeTime
| GetPriceFromApi (symbol product_type : string)
| QuerySelector (p : page) (selector : string)
| InnerText (e : elem)
| Click (e : elem) (timeout : option Z)
| GetAttribute (e : elem) (name : string)
| Fill (e : elem) (text : string)
| Evaluate (e : elem) (js : string)
| WaitForTimeout (p : page) (ms : Z).

(** The state of a run: the world, and the calls made so far, the latest
    first. *)
Record state (W : Type) : Type := State {
  world : W;
  trace : list call
}.
Arguments State {W} world trace.
Arguments world {W} s.
Arguments trace {W} s.

(** ** The monad of Python code *)

Definition M (W A : Type) : Type := state W -> res A * state W.

Definition ret {W A} (a : A) : M W A := fun s => (Ok a, s).

Definition raise {W A} (e : exn) : M W A := fun s => (Raise e, s).

Definition out_of_fuel {W A} : M W A := fun s => (OutOfFuel, s).

Definition bind {W A B} (m : M W A) (k : A -> M W B) : M W B :=
  fun s =>
    match m s with
    | (Ok a, s') => k a s'
    | (Raise e, s') => (Raise e, s')
    | (OutOfFuel, s') => (OutOfFuel, s')
    end.

(** [try: body  except Exception: handler] *)
Definition try_except {W A} (body : M W A) (handler : exn -> M W A) : M W A :=
  fun s =>
    match body s with
    | (Raise e, s') => handler e s'
    | r => r
    end.

(** [try: body  except ValueError: handler] *)
Definition try_except_ValueError {W A} (body : M W A) (handler : M W A) : M W A :=
  fun s =>
    match body s with
    | (Raise ValueError, s') => handler s'
    | r => r
    end.

(** The outcome of a builtin, inside the monad. *)
Definition lift {W A} (r : res A) : M W A := fun s => (r, s).

(** A call to the world: it is added to the trace, and the answer of the
    world is the outcome. *)
Definition perform {W A} (c : call) (op : W -> answer A * W) : M W A :=
  fun s =>
    let '(a, w) := op (world s) in
    (match a with Returns v => Ok v | Throws e => Raise e end,
     State w (c :: trace s)).

Declare Scope py_scope.
Delimit Scope py_scope with py.
Notation "'let*' x ':=' m 'in' k" := (bind m (fun x => k))
  (at level 10, x pattern, m at level 100, k at level 200) : py_scope.
Notation "m1 '>>' m2" := (bind m1 (fun _ => m2))
  (at level 65, right associativity) : py_scope.
Local Open Scope py_scope.

(** Python truth of a string and of an optional object. *)
Definition truthy_str (s : string) : bool := negb (String.eqb s "").

(** ** Selectors *)

Module Selectors.

Definition dq : string := String (ascii_of_nat 34) EmptyString.

(** [tag:has-text("text")] *)
Definition has_text (tag text : string) : string :=
  tag +:+ ":has-text(" +:+ dq +:+ text +:+ dq +:+ ")".

(** [tag[attr="value"]] *)
Definition with_attr (tag attr value : string) : string :=
  tag +:+ "[" +:+ attr +:+ "=" +:+ dq +:+ value +:+ dq +:+ "]".
(** [tag[attr*="value"]] *)
Definition attr_contains (tag attr value : string) : string :=
  tag +:+ "[" +:+ attr +:+ "*=" +:+ dq +:+ value +:+ dq +:+ "]".

Definition sel_limit : string := has_text "button" "Limit".
Definition sel_long_tab : string :=
  has_text "button" "Buy/Long" +:+ with_attr "" "role" "tab".
Definition sel_short_tab : string :=
  has_text "button" "Sell/Short" +:+ with_attr "" "role" "tab".
Definition sel_submit_long (symbol : string) : string :=
  has_text (with_attr "button" "type" "submit") ("Buy/Long " +:+ symbol).
Definition sel_submit_short (symbol : string) : string :=
  has_text (with_attr "button" "type" "submit") ("Sell/Short " +:+ symbol).
Definition sel_open_orders_tab : string :=
  has_text (with_attr "button" "role" "tab") "Open Orders".
Definition sel_open_orders : string := has_text "button" "Open Orders".
Definition sel_open_orders_id : string := attr_contains "button" "id" "open_orders".
Definition sel_cancel_all : string := has_text "button" "Cancel all".
Definition sel_limit_price : string := "#limitPrice".
Definition sel_size : string := "#size".
Definition sel_bid_price_display : string := with_attr "span" "data-testid" "bid-price-display".
Definition sel_ask_price_display : string := with_attr "span" "data-testid" "ask-price-display".
Definition sel_quantity_input : string := with_attr "input" "data-testid" "quantity-input".
Definition sel_submit_button : string := with_attr "button" "data-testid" "submit-button".
Definition js_click_closest_button : string :=
  "el => { const btn = el.closest(" +:+ dq +:+ "button" +:+ dq
  +:+ "); if (btn) { btn.click(); return true; } return false; }".

End Selectors.
Export Selectors.

(** What one pass through the body of a [while] loop decides. *)
Inductive loop_step (A : Type) : Type :=
| Return (a : A)
| Continue.
Arguments Return {A} a.
Arguments Continue {A}.

(** ** The functions of [open_page.py] *)

Section OpenPage.

Context {W : Type} (env : Env W).

Local Abbreviation M := (M W).

(** *** Calls to the world *)

Definition time_time : M spec_float :=
  perform TimeTime
    (fun w => let '(t, w') := env_time env w in (Returns t, w')).

Definition get_price_from_api (symbol product_type : string)
  : M (option (gmap string Z)) :=
  perform (GetPriceFromApi symbol product_type)
    (env_get_price_from_api env symbol product_type).

Definition query_selector (p : page) (selector : string) : M (option elem) :=
  perform (QuerySelector p selector)
    (fun w =>
       let '(a, w') := env_query_selector env p selector w in
       (match a with
        | Returns h => Returns (Elem p selector <$> h)
        | Throws e => Throws e
        end, w')).

Definition inner_text (e : elem) : M string :=
  perform (InnerText e) (env_inner_text env e).

Definition click (e : elem) (timeout : option Z) : M unit :=
  perform (Click e timeout) (env_click env e timeout).

Definition get_attribute (e : elem) (name : string) : M (option string) :=
  perform (GetAttribute e name) (env_get_attribute env e name).

Definition fill (e : elem) (text : string) : M unit :=
  perform (Fill e text) (env_fill env e text).

Definition evaluate (e : elem) (js : string) : M bool :=
  perform (Evaluate e js) (env_evaluate env e js).

Definition wait_for_timeout (p : page) (ms : Z) : M unit :=
  perform (WaitForTimeout p ms) (env_wait_for_timeout env p ms).

(** *** Buttons of the Nado page *)

Definition click_limit_button (p : page) : M bool :=
  try_except
    (let* button := query_selector p sel_limit in
     match button with
     | Some b => click b None >> ret true
     | None => ret false
     end)
    (fun _ => ret false).

Definition click_long_tab_button (p : page) : M bool :=
  try_except
    (let* button := query_selector p sel_long_tab in
     match button with
     | Some b => click b None >> ret true
     | None => ret false
     end)
    (fun _ => ret false).

Definition click_short_tab_button (p : page) : M bool :=
  try_except
    (let* button := query_selector p sel_short_tab in
     match button with
     | Some b => click b None >> ret true
     | None => ret false
     end)
    (fun _ => ret false).

Definition click_submit_long_button (p : page) (symbol : string) : M bool :=
  try_except
    (let* button := query_selector p (sel_submit_long symbol) in
     match button with
     | Some b => click b None >> ret true
     | None => ret false
     end)
    (fun _ => ret false).

Definition click_submit_short_button (p : page) (symbol : string) : M bool :=
  try_except
    (let* button := query_selector p (sel_submit_short symbol) in
     match button with
     | Some b => click b None >> ret true
     | None => ret false
     end)
    (fun _ => ret false).

(** The [for selector in selectors] loop of [click_open_orders_button]. *)
Fixpoint open_orders_scan (p : page) (selectors : list string) : M bool :=
  match selectors with
  | [] => ret false
  | selector :: rest =>
      let* button := query_selector p selector in
      match button with
      | Some b =>
          let* button_text := inner_text b in
          if py_in "Open Orders" button_text
          then click b None >> ret true
          else open_orders_scan p rest
      | None => open_orders_scan p rest
      end
  end.

Definition click_open_orders_button (p : page) (symbol : string) : M bool :=
  try_except
    (open_orders_scan p [sel_open_orders_tab; sel_open_orders; sel_open_orders_id])
    (fun _ => ret false).

Definition cancel_all_orders (p : page) (symbol : string) : M bool :=
  try_except
    (let* opened := click_open_orders_button p symbol in
     if negb opened then ret false
     else
       wait_for_timeout p 100 >>
       let* cancel_button := query_selector p sel_cancel_all in
       match cancel_button with
       | Some b =>
           let* disabled := get_attribute b "disabled" in
           let is_disabled := match disabled with Some _ => true | None => false end in
           if is_disabled then ret true
           else
             try_except
               (click b (Some 2000) >> wait_for_timeout p 100 >> ret true)
               (fun _ => ret true)
       | None => ret true
       end)
    (fun _ => ret true).

(** *** The position shown on the Nado page *)

(** The [for selector in selectors] loop of [get_nado_position]. *)
Fixpoint position_scan (p : page) (symbol : string) (selectors : list string)
  : M (option string) :=
  match selectors with
  | [] => ret None
  | selector :: rest =>
      let* position_button := query_selector p selector in
      match position_button with
      | Some b =>
          let* text := inner_text b in
          let position_text := py_strip text in
          if truthy_str position_text
             && (py_in (py_upper symbol) (py_upper position_text)
                 || py_in "BTC" position_text
                 || py_in "ETH" position_text)
          then ret (Some position_text)
          else position_scan p symbol rest
      | None => position_scan p symbol rest
      end
  end.

Definition get_nado_position (p : page) (symbol : string) : M (option string) :=
  try_except
    (position_scan p symbol
       ["button.text-negative"; "button.text-positive";
        has_text "button" "BTC"; has_text "button" "ETH"])
    (fun _ => ret None).

(** *** The fill monitor *)

(** The [while True] loop of [monitor_order_fill]; [True], [False] and
    [None] are [Some true], [Some false] and [None]. *)
Fixpoint monitor_loop (fuel : nat) (p : page) (symbol : string)
    (initial_position : option string)
    (check_interval max_wait_time retry_timeout : py_num)
    (start_time : spec_float) : M (option bool) :=
  match fuel with
  | O => out_of_fuel
  | S fuel' =>
      let* now := time_time in
      let elapsed_time := PyFloat (fsub now start_time) in
      if py_ge elapsed_time retry_timeout then ret None
      else if py_gt elapsed_time max_wait_time then ret (Some false)
      else
        let* changed :=
          try_except
            (let* current_position := get_nado_position p symbol in
             ret (negb (bool_decide (current_position = initial_position))))
            (fun _ => ret false) in
        if changed then ret (Some true)
        else if py_lt elapsed_time max_wait_time then
          let* scaled := lift (py_mul check_interval (PyInt 1000)) in
          let* ms := lift (py_int scaled) in
          wait_for_timeout p ms >>
          monitor_loop fuel' p symbol initial_position
            check_interval max_wait_time retry_timeout start_time
        else ret (Some false)
  end.

Definition monitor_order_fill (fuel : nat) (p : page) (symbol : string)
    (initial_position : option string)
    (check_interval max_wait_time retry_timeout : py_num) : M (option bool) :=
  let* start_time := time_time in
  monitor_loop fuel p symbol initial_position
    check_interval max_wait_time retry_timeout start_time.

(** *** The price calculator *)

(** The result [(None, None)] is [None]; [(price_num, order_price)] is
    [Some (price_num, order_price)]. *)
Definition get_and_calculate_order_price (p : page) (symbol : string)
    (price_offset : py_num) (direction : string) : M (option (Z * Z)) :=
  let* prices := get_price_from_api symbol "perp" in
  match prices with
  | None => ret None
  | Some prices =>
      try_except_ValueError
        (let price_key := if String.eqb direction "long" then "bid" else "ask" in
         match prices !! price_key with
         | None => ret None
         | Some price_num =>
             let* scaled := lift (py_mul price_offset (PyInt 100)) in
             let* rounded := lift (py_round scaled) in
             let* price_offset_int := lift (py_int (PyInt rounded)) in
             let order_price :=
               if String.eqb direction "long"
               then price_num - price_offset_int
               else price_num + py_abs price_offset_int in
             ret (Some (price_num, order_price))
         end)
        (ret None)
  end.

(** *** Placing the order on Nado *)

Definition fill_nado_order_form (p : page) (order_price : Z) (size : string)
  : M bool :=
  let* price_input := query_selector p sel_limit_price in
  match price_input with
  | None => ret false
  | Some price_box =>
      let* price_actual := lift (py_truediv_int_float order_price (float_of_Z 100)) in
      fill price_box (format_2f price_actual) >>
      wait_for_timeout p 300 >>
      let* size_input := query_selector p sel_size in
      match size_input with
      | None => ret false
      | Some size_box =>
          fill size_box size >>
          wait_for_timeout p 300 >>
          ret true
      end
  end.

Definition execute_nado_order (p : page) (symbol : string) (order_price : Z)
    (size direction : string) : M bool :=
  let* limit_ok := click_limit_button p in
  if negb limit_ok then ret false
  else
    wait_for_timeout p 500 >>
    let* tab_ok :=
      if String.eqb direction "long"
      then click_long_tab_button p
      else click_short_tab_button p in
    if negb tab_ok then ret false
    else
      wait_for_timeout p 500 >>
      let* form_ok := fill_nado_order_form p order_price size in
      if negb form_ok then ret false
      else
        let* success :=
          if String.eqb direction "long"
          then click_submit_long_button p symbol
          else click_submit_short_button p symbol in
        if success then ret true else ret false.

(** *** The retry loop *)

(** The body of the [while retry_count < max_retries] loop of
    [execute_nado_order_with_retry]; [Continue] stands for
    [retry_count += 1]. *)
Definition retry_body (fuel : nat) (p : page) (symbol size : string)
    (price_offset : py_num) (direction : string) (retry_count : Z)
  : M (loop_step bool) :=
  (if 0 <? retry_count
   then cancel_all_orders p symbol >> wait_for_timeout p 1000
   else ret tt) >>
  let* price := get_and_calculate_order_price p symbol price_offset direction in
  match price with
  | None => ret (Return false)
  | Some (price_num, order_price) =>
      let* initial_position := get_nado_position p symbol in
      let* submitted := execute_nado_order p symbol order_price size direction in
      if negb submitted then ret (Return false)
      else
        let* result :=
          monitor_order_fill fuel p symbol initial_position
            (PyFloat (float_lit "0.5")) (PyInt 300) (PyInt 30) in
        match result with
        | Some true => ret (Return true)
        | None => ret Continue
        | Some false => ret (Return false)
        end
  end.

(** The loop; [budget] bounds the number of passes. *)
Fixpoint retry_loop (budget fuel : nat) (p : page) (symbol size : string)
    (price_offset : py_num) (direction : string) (max_retries retry_count : Z)
  : M bool :=
  if retry_count <? max_retries then
    match budget with
    | O => out_of_fuel
    | S budget' =>
        let* step := retry_body fuel p symbol size price_offset direction retry_count in
        match step with
        | Return b => ret b
        | Continue =>
            retry_loop budget' fuel p symbol size price_offset direction
              max_retries (retry_count + 1)
        end
    end
  else ret false.

(** [fuel] is the fuel of each run of the fill monitor.  The loop itself
    needs no fuel: [max_retries] passes are enough. *)
Definition execute_nado_order_with_retry (fuel : nat) (p : page)
    (symbol size : string) (price_offset : py_num) (direction : string)
    (max_retries : Z) : M bool :=
  retry_loop (Z.to_nat max_retries) fuel p symbol size price_offset direction
    max_retries 0.

(** *** The hedge on Variational *)

Definition click_short_button_variational (p : page) : M bool :=
  try_except
    (let* span := query_selector p sel_bid_price_display in
     match span with
     | Some sp =>
         let* clicked := evaluate sp js_click_closest_button in
         if clicked then ret true else ret false
     | None => ret false
     end)
    (fun _ => ret false).

Definition click_long_button_variational (p : page) : M bool :=
  try_except
    (let* span := query_selector p sel_ask_price_display in
     match span with
     | Some sp =>
         let* clicked := evaluate sp js_click_closest_button in
         if clicked then ret true else ret false
     | None => ret false
     end)
    (fun _ => ret false).

Definition fill_quantity_variational (p : page) (size : string) : M bool :=
  try_except
    (let* input_elem := query_selector p sel_quantity_input in
     match input_elem with
     | Some box => fill box size >> ret true
     | None => ret false
     end)
    (fun _ => ret false).

Definition click_submit_variational (p : page) (symbol : string) : M bool :=
  try_except
    (let* button := query_selector p sel_submit_button in
     match button with
     | Some b =>
         let* button_text := inner_text b in
         if py_in symbol button_text || py_in "买" button_text || py_in "卖" button_text
         then click b None >> ret true
         else ret false
     | None => ret false
     end)
    (fun _ => ret false).

(** [configs[0]] *)
Definition first_config (configs : list (gmap string string)) : M (gmap string string) :=
  match configs with
  | config :: _ => ret config
  | [] => raise IndexError
  end.

(** [config['symbol']] *)
Definition config_symbol (config : gmap string string) : M string :=
  match config !! "symbol" with
  | Some symbol => ret symbol
  | None => raise KeyError
  end.

(** [config.get(key, default)] *)
Definition config_get (config : gmap string string) (key fallback : string) : string :=
  default fallback (config !! key).

Definition execute_variational_short (pages : gmap string page)
    (configs : list (gmap string string)) : M bool :=
  if bool_decide (pages = ∅) || bool_decide (pages !! "variational" = None)
  then ret false
  else
    match pages !! "variational" with
    | None => raise KeyError
    | Some variational_page =>
        let* config := first_config configs in
        let* symbol := config_symbol config in
        let size := config_get config "size" "0.0001" in
        let* short_ok := click_short_button_variational variational_page in
        if negb short_ok then ret false
        else
          wait_for_timeout variational_page 100 >>
          let* size_ok := fill_quantity_variational variational_page size in
          if negb size_ok then ret false
          else
            wait_for_timeout variational_page 100 >>
            let* submitted := click_submit_variational variational_page symbol in
            if submitted then ret true else ret false
    end.

Definition execute_variational_long (pages : gmap string page)
    (configs : list (gmap string string)) : M bool :=
  if bool_decide (pages = ∅) || bool_decide (pages !! "variational" = None)
  then ret false
  else
    match pages !! "variational" with
    | None => raise KeyError
    | Some variational_page =>
        let* config := first_config configs in
        let* symbol := config_symbol config in
        let size := config_get config "size" "0.0001" in
        let* long_ok := click_long_button_variational variational_page in
        if negb long_ok then ret false
        else
          wait_for_timeout variational_page 500 >>
          let* size_ok := fill_quantity_variational variational_page size in
          if negb size_ok then ret false
          else
            wait_for_timeout variational_page 500 >>
            let* submitted := click_submit_variational variational_page symbol in
            if submitted then ret true else ret false
    end.

(** *** The two trade methods *)

(** Long on Nado, then short on Variational. *)
Definition method1 (fuel : nat) (pages : gmap string page)
    (configs : list (gmap string string)) : M unit :=
  match configs with
  | [] => ret tt
  | _ =>
      if bool_decide (pages = ∅) || bool_decide (pages !! "nado" = None)
      then ret tt
      else
        match pages !! "nado" with
        | None => raise KeyError
        | Some nado_page =>
            let* config := first_config configs in
            let* symbol := config_symbol config in
            let size := config_get config "size" "0.0001" in
            let* price_offset := lift (py_float (config_get config "price_offset" "-5")) in
            let* is_filled :=
              execute_nado_order_with_retry fuel nado_page symbol size
                (PyFloat price_offset) "long" 3 in
            if is_filled
            then execute_variational_short pages configs >> ret tt
            else ret tt
        end
  end.

(** Short on Nado, then long on Variational. *)
Definition method2 (fuel : nat) (pages : gmap string page)
    (configs : list (gmap string string)) : M unit :=
  match configs with
  | [] => ret tt
  | _ =>
      if bool_decide (pages = ∅) || bool_decide (pages !! "nado" = None)
      then ret tt
      else
        match pages !! "nado" with
        | None => raise KeyError
        | Some nado_page =>
            let* config := first_config configs in
            let* symbol := config_symbol config in
            let size := config_get config "size" "0.0001" in
            let* price_offset := lift (py_float (config_get config "price_offset" "-5")) in
            let* is_filled :=
              execute_nado_order_with_retry fuel nado_page symbol size
                (PyFloat price_offset) "short" 999 in
            if is_filled
            then execute_variational_long pages configs >> ret tt
            else ret tt
        end
  end.

End OpenPage.

(** ** A simulated exchange page

    A world that runs: a clock in milliseconds, a page on which some
    selectors match, a position that changes when the order is filled, and
    position reads that may fail.  It serves as the concrete input of the
    examples. *)

Module Sim.

Record scenario : Type := Scenario {
  (** the answer of the price API *)
  sc_prices : option (gmap string Z);
  (** the time that passes with each reading of the clock *)
  sc_tick_ms : Z;
  (** the selectors that match an element *)
  sc_present : string -> bool;
  (** the time from which the position shows the filled order *)
  sc_fill_at_ms : option Z;
  (** whether looking up the position raises *)
  sc_reads_fail : bool
}.

(** The world state is the clock, in milliseconds. *)
Definition sim : Type := Z.

Definition seconds (ms : Z) : spec_float := fdiv (float_of_Z ms) (float_of_Z 1000).

Definition position_selectors : list string :=
  ["button.text-negative"; "button.text-positive";
   has_text "button" "BTC"; has_text "button" "ETH"].

Definition is_position_selector (selector : string) : bool :=
  existsb (String.eqb selector) position_selectors.

Definition position_text (sc : scenario) (now : sim) : string :=
  match sc_fill_at_ms sc with
  | Some t => if t <=? now then " 0.0001 BTC " else " 0.0000 BTC "
  | None => " 0.0000 BTC "
  end.

Definition sim_env (sc : scenario) : Env sim := {|
  env_time := fun now => (seconds now, now + sc_tick_ms sc);
  env_get_price_from_api := fun _ _ now => (Returns (sc_prices sc), now);
  env_query_selector := fun _ selector now =>
    if sc_reads_fail sc && is_position_selector selector
    then (Throws (Error "TimeoutError"), now)
    else (Returns (if sc_present sc selector then Some 0%nat else None), now);
  env_inner_text := fun e now =>
    if is_position_selector (elem_selector e)
    then (Returns (position_text sc now), now)
    else if String.eqb (elem_selector e) sel_submit_button
    then (Returns "Sell BTC", now)
    else (Returns "Open Orders", now);
  env_click := fun _ _ now => (Returns tt, now);
  env_get_attribute := fun _ _ now => (Returns None, now);
  env_fill := fun _ _ now => (Returns tt, now);
  env_evaluate := fun _ _ now => (Returns true, now);
  env_wait_for_timeout := fun _ ms now => (Returns tt, now + ms)
|}.

Definition start : state sim := State 0 [].

Definition nado : page := 1%nat.
Definition variational : page := 2%nat.

Definition pages : gmap string page :=
  {[ "nado" := nado; "variational" := variational ]}.

(** The record of the end-to-end scenario. *)
Definition btc_config : gmap string string :=
  {[ "symbol" := "BTC"; "size" := "0.0001"; "price_offset" := "-5.00";
     "nado_env_id" := "n1"; "variational_env_id" := "v1" ]}.

(** The same record with the offset 5.00. *)
Definition btc_config_plus : gmap string string :=
  <[ "price_offset" := "5.00" ]> btc_config.

Definition btc_quote : gmap string Z :=
  {[ "bid" := 9060200; "ask" := 9060400; "mid" := 9060300 ]}.

(** Every selector matches, and the order is filled two seconds in. *)
Definition filling : scenario :=
  Scenario (Some btc_quote) 0 (fun _ => true) (Some 2000) false.

(** Every selector matches, the order is never filled, and every reading
    of the clock takes [tick_ms]. *)
Definition stalled (tick_ms : Z) : scenario :=
  Scenario (Some btc_quote) tick_ms (fun _ => true) None false.

(** Every reading of the clock takes ten seconds, and the order is
    filled after a minute. *)
Definition slow_fill : scenario :=
  Scenario (Some btc_quote) 10000 (fun _ => true) (Some 60000) false.

(** Looking up the position raises. *)
Definition failing_reads : scenario :=
  Scenario (Some btc_quote) 0 (fun _ => true) None true.

(** A page on which no selector matches; no order is shown. *)
Definition blank : scenario :=
  Scenario (Some btc_quote) 0 (fun _ => false) None false.

End Sim.

(** A page on which one look-up of the position fails. *)

Module Flaky.

(** The page of [Sim.stalled 1000]: every reading of the clock takes a
    second and the position never changes.  The look-ups of the position
    raise once, between the third and the fourth second. *)
Definition one_failed_read : Env Sim.sim := {|
  env_time := env_time (Sim.sim_env (Sim.stalled 1000));
  env_get_price_from_api := env_get_price_from_api (Sim.sim_env (Sim.stalled 1000));
  env_query_selector := fun p selector now =>
    if Sim.is_position_selector selector && (3000 <=? now) && (now <? 4000)
    then (Throws (Error "TimeoutError"), now)
    else env_query_selector (Sim.sim_env (Sim.stalled 1000)) p selector now;
  env_inner_text := env_inner_text (Sim.sim_env (Sim.stalled 1000));
  env_click := env_click (Sim.sim_env (Sim.stalled 1000));
  env_get_attribute := env_get_attribute (Sim.sim_env (Sim.stalled 1000));
  env_fill := env_fill (Sim.sim_env (Sim.stalled 1000));
  env_evaluate := env_evaluate (Sim.sim_env (Sim.stalled 1000));
  env_wait_for_timeout := env_wait_for_timeout (Sim.sim_env (Sim.stalled 1000))
|}.

End Flaky.

(** ** Observations on a run *)

(** *** The trace *)

(** Every call that [m] makes satisfies [Q]. *)
Definition only {W} (Q : call -> Prop) {A} (m : M W A) : Prop :=
  forall s, exists new, trace (snd (m s)) = new ++ trace s /\ Forall Q new.

(** The first call that [m] makes is [c], and the later ones satisfy [Q]. *)
Definition starts_with {W} (c : call) (Q : call -> Prop) {A} (m : M W A) : Prop :=
  forall s, exists rest, trace (snd (m s)) = rest ++ c :: trace s /\ Forall Q rest.

(** Three calls mark the start of an action: looking up the Limit button
    is the first call of [execute_nado_order], a submission; looking up
    the Open Orders tab is the first call of [cancel_all_orders]; looking
    up the bid or the ask display is the first call of a hedge on
    Variational. *)
Inductive marker : Type :=
| Submission
| Cancellation
| Hedge.

Definition marker_of (c : call) : option marker :=
  match c with
  | QuerySelector _ selector =>
      if String.eqb selector sel_limit then Some Submission
      else if String.eqb selector sel_open_orders_tab then Some Cancellation
      else if String.eqb selector sel_bid_price_display
              || String.eqb selector sel_ask_price_display then Some Hedge
      else None
  | _ => None
  end.

Definition unmarked (c : call) : Prop := marker_of c = None.

Definition is_submission (c : call) : bool :=
  match marker_of c with Some Submission => true | _ => false end.
Definition is_cancellation (c : call) : bool :=
  match marker_of c with Some Cancellation => true | _ => false end.
Definition is_hedge (c : call) : bool :=
  match marker_of c with Some Hedge => true | _ => false end.

(** How many orders were submitted. *)
Definition submissions (calls : list call) : nat :=
  length (List.filter is_submission calls).

(** Every submission after the first is a resubmission. *)
Definition resubmissions (calls : list call) : nat := pred (submissions calls).

(** Reading the calls in the order in which they were made: a submission
    is allowed when [armed]; it disarms, and a cancellation arms again.
    The result is [None] when a submission came while disarmed. *)
Fixpoint cancel_guard (armed : bool) (calls : list call) : option bool :=
  match calls with
  | [] => Some armed
  | c :: calls' =>
      if is_submission c then
        if armed then cancel_guard false calls' else None
      else if is_cancellation c then cancel_guard true calls'
      else cancel_guard armed calls'
  end.

(** Every resubmission comes after a cancellation that is later than the
    submission before it; [calls] has the latest call first. *)
Definition cancel_before_each_resubmission (calls : list call) : Prop :=
  is_Some (cancel_guard true (rev calls)).

(** One guard after another. *)
Definition guard_then (g1 g2 : bool -> option bool) (armed : bool) : option bool :=
  match g1 armed with
  | Some armed' => g2 armed'
  | None => None
  end.

(** What [m] adds to the trace has [P] for its number of submissions and
    its guard. *)
Definition emits {W A} (P : nat -> (bool -> option bool) -> Prop) (m : M W A) : Prop :=
  forall s, exists new,
    trace (snd (m s)) = new ++ trace s /\
    P (submissions new) (fun armed => cancel_guard armed (rev new)).

(** Calls without a marker: no submission, and the guard is unchanged. *)
Definition quiet (k : nat) (g : bool -> option bool) : Prop :=
  k = 0%nat /\ forall a, g a = Some a.

(** A cancellation: no submission, and the guard is armed. *)
Definition cancelled (k : nat) (g : bool -> option bool) : Prop :=
  k = 0%nat /\ forall a, g a = Some true.

(** A submission: it needs an armed guard and disarms it. *)
Definition submitted (k : nat) (g : bool -> option bool) : Prop :=
  k = 1%nat /\ forall a, g a = if a then Some false else None.

(** A pass of the retry loop with [retry_count = c]: at most one
    submission, and the guard holds if it is armed or [c] is positive. *)
Definition one_pass (c : Z) (k : nat) (g : bool -> option bool) : Prop :=
  (k <= 1)%nat /\ forall a, 0 < c \/ a = true -> is_Some (g a).

(** The passes of the retry loop from [retry_count = c] with a budget. *)
Definition passes_within (budget : nat) (c : Z) (k : nat)
    (g : bool -> option bool) : Prop :=
  (k <= budget)%nat /\ forall a, 0 < c \/ a = true -> is_Some (g a).

(** The call does not start a hedge. *)
Definition not_hedge (c : call) : Prop := is_hedge c = false.

(** The call does not start a submission. *)
Definition not_submission (c : call) : Prop := is_submission c = false.

(** A hedge was attempted. *)
Definition hedge_attempted (calls : list call) : Prop :=
  Exists (fun c => is_hedge c = true) calls.

(** The size that a [fill] call enters, if the call is one. *)
Definition enters_size (size : string) (c : call) : Prop :=
  match c with
  | Fill _ text => text = size
  | _ => True
  end.

(** What the body decides after the monitor has answered. *)
Definition decision (outcome : option bool) : loop_step bool :=
  match outcome with
  | Some true => Return true
  | None => Continue
  | Some false => Return false
  end.

(** *** Runs of the fill monitor and of the retry loop *)

Section Runs.

Context {W : Type} (env : Env W).

Section Polls.

Variables (p : page) (symbol : string) (initial_position : option string).
Variables (check_interval : py_num) (start_time : spec_float).
(** what holds of the elapsed time at each poll *)
Variable below : py_num -> Prop.

(** [polls n s s']: from [s], the monitor polls [n] times, each time
    reads the position of the baseline and sleeps, and is then in [s']. *)
Inductive polls : nat -> state W -> state W -> Prop :=
| polls_O s : polls 0 s s
| polls_S n s now s1 s2 scaled ms s3 s' :
    time_time env s = (Ok now, s1) ->
    below (PyFloat (fsub now start_time)) ->
    get_nado_position env p symbol s1 = (Ok initial_position, s2) ->
    py_mul check_interval (PyInt 1000) = Ok scaled ->
    py_int scaled = Ok ms ->
    wait_for_timeout env p ms s2 = (Ok tt, s3) ->
    polls n s3 s' ->
    polls (S n) s s'.

End Polls.

(** The monitor starts in [s]; after [n] polls without a change, and
    before [retry_timeout] has elapsed, it reads a position that differs
    from the baseline, in [s']. *)
Definition position_changes_within (p : page) (symbol : string)
    (initial_position : option string) (check_interval retry_timeout : py_num)
    (n : nat) (s s' : state W) : Prop :=
  exists start_time s0 s1 now s2 current,
    time_time env s = (Ok start_time, s0) /\
    polls p symbol initial_position check_interval start_time
      (fun elapsed => py_lt elapsed retry_timeout = true) n s0 s1 /\
    time_time env s1 = (Ok now, s2) /\
    py_lt (PyFloat (fsub now start_time)) retry_timeout = true /\
    get_nado_position env p symbol s2 = (Ok current, s') /\
    current <> initial_position.

Section Passes.

Variables (fuel : nat) (p : page) (symbol size : string).
Variables (price_offset : py_num) (direction : string).

(** The start of a pass of the retry loop, up to the submission: the
    cancellation when it is a resubmission, the price, the baseline. *)
Definition ready_to_submit (retry_count : Z) (s : state W)
    (order_price : Z) (initial_position : option string) (s' : state W) : Prop :=
  exists s1 s2 price_num,
    (if 0 <? retry_count
     then cancel_all_orders env p symbol >> wait_for_timeout env p 1000
     else ret tt) s = (Ok tt, s1) /\
    get_and_calculate_order_price env p symbol price_offset direction s1
      = (Ok (Some (price_num, order_price)), s2) /\
    get_nado_position env p symbol s2 = (Ok initial_position, s').

(** A pass in which the order is submitted and the monitor answers
    [outcome]. *)
Definition pass_monitored (retry_count : Z) (s : state W)
    (outcome : option bool) (s' : state W) : Prop :=
  exists order_price initial_position s1 s2,
    ready_to_submit retry_count s order_price initial_position s1 /\
    execute_nado_order env p symbol order_price size direction s1 = (Ok true, s2) /\
    monitor_order_fill env fuel p symbol initial_position
      (PyFloat (float_lit "0.5")) (PyInt 300) (PyInt 30) s2
      = (Ok outcome, s').

(** A pass in which the submission fails. *)
Definition pass_not_submitted (retry_count : Z) (s s' : state W) : Prop :=
  exists order_price initial_position s1,
    ready_to_submit retry_count s order_price initial_position s1 /\
    execute_nado_order env p symbol order_price size direction s1 = (Ok false, s').

(** [resubmits k c s s']: [k] passes in a row, the first with
    [retry_count = c], in each of which the monitor answers [None]. *)
Inductive resubmits : nat -> Z -> state W -> state W -> Prop :=
| resubmits_O c s : resubmits 0 c s s
| resubmits_S k c s s1 s' :
    pass_monitored c s None s1 ->
    resubmits k (c + 1) s1 s' ->
    resubmits (S k) c s s'.

End Passes.

End Runs.

(** *** The claims in the words of the specification *)

(** No order is open: the page shows no Cancel all button, or a disabled
    one. *)
Definition no_open_orders {W} (env : Env W) (p : page) (s : state W) : Prop :=
  match env_query_selector env p sel_cancel_all (world s) with
  | (Returns None, _) => True
  | (Returns (Some h), w) =>
      exists v, fst (env_get_attribute env (Elem p sel_cancel_all h) "disabled" w)
                = Returns (Some v)
  | (Throws _, _) => False
  end.

(** Rounding [m * 2^e], for [m >= 0], to the nearest integer, a half going
    up in magnitude. *)
Definition round_half_up (m e : Z) : Z :=
  if 0 <=? e then m * 2 ^ e
  else
    let d := 2 ^ (- e) in
    if 2 * (m mod d) <? d then m / d else m / d + 1.

(** The offset in integer cents, rounded half up. *)
Definition cents_half_up (scaled : spec_float) : option Z :=
  match scaled with
  | S754_finite s m e => Some (cond_Zopp s (round_half_up (Zpos m) e))
  | S754_zero _ => Some 0
  | _ => None
  end.

(** * Further observations and functions *)

(** ** Observations on the calls of a function *)

(** [int(check_interval * 1000)], the pause between two polls. *)
Definition poll_interval_ms (check_interval : py_num) : res Z :=
  match py_mul check_interval (PyInt 1000) with
  | Ok scaled => py_int scaled
  | Raise e => Raise e
  | OutOfFuel => OutOfFuel
  end.

(** The call reads the clock, looks up an element or reads its text; or
    it is a pause of [ms] on the page [p]. *)
Definition polls_only (p : page) (ms : res Z) (c : call) : Prop :=
  match c with
  | TimeTime | QuerySelector _ _ | InnerText _ => True
  | WaitForTimeout q t => q = p /\ ms = Ok t
  | _ => False
  end.

(** The call reads the clock, looks up an element, reads its text or
    pauses: it changes nothing on the page. *)
Definition observes (c : call) : Prop :=
  match c with
  | TimeTime | QuerySelector _ _ | InnerText _ | WaitForTimeout _ _ => True
  | _ => False
  end.

(** The calls of a submission that succeeds, in the order in which they
    are made: the Limit button, the tab of the direction, the price, the
    size and the submit button. *)
Definition submission_calls (p : page) (symbol size direction price_text : string)
    (h1 h2 h3 h4 h5 : nat) : list call :=
  let tab := if String.eqb direction "long" then sel_long_tab else sel_short_tab in
  let submit := if String.eqb direction "long"
                then sel_submit_long symbol else sel_submit_short symbol in
  [ QuerySelector p sel_limit; Click (Elem p sel_limit h1) None;
    WaitForTimeout p 500;
    QuerySelector p tab; Click (Elem p tab h2) None;
    WaitForTimeout p 500;
    QuerySelector p sel_limit_price; Fill (Elem p sel_limit_price h3) price_text;
    WaitForTimeout p 300;
    QuerySelector p sel_size; Fill (Elem p sel_size h4) size;
    WaitForTimeout p 300;
    QuerySelector p submit; Click (Elem p submit h5) None ].

(** ** The characters of a text *)

(** The bytes after the first byte of a character continue it. *)
Fixpoint all_continuation (s : string) : bool :=
  match s with
  | String c s' => is_continuation c && all_continuation s'
  | EmptyString => true
  end.

(** A character: a byte and the bytes that continue it. *)
Definition is_char (ch : string) : Prop :=
  exists c r, ch = String c r /\ all_continuation r = true.

(** The first byte of the character opens a character. *)
Definition opens (ch : string) : Prop :=
  exists c r, ch = String c r /\ is_continuation c = false.

(** A list of characters as [chars] gives it: only the first may begin
    with a byte that continues a character. *)
Definition are_chars (l : list string) : Prop :=
  Forall is_char l /\ Forall opens (tl l).

(** Neither the first nor the last character of the text is a blank. *)
Definition no_blank_at_ends (text : string) : Prop :=
  forall ch, head (chars text) = Some ch \/ last (chars text) = Some ch ->
             is_space ch = false.

(** Texts that are not ASCII: a no-break space, the full-width digit
    five, and the separator U+001C. *)
Module Texts.

Definition no_break_space : string :=
  String (ascii_of_nat 194) (String (ascii_of_nat 160) EmptyString).

Definition fullwidth_five : string :=
  String (ascii_of_nat 239)
    (String (ascii_of_nat 188) (String (ascii_of_nat 149) EmptyString)).

Definition file_separator : string := String (ascii_of_nat 28) EmptyString.

End Texts.

(** What [get_nado_position] accepts as the text of a position: the text
    is not empty, has no blank at either end, and it names the symbol,
    BTC or ETH.  The comparison with the symbol is in upper case, which
    is modelled for ASCII texts. *)
Definition position_text_ok (symbol text : string) : Prop :=
  text <> "" /\
  no_blank_at_ends text /\
  py_strip text = text /\
  (is_ascii symbol = true -> is_ascii text = true ->
   py_in (py_upper symbol) (py_upper text) = true
   \/ py_in "BTC" text = true \/ py_in "ETH" text = true).

(** How many of the calls satisfy [f]. *)
Definition count_calls (f : call -> bool) (calls : list call) : nat :=
  length (List.filter f calls).

Definition is_click (c : call) : bool :=
  match c with Click _ _ => true | _ => false end.
Definition is_fill (c : call) : bool :=
  match c with Fill _ _ => true | _ => false end.
Definition is_evaluate (c : call) : bool :=
  match c with Evaluate _ _ => true | _ => false end.

(** The side of the quote that a direction needs. *)
Definition quote_side (quote : option (gmap string Z)) (direction : string)
  : option Z :=
  match quote with
  | Some prices => prices !! (if String.eqb direction "long" then "bid" else "ask")
  | None => None
  end.

(** ** Further simulated pages *)

Module Sim2.

(** The price API has no quote. *)
Definition no_quote : Sim.scenario :=
  Sim.Scenario None 0 (fun _ => true) None false.

(** The price API raises: a quote that reads as infinite makes its
    [round] raise [OverflowError], which it does not catch. *)
Definition api_overflow : Env Sim.sim := {|
  env_time := env_time (Sim.sim_env Sim.filling);
  env_get_price_from_api := fun _ _ now => (Throws OverflowError, now);
  env_query_selector := env_query_selector (Sim.sim_env Sim.filling);
  env_inner_text := env_inner_text (Sim.sim_env Sim.filling);
  env_click := env_click (Sim.sim_env Sim.filling);
  env_get_attribute := env_get_attribute (Sim.sim_env Sim.filling);
  env_fill := env_fill (Sim.sim_env Sim.filling);
  env_evaluate := env_evaluate (Sim.sim_env Sim.filling);
  env_wait_for_timeout := env_wait_for_timeout (Sim.sim_env Sim.filling)
|}.

(** Only the Nado page is open. *)
Definition nado_only : gmap string page := {[ "nado" := Sim.nado ]}.

(** Records whose offset reads as not-a-number and as minus infinity. *)
Definition nan_offset_config : gmap string string :=
  <[ "price_offset" := "nan" ]> Sim.btc_config.
Definition inf_offset_config : gmap string string :=
  <[ "price_offset" := "-inf" ]> Sim.btc_config.

(** A record whose offset is no number at all. *)
Definition bad_offset_config : gmap string string :=
  <[ "price_offset" := "five" ]> Sim.btc_config.

End Sim2.

(** ** The configuration file *)

(** A row of [csv.DictReader]: the columns of the header are its keys, and
    a column that the row does not reach holds [None]. *)
Definition csv_row : Type := gmap string (option string).

(** [row.get(key)] is [row_get row key None], and [row.get(key, text)] is
    [row_get row key (Some text)]. *)
Definition row_get (row : csv_row) (key : string) (fallback : option string)
  : option string :=
  match row !! key with
  | Some value => value
  | None => fallback
  end.

(** [row[key]] *)
Definition row_item (row : csv_row) (key : string) : res (option string) :=
  match row !! key with
  | Some value => Ok value
  | None => Raise KeyError
  end.

(** The truth value of a cell. *)
Definition truthy_cell (value : option string) : bool :=
  match value with
  | Some text => truthy_str text
  | None => false
  end.

(** [value.strip()]; [None] has no such method. *)
Definition cell_strip (value : option string) : res string :=
  match value with
  | Some text => Ok (py_strip text)
  | None => Raise (Error "AttributeError")
  end.

Definition res_bind {A B} (r : res A) (k : A -> res B) : res B :=
  match r with
  | Ok a => k a
  | Raise e => Raise e
  | OutOfFuel => OutOfFuel
  end.

(** The body of the loop of [load_config] over the rows: [None] stands
    for [continue], and [Some config] for the record that is appended. *)
Definition load_row (row : csv_row) : res (option (gmap string string)) :=
  if negb (truthy_cell (row_get row "nado_env_id" None))
     || negb (truthy_cell (row_get row "variational_env_id" None))
     || negb (truthy_cell (row_get row "symbol" None))
  then Ok None
  else
    res_bind (res_bind (row_item row "nado_env_id") cell_strip) (fun nado_env_id =>
    res_bind (res_bind (row_item row "variational_env_id") cell_strip)
      (fun variational_env_id =>
    res_bind (res_bind (row_item row "symbol") cell_strip) (fun symbol =>
    res_bind (cell_strip (row_get row "size" (Some ""))) (fun size =>
    res_bind (cell_strip (row_get row "price_offset" (Some "-5"))) (fun price_offset =>
    Ok (Some ({[ "nado_env_id" := nado_env_id;
                 "variational_env_id" := variational_env_id;
                 "symbol" := py_upper symbol;
                 "size" := size;
                 "price_offset" := price_offset ]} : gmap string string))))))).

(** The loop over the rows; [configs] is the list built so far. *)
Fixpoint load_rows (rows : list csv_row) (configs : list (gmap string string))
  : res (list (gmap string string)) :=
  match rows with
  | [] => Ok configs
  | row :: rest =>
      match load_row row with
      | Ok None => load_rows rest configs
      | Ok (Some config) => load_rows rest (configs ++ [config])
      | Raise e => Raise e
      | OutOfFuel => OutOfFuel
      end
  end.

(** [file] is [None] when the file does not exist, and else the rows that
    [csv.DictReader] reads from it. *)
Definition load_config (file : option (list csv_row))
  : res (list (gmap string string)) :=
  match file with
  | None => Ok []
  | Some rows => load_rows rows []
  end.

(** The keys of a record. *)
Definition config_keys : list string :=
  ["nado_env_id"; "variational_env_id"; "symbol"; "size"; "price_offset"].

(** A record has every key, and its symbol is in upper case. *)
Definition loaded_record (config : gmap string string) : Prop :=
  Forall (fun key => is_Some (config !! key)) config_keys /\
  exists symbol, config !! "symbol" = Some symbol /\ py_upper symbol = symbol.

(** The row passes the test on its three required cells. *)
Definition row_is_kept (row : csv_row) : Prop :=
  truthy_cell (row_get row "nado_env_id" None) = true /\
  truthy_cell (row_get row "variational_env_id" None) = true /\
  truthy_cell (row_get row "symbol" None) = true.

(** ** Rows of a configuration file *)

Module Rows.

Definition btc_row : csv_row :=
  {[ "nado_env_id" := Some " n1 "; "variational_env_id" := Some "v1";
     "symbol" := Some "btc"; "size" := Some "0.0001";
     "price_offset" := Some "-5.00" ]}.

(** A row whose symbol is empty; it is skipped. *)
Definition no_symbol_row : csv_row :=
  {[ "nado_env_id" := Some "n2"; "variational_env_id" := Some "v2";
     "symbol" := Some ""; "size" := Some "1"; "price_offset" := Some "1" ]}.

(** A row that ends after the symbol. *)
Definition short_row : csv_row :=
  {[ "nado_env_id" := Some "n1"; "variational_env_id" := Some "v1";
     "symbol" := Some "BTC"; "size" := None; "price_offset" := None ]}.

(** A row whose offset cell is blank. *)
Definition blank_offset_row : csv_row :=
  {[ "nado_env_id" := Some "n1"; "variational_env_id" := Some "v1";
     "symbol" := Some "BTC"; "size" := Some "0.0001"; "price_offset" := Some " " ]}.

(** A row of a file without the columns of the size and of the offset. *)
Definition three_column_row : csv_row :=
  {[ "nado_env_id" := Some "n1"; "variational_env_id" := Some "v1";
     "symbol" := Some "BTC" ]}.

End Rows.

(** ** The price API *)

(** [get_price_from_api] itself, over the calls that it makes: the lookup
    of the product id, the HTTP requests and the pauses between them. *)

Module Api.

(** A value decoded from JSON; [JDict] lists the fields of an object. *)
#[local] Set Warnings "-register-all".
Inductive json : Type :=
| JNull
| JBool (b : bool)
| JInt (z : Z)
| JFloat (f : spec_float)
| JStr (s : string)
| JList (items : list json)
| JDict (fields : list (string * json)).
#[local] Set Warnings "register-all".

(** The truth value of [v]. *)
Definition truthy (v : json) : bool :=
  match v with
  | JNull => false
  | JBool b => b
  | JInt z => negb (z =? 0)
  | JFloat (S754_zero _) => false
  | JFloat _ => true
  | JStr s => truthy_str s
  | JList [] => false
  | JList _ => true
  | JDict [] => false
  | JDict _ => true
  end.

Fixpoint assoc (key : string) (fields : list (string * json)) : option json :=
  match fields with
  | [] => None
  | (k, v) :: rest => if String.eqb k key then Some v else assoc key rest
  end.

(** [v.get(key, fallback)]; only a dictionary has the method. *)
Definition dict_get (v : json) (key : string) (fallback : json) : res json :=
  match v with
  | JDict fields => Ok (default fallback (assoc key fields))
  | _ => Raise (Error "AttributeError")
  end.

(** [float(v)] *)
Definition json_float (v : json) : res spec_float :=
  match v with
  | JStr s => py_float s
  | JInt z => float_of_int z
  | JFloat f => Ok f
  | JBool b => Ok (float_of_Z (if b then 1 else 0))
  | JNull | JList _ | JDict _ => Raise (Error "TypeError")
  end.

Definition fadd : spec_float -> spec_float -> spec_float := SFadd prec emax.

(** [float(x18) / (10 ** 18)] and [int(round(price * 100))] *)
Definition side_price (x18 : json) : res (spec_float * Z) :=
  res_bind (json_float x18) (fun x =>
  let price := fdiv x (float_of_Z (10 ^ 18)) in
  res_bind (py_mul (PyFloat price) (PyInt 100)) (fun scaled =>
  res_bind (py_round scaled) (fun rounded =>
  res_bind (py_int (PyInt rounded)) (fun price_int =>
  Ok (price, price_int))))).

(** [(bid + ask) / 2] and [int(round(mid * 100))] *)
Definition mid_price (bid ask : spec_float) : res Z :=
  let mid := fdiv (fadd bid ask) (float_of_Z 2) in
  res_bind (py_mul (PyFloat mid) (PyInt 100)) (fun scaled =>
  res_bind (py_round scaled) (fun rounded =>
  py_int (PyInt rounded))).

(** The end of [get_price_from_api], from [if isinstance(price_data, dict)]
    on: the prices in integer cents, or [None]. *)
Definition extract_prices (price_data : json) : res (option (gmap string Z)) :=
  match price_data with
  | JDict _ =>
      res_bind (dict_get price_data "data" price_data) (fun data_section =>
      res_bind (dict_get data_section "bid_x18" JNull) (fun bid_x18 =>
      res_bind (dict_get data_section "ask_x18" JNull) (fun ask_x18 =>
      let result : gmap string Z := ∅ in
      res_bind
        (if truthy bid_x18
         then res_bind (side_price bid_x18) (fun '(bid, bid_int) =>
                Ok (<[ "bid" := bid_int ]> result, Some bid))
         else Ok (result, None)) (fun '(result, bid) =>
      res_bind
        (if truthy ask_x18
         then res_bind (side_price ask_x18) (fun '(ask, ask_int) =>
                Ok (<[ "ask" := ask_int ]> result, Some ask))
         else Ok (result, None)) (fun '(result, ask) =>
      res_bind
        (match bid, ask with
         | Some bid, Some ask =>
             res_bind (mid_price bid ask) (fun mid_int =>
               Ok (<[ "mid" := mid_int ]> result))
         | _, _ => Ok result
         end) (fun result =>
      if bool_decide (result = ∅) then Ok None else Ok (Some result)))))))
  | _ => Ok None
  end.

(** The calls of [get_price_from_api]. *)
Inductive net_call : Type :=
| GetProductId (symbol product_type : string)
| RequestsGet (product_id : json)
| TimeSleep (seconds : Z).

(** A response: its status, and the outcome of [response.json()]. *)
Record response : Type := Response {
  status_code : Z;
  json_body : answer json
}.

Record Net (W : Type) : Type := {
  (** [get_product_id(symbol, product_type)] *)
  net_get_product_id : string -> string -> W -> answer json * W;
  (** [requests.get(base_url, params=params_price, timeout=10)], for the
      market price of [product_id] *)
  net_requests_get : json -> W -> answer response * W;
  (** [time.sleep(seconds)], which returns *)
  net_time_sleep : Z -> W -> W
}.
Arguments net_get_product_id {W}.
Arguments net_requests_get {W}.
Arguments net_time_sleep {W}.

(** The network, and the calls made so far, the latest first. *)
Record logged (W : Type) : Type := Logged {
  net_world : W;
  net_log : list net_call
}.
Arguments Logged {W} net_world net_log.
Arguments net_world {W} l.
Arguments net_log {W} l.

(** What the loop over the attempts does next. *)
Inductive attempt_step : Type :=
| Next
| GiveUp
| Break (price_data : json).

(** How the loop over the attempts ends: [return None], or the value of
    [price_data] after the loop. *)
Inductive attempts_end : Type :=
| Returned
| After (price_data : option json).

Section PriceApi.

Context {W : Type} (net : Net W).

Local Abbreviation NetM := (M (logged W)).

(** A call to the network: it is added to the log. *)
Definition perform_net {A} (c : net_call) (op : W -> answer A * W) : NetM A :=
  fun s =>
    let '(a, w) := op (net_world (world s)) in
    (match a with Returns v => Ok v | Throws e => Raise e end,
     State (Logged w (c :: net_log (world s))) (trace s)).

Definition get_product_id (symbol product_type : string) : NetM json :=
  perform_net (GetProductId symbol product_type)
    (net_get_product_id net symbol product_type).

Definition requests_get (product_id : json) : NetM response :=
  perform_net (RequestsGet product_id) (net_requests_get net product_id).

Definition time_sleep (seconds : Z) : NetM unit :=
  perform_net (TimeSleep seconds)
    (fun w => (Returns tt, net_time_sleep net seconds w)).

(** [Error "RequestException"] stands for the exceptions of the class
    [requests.exceptions.RequestException]. *)
Definition RequestException : exn := Error "RequestException".

(** [try: body  except requests.exceptions.RequestException: handler] *)
Definition try_except_RequestException {A} (body handler : NetM A) : NetM A :=
  fun s =>
    match body s with
    | (Raise (Error kind), s') =>
        if String.eqb kind "RequestException" then handler s'
        else (Raise (Error kind), s')
    | r => r
    end.

(** [try: body  except (ValueError, KeyError, TypeError): handler] *)
Definition try_except_parsing {A} (body handler : NetM A) : NetM A :=
  fun s =>
    match body s with
    | (Raise ValueError, s') => handler s'
    | (Raise KeyError, s') => handler s'
    | (Raise (Error kind), s') =>
        if String.eqb kind "TypeError" then handler s'
        else (Raise (Error kind), s')
    | r => r
    end.

(** [response.raise_for_status()] raises for the statuses 400 to 599. *)
Definition raise_for_status (r : response) : NetM unit :=
  if (400 <=? status_code r) && (status_code r <? 600)
  then raise RequestException
  else ret tt.

(** [response.json()] *)
Definition response_json (r : response) : NetM json :=
  match json_body r with
  | Returns v => ret v
  | Throws e => raise e
  end.

(** The body of the loop [for attempt in range(max_retries)]. *)
Definition price_attempt (product_id : json) (max_retries attempt : Z)
  : NetM attempt_step :=
  try_except_RequestException
    (let* response := requests_get product_id in
     if status_code response =? 429 then
       let wait_time := 2 ^ attempt * 1 in
       if attempt <? max_retries - 1
       then time_sleep wait_time >> ret Next
       else ret GiveUp
     else
       raise_for_status response >>
       let* price_data := response_json response in
       ret (Break price_data))
    (if attempt <? max_retries - 1
     then
       let wait_time := 2 ^ attempt * 1 in
       time_sleep wait_time >> ret Next
     else ret GiveUp).

(** The loop, with [todo] attempts left from [attempt] on. *)
Fixpoint price_attempts (todo : nat) (product_id : json) (max_retries attempt : Z)
  : NetM attempts_end :=
  match todo with
  | O => ret (After None)
  | S todo' =>
      let* step := price_attempt product_id max_retries attempt in
      match step with
      | Next => price_attempts todo' product_id max_retries (attempt + 1)
      | GiveUp => ret Returned
      | Break price_data => ret (After (Some price_data))
      end
  end.

Definition get_price_from_api (symbol product_type : string)
  : NetM (option (gmap string Z)) :=
  try_except_parsing
    (let* product_id := get_product_id symbol product_type in
     if negb (truthy product_id) then ret None
     else
       let max_retries := 10 in
       let* ended := price_attempts (Z.to_nat max_retries) product_id max_retries 0 in
       match ended with
       | Returned => ret None
       | After None => ret None
       | After (Some price_data) =>
           if negb (truthy price_data) then ret None
           else lift (extract_prices price_data)
       end)
    (ret None).

End PriceApi.

(** How many requests are in a log, and how long the pauses are. *)
Definition requests (log : list net_call) : nat :=
  length (List.filter (fun c => match c with RequestsGet _ => true | _ => false end) log).

Fixpoint seconds_slept (log : list net_call) : Z :=
  match log with
  | [] => 0
  | TimeSleep seconds :: rest => seconds + seconds_slept rest
  | _ :: rest => seconds_slept rest
  end.

(** The request is answered with the status 429 or with another error
    status, or the request or the decoding of its body raises an
    exception of [requests]. *)
Definition request_fails (a : answer response) : Prop :=
  match a with
  | Throws e => e = RequestException
  | Returns r =>
      status_code r = 429 \/ 400 <= status_code r < 600
      \/ json_body r = Throws RequestException
  end.

(** The calls of ten failed attempts, in the order in which they are
    made: a pause of [2 ^ attempt] seconds after each but the tenth. *)
Definition ten_failed_attempts (product_id : json) : list net_call :=
  [ RequestsGet product_id; TimeSleep 1; RequestsGet product_id; TimeSleep 2;
    RequestsGet product_id; TimeSleep 4; RequestsGet product_id; TimeSleep 8;
    RequestsGet product_id; TimeSleep 16; RequestsGet product_id; TimeSleep 32;
    RequestsGet product_id; TimeSleep 64; RequestsGet product_id; TimeSleep 128;
    RequestsGet product_id; TimeSleep 256; RequestsGet product_id ].

(** *** A simulated network *)

(** The world counts the requests; the product id is 2, and the request
    number [n] is answered by [answers n]. *)
Definition sim_net (answers : Z -> answer response) : Net Z := {|
  net_get_product_id := fun _ _ n => (Returns (JInt 2), n);
  net_requests_get := fun _ n => (answers n, n + 1);
  net_time_sleep := fun _ n => n
|}.

Definition sim_start : state (logged Z) := State (Logged 0 []) [].

(** Every request is answered with the status 429. *)
Definition rate_limited : Z -> answer response :=
  fun _ => Returns (Response 429 (Throws ValueError)).

(** A quote as the API sends it. *)
Definition quote (bid_x18 ask_x18 : string) : json :=
  JDict [("status", JStr "success");
         ("data", JDict [("product_id", JInt 2);
                         ("bid_x18", JStr bid_x18); ("ask_x18", JStr ask_x18)])].

(** The first two requests fail, the third is answered with a quote. *)
Definition third_time_lucky : Z -> answer response :=
  fun n =>
    if n <? 2 then Throws RequestException
    else Returns (Response 200
                    (Returns (quote "90602000000000000000000" "90604000000000000000000"))).

End Api.

(** ** Observations on the price API *)

(** The calls of [todo] failed attempts from [attempt] on, in the order in
    which they are made, when the last of them is the last of the loop. *)
Fixpoint failed_attempts (todo : nat) (product_id : Api.json) (attempt : Z)
  : list Api.net_call :=
  match todo with
  | O => []
  | S O => [Api.RequestsGet product_id]
  | S todo' =>
      Api.RequestsGet product_id :: Api.TimeSleep (2 ^ attempt * 1)
      :: failed_attempts todo' product_id (attempt + 1)
  end.

(** What [get_price_from_api] makes of the outcome of [extract_prices]:
    the three kinds of exception that it catches become [None]. *)
Definition caught_as_none (r : res (option (gmap string Z)))
  : res (option (gmap string Z)) :=
  match r with
  | Raise ValueError | Raise KeyError => Ok None
  | Raise (Error kind) => if String.eqb kind "TypeError" then Ok None else r
  | _ => r
  end.

(** [failures net product_id k attempt w w']: from the world [w] and the
    attempt [attempt], [k] requests in a row fail, each followed by its
    pause, and the world is then [w']. *)
Inductive failures {W} (net : Api.Net W) (product_id : Api.json)
  : nat -> Z -> W -> W -> Prop :=
| failures_O attempt w : failures net product_id 0 attempt w w
| failures_S k attempt w w' :
    Api.request_fails (fst (Api.net_requests_get net product_id w)) ->
    failures net product_id k (attempt + 1)
      (Api.net_time_sleep net (2 ^ attempt * 1)
         (snd (Api.net_requests_get net product_id w))) w' ->
    failures net product_id (S k) attempt w w'.

(** ** Opening the windows *)

(** [start], [get_url], [open_page] and the loop of [main] that opens the
    windows of every record, over the calls that they make: the request
    to the launcher, and the browser. *)

Module Launch.

(** [v[key]] for a text [key] *)
Definition json_item (v : Api.json) (key : string) : res Api.json :=
  match v with
  | Api.JDict fields =>
      match Api.assoc key fields with
      | Some x => Ok x
      | None => Raise KeyError
      end
  | _ => Raise (Error "TypeError")
  end.

(** [v != 0] *)
Definition ne_zero (v : Api.json) : bool :=
  match v with
  | Api.JInt z => negb (z =? 0)
  | Api.JFloat (S754_zero _) => false
  | Api.JBool b => b
  | _ => true
  end.

(** [text + v] *)
Definition str_add (text : string) (v : Api.json) : res string :=
  match v with
  | Api.JStr s => Ok (text +:+ s)
  | _ => Raise (Error "TypeError")
  end.

(** [config[key]] *)
Definition config_item (config : gmap string string) (key : string) : res string :=
  match config !! key with
  | Some value => Ok value
  | None => Raise KeyError
  end.

Definition get_url (symbol platform : string) : res string :=
  let symbol := py_upper symbol in
  if String.eqb platform "variational"
  then Ok ("https://omni.variational.io/perpetual/" +:+ symbol)
  else if String.eqb platform "nado"
  then Ok ("https://app.nado.xyz/perpetuals?market=" +:+ symbol +:+ "USDT0")
  else Raise ValueError.

(** The calls that open a window. *)
Inductive launch_call : Type :=
| PostStart (field value : string)
| NewPage (cdp_url url : string).

Record Launcher (W : Type) : Type := {
  (** [requests.post("http://localhost:40000/api/env/start",
      json={field: value}).json()] *)
  launcher_post_start : string -> string -> W -> answer Api.json * W;
  (** [playwright.chromium.connect_over_cdp(cdp_url)], the new page of its
      first context, and [page.goto(url)] *)
  launcher_new_page : string -> string -> W -> answer page * W
}.
Arguments launcher_post_start {W}.
Arguments launcher_new_page {W}.

(** The launcher and the browser, and the calls made so far, the latest
    first. *)
Record launched (W : Type) : Type := Launched {
  launch_world : W;
  launch_log : list launch_call
}.
Arguments Launched {W} launch_world launch_log.
Arguments launch_world {W} l.
Arguments launch_log {W} l.

Section Windows.

Context {W : Type} (launcher : Launcher W).

Local Abbreviation LaunchM := (M (launched W)).

Definition perform_launch {A} (c : launch_call) (op : W -> answer A * W) : LaunchM A :=
  fun s =>
    let '(a, w) := op (launch_world (world s)) in
    (match a with Returns v => Ok v | Throws e => Raise e end,
     State (Launched w (c :: launch_log (world s))) (trace s)).

Definition post_start (field value : string) : LaunchM Api.json :=
  perform_launch (PostStart field value) (launcher_post_start launcher field value).

Definition new_page (cdp_url url : string) : LaunchM page :=
  perform_launch (NewPage cdp_url url) (launcher_new_page launcher cdp_url url).

Definition start (envId : string) (uniqueId : option string) : LaunchM (option string) :=
  let data :=
    if truthy_str envId && truthy_str (py_strip envId) then Some ("envId", envId)
    else
      match uniqueId with
      | Some unique => if truthy_str unique then Some ("uniqueId", unique) else None
      | None => None
      end in
  match data with
  | None => ret None
  | Some (field, value) =>
      let* response := post_start field value in
      let* code := lift (json_item response "code") in
      if ne_zero code then ret None
      else
        let* data := lift (json_item response "data") in
        let* port := lift (json_item data "debugPort") in
        let* cdp_url := lift (str_add "http://127.0.0.1:" port) in
        ret (Some cdp_url)
  end.

Definition open_page (env_id url : string) : LaunchM (option page) :=
  let* cdp_url := start env_id None in
  match cdp_url with
  | None => ret None
  | Some cdp_url =>
      let* pg := new_page cdp_url url in
      ret (Some pg)
  end.

(** The body of the loop [for config in configs] of [main]. *)
Definition open_windows (config : gmap string string) (pages : gmap string page)
  : LaunchM (gmap string page) :=
  let* symbol := lift (config_item config "symbol") in
  let* url_1 := lift (get_url symbol "variational") in
  let* symbol := lift (config_item config "symbol") in
  let* url_2 := lift (get_url symbol "nado") in
  let* variational_env_id := lift (config_item config "variational_env_id") in
  let* variational_page := open_page variational_env_id url_1 in
  let* nado_env_id := lift (config_item config "nado_env_id") in
  let* nado_page := open_page nado_env_id url_2 in
  let pages :=
    match variational_page with
    | Some pg => <[ "variational" := pg ]> pages
    | None => pages
    end in
  let pages :=
    match nado_page with
    | Some pg => <[ "nado" := pg ]> pages
    | None => pages
    end in
  ret pages.

(** The loop of [main] over the records; [pages] is the dictionary so
    far. *)
Fixpoint main_open_pages (configs : list (gmap string string))
    (pages : gmap string page) : LaunchM (gmap string page) :=
  match configs with
  | [] => ret pages
  | config :: rest =>
      let* pages := open_windows config pages in
      main_open_pages rest pages
  end.

End Windows.

(** *** A simulated launcher *)

(** The world counts the pages; every profile starts on the port 9222,
    and the page number [n] is the [n]-th that was opened. *)
Definition sim_launcher : Launcher nat := {|
  launcher_post_start := fun _ _ n =>
    (Returns (Api.JDict [("code", Api.JInt 0);
                         ("data", Api.JDict [("debugPort", Api.JStr "9222")])]), n);
  launcher_new_page := fun _ _ n => (Returns (S n), S n)
|}.

Definition sim_start : state (launched nat) := State (Launched 0%nat []) [].

(** A second record, for ETH. *)
Definition eth_config : gmap string string :=
  {[ "symbol" := "ETH"; "size" := "0.01"; "price_offset" := "2";
     "nado_env_id" := "n2"; "variational_env_id" := "v2" ]}.

(** A row whose Nado profile is blank. *)
Definition blank_profile_row : csv_row :=
  {[ "nado_env_id" := Some "  "; "variational_env_id" := Some "v1";
     "symbol" := Some "BTC"; "size" := Some "0.0001";
     "price_offset" := Some "-5.00" ]}.

End Launch.

(** ** Observations on the clock *)

(** No difference of two readings of the clock is a NaN; this holds when
    every reading is finite. *)
Definition clock_is_ordered {W} (env : Env W) : Prop :=
  forall w w', fsub (fst (env_time env w')) (fst (env_time env w)) <> S754_nan.

Module Sim3.

(** A clock with two readings: 0 before thirty seconds have passed, and
    30.5 from then on; each reading takes ten seconds, and the order is
    never filled. *)
Definition coarse_clock : Env Sim.sim := {|
  env_time := fun now =>
    (if now <? 30000 then S754_zero false else float_lit "30.5", now + 10000);
  env_get_price_from_api := env_get_price_from_api (Sim.sim_env (Sim.stalled 0));
  env_query_selector := env_query_selector (Sim.sim_env (Sim.stalled 0));
  env_inner_text := env_inner_text (Sim.sim_env (Sim.stalled 0));
  env_click := env_click (Sim.sim_env (Sim.stalled 0));
  env_get_attribute := env_get_attribute (Sim.sim_env (Sim.stalled 0));
  env_fill := env_fill (Sim.sim_env (Sim.stalled 0));
  env_evaluate := env_evaluate (Sim.sim_env (Sim.stalled 0));
  env_wait_for_timeout := env_wait_for_timeout (Sim.sim_env (Sim.stalled 0))
|}.

End Sim3.

(** ** The program with its price API *)

(** The world of the page together with the network: the calls to the
    page go to [env], and [get_price_from_api] is the function of the
    source, run on the network.  It uses no fuel, so [OutOfFuel] does not
    occur. *)
Definition with_price_api {W V} (net : Api.Net W) (env : Env V)
  : Env (V * Api.logged W) := {|
  env_time := fun w =>
    let '(t, v) := env_time env (fst w) in (t, (v, snd w));
  env_get_price_from_api := fun symbol product_type w =>
    let '(r, s') :=
      Api.get_price_from_api net symbol product_type (State (snd w) []) in
    (match r with
     | Ok prices => Returns prices
     | Raise e => Throws e
     | OutOfFuel => Throws (Error "OutOfFuel")
     end, (fst w, world s'));
  env_query_selector := fun p selector w =>
    let '(a, v) := env_query_selector env p selector (fst w) in (a, (v, snd w));
  env_inner_text := fun e w =>
    let '(a, v) := env_inner_text env e (fst w) in (a, (v, snd w));
  env_click := fun e timeout w =>
    let '(a, v) := env_click env e timeout (fst w) in (a, (v, snd w));
  env_get_attribute := fun e name w =>
    let '(a, v) := env_get_attribute env e name (fst w) in (a, (v, snd w));
  env_fill := fun e text w =>
    let '(a, v) := env_fill env e text (fst w) in (a, (v, snd w));
  env_evaluate := fun e js w =>
    let '(a, v) := env_evaluate env e js (fst w) in (a, (v, snd w));
  env_wait_for_timeout := fun p ms w =>
    let '(a, v) := env_wait_for_timeout env p ms (fst w) in (a, (v, snd w))
|}.

(** The simulated page and the simulated network, at the start. *)
Definition sim_both_start : state (Sim.sim * Api.logged Z) :=
  State (0, Api.Logged 0 []) [].

(** ** The product ids *)

(** [load_product_id_cache], [save_product_id_cache],
    [get_product_id_from_api] and [get_product_id], over the calls that
    they make: the cache file, and the request for the symbols. *)

Module Products.

(** [key in v] for a text [key] *)
Definition json_contains (v : Api.json) (key : string) : res bool :=
  match v with
  | Api.JDict fields => Ok (bool_decide (is_Some (Api.assoc key fields)))
  | Api.JList items =>
      Ok (existsb (fun item => match item with
                               | Api.JStr s => String.eqb s key
                               | _ => false
                               end) items)
  | Api.JStr s => Ok (py_in key s)
  | _ => Raise (Error "TypeError")
  end.

Fixpoint assoc_set (key : string) (value : Api.json)
    (fields : list (string * Api.json)) : list (string * Api.json) :=
  match fields with
  | [] => [(key, value)]
  | (k, x) :: rest =>
      if String.eqb k key then (k, value) :: rest
      else (k, x) :: assoc_set key value rest
  end.

(** [v[key] = value] for a text [key] *)
Definition json_set (v : Api.json) (key : string) (value : Api.json) : res Api.json :=
  match v with
  | Api.JDict fields => Ok (Api.JDict (assoc_set key value fields))
  | _ => Raise (Error "TypeError")
  end.

(** The calls of the four functions. *)
Inductive store_call : Type :=
| CacheExists
| CacheRead
| CacheWrite (cache : Api.json)
| RequestsGetSymbols (product_type : string).

Record Store (W : Type) : Type := {
  (** [os.path.exists(cache_file)] *)
  store_exists : W -> bool * W;
  (** [json.load(f)] on the open cache file *)
  store_read : W -> answer Api.json * W;
  (** [json.dump(cache, f, indent=2, ensure_ascii=False)] on the cache
      file, opened for writing *)
  store_write : Api.json -> W -> answer unit * W;
  (** [requests.get(base_url, params=params_symbols, timeout=10)] *)
  store_requests_get : string -> W -> answer Api.response * W
}.
Arguments store_exists {W}.
Arguments store_read {W}.
Arguments store_write {W}.
Arguments store_requests_get {W}.

(** The file and the network, and the calls made so far, the latest
    first. *)
Record stored (W : Type) : Type := Stored {
  store_world : W;
  store_log : list store_call
}.
Arguments Stored {W} store_world store_log.
Arguments store_world {W}.
Arguments store_log {W}.

(** [Error "JSONDecodeError"] and [Error "IOError"] stand for the
    exceptions of these two classes. *)
Definition is_decode_or_io_error (e : exn) : bool :=
  match e with
  | Error kind => String.eqb kind "JSONDecodeError" || String.eqb kind "IOError"
  | _ => false
  end.

Definition is_io_error (e : exn) : bool :=
  match e with
  | Error kind => String.eqb kind "IOError"
  | _ => false
  end.

Definition is_request_exception (e : exn) : bool :=
  match e with
  | Error kind => String.eqb kind "RequestException"
  | _ => false
  end.

(** [ValueError], [KeyError] or [TypeError] *)
Definition is_parsing_error (e : exn) : bool :=
  match e with
  | ValueError | KeyError => true
  | Error kind => String.eqb kind "TypeError"
  | _ => false
  end.

Section ProductIds.

Context {W : Type} (store : Store W).

Local Abbreviation StoreM := (M (stored W)).

(** [try: body  except <the classes of catches>: handler] *)
Definition try_except_when {A} (catches : exn -> bool) (body handler : StoreM A)
  : StoreM A :=
  fun s =>
    match body s with
    | (Raise e, s') => if catches e then handler s' else (Raise e, s')
    | r => r
    end.

Definition perform_store {A} (c : store_call) (op : W -> answer A * W) : StoreM A :=
  fun s =>
    let '(a, w) := op (store_world (world s)) in
    (match a with Returns v => Ok v | Throws e => Raise e end,
     State (Stored w (c :: store_log (world s))) (trace s)).

Definition cache_exists : StoreM bool :=
  perform_store CacheExists
    (fun w => let '(b, w') := store_exists store w in (Returns b, w')).

Definition cache_read : StoreM Api.json :=
  perform_store CacheRead (store_read store).

Definition cache_write (cache : Api.json) : StoreM unit :=
  perform_store (CacheWrite cache) (store_write store cache).

Definition requests_get_symbols (product_type : string) : StoreM Api.response :=
  perform_store (RequestsGetSymbols product_type)
    (store_requests_get store product_type).

Definition load_product_id_cache : StoreM Api.json :=
  let* found := cache_exists in
  if found
  then try_except_when is_decode_or_io_error cache_read (ret (Api.JDict []))
  else ret (Api.JDict []).

Definition save_product_id_cache (cache : Api.json) : StoreM unit :=
  try_except_when is_io_error (cache_write cache) (ret tt).

(** [response.raise_for_status()] raises for the statuses 400 to 599. *)
Definition raise_for_status (r : Api.response) : StoreM unit :=
  if (400 <=? Api.status_code r) && (Api.status_code r <? 600)
  then raise Api.RequestException
  else ret tt.

(** [response.json()] *)
Definition response_json (r : Api.response) : StoreM Api.json :=
  match Api.json_body r with
  | Returns v => ret v
  | Throws e => raise e
  end.

(** [None] is [JNull]. *)
Definition get_product_id_from_api (symbol product_type : string) : StoreM Api.json :=
  try_except_when is_parsing_error
    (try_except_when is_request_exception
       (let* response := requests_get_symbols product_type in
        raise_for_status response >>
        let* data := response_json response in
        let* data_section := lift (Api.dict_get data "data" (Api.JDict [])) in
        let* symbols_dict := lift (Api.dict_get data_section "symbols" (Api.JDict [])) in
        if negb (Api.truthy symbols_dict) then ret Api.JNull
        else
          let symbol_upper := py_upper symbol in
          let search_key :=
            if String.eqb product_type "perp"
            then symbol_upper +:+ "-PERP"
            else symbol_upper +:+ "-SPOT" in
          let* symbol_info := lift (Api.dict_get symbols_dict search_key Api.JNull) in
          if negb (Api.truthy symbol_info) then ret Api.JNull
          else
            let* product_id := lift (Api.dict_get symbol_info "product_id" Api.JNull) in
            ret product_id)
       (ret Api.JNull))
    (ret Api.JNull).

Definition get_product_id (symbol product_type : string) : StoreM Api.json :=
  let symbol_upper := py_upper symbol in
  let* cache := load_product_id_cache in
  let cache_key := symbol_upper +:+ "_" +:+ product_type in
  let* hit := lift (json_contains cache cache_key) in
  if hit then lift (Launch.json_item cache cache_key)
  else
    let* product_id := get_product_id_from_api symbol product_type in
    if Api.truthy product_id then
      let* cache := lift (json_set cache cache_key product_id) in
      save_product_id_cache cache >>
      ret product_id
    else ret Api.JNull.

End ProductIds.

(** How many requests and how many writes are in a log. *)
Definition symbol_requests (log : list store_call) : nat :=
  length (List.filter (fun c => match c with
                                | RequestsGetSymbols _ => true
                                | _ => false
                                end) log).

Definition cache_writes (log : list store_call) : nat :=
  length (List.filter (fun c => match c with CacheWrite _ => true | _ => false end) log).

(** The call looks at the cache file. *)
Definition reads_cache (c : store_call) : Prop :=
  match c with
  | CacheExists | CacheRead => True
  | _ => False
  end.

(** The cache that is written holds a true value under [key]. *)
Definition writes_true_id (key : string) (c : store_call) : Prop :=
  match c with
  | CacheWrite cache =>
      exists product_id,
        Launch.json_item cache key = Ok product_id /\ Api.truthy product_id = true
  | _ => True
  end.

(** *** A simulated cache file *)

(** The world is the content of the cache file, if there is one; the API
    knows BTC-PERP as the product 2 and ETH-PERP as the product 0. *)
Definition sim_store : Store (option Api.json) := {|
  store_exists := fun file => (bool_decide (is_Some file), file);
  store_read := fun file =>
    (match file with
     | Some cache => Returns cache
     | None => Throws (Error "IOError")
     end, file);
  store_write := fun cache _ => (Returns tt, Some cache);
  store_requests_get := fun _ file =>
    (Returns (Api.Response 200
                (Returns (Api.JDict
                   [("data", Api.JDict
                      [("symbols", Api.JDict
                         [("BTC-PERP", Api.JDict [("product_id", Api.JInt 2)]);
                          ("ETH-PERP", Api.JDict [("product_id", Api.JInt 0)])])])]))),
     file)
|}.

Definition sim_start (file : option Api.json) : state (stored (option Api.json)) :=
  State (Stored file []) [].

End Products.

(** ** Quotes and submissions *)

Definition is_price (c : call) : bool :=
  match c with
  | GetPriceFromApi _ _ => true
  | _ => false
  end.

(** The call neither starts a submission nor asks for a price. *)
Definition neutral (c : call) : Prop := is_submission c || is_price c = false.

(** Reading the calls in the order in which they were made: a submission
    needs a quote that is [fresh] and uses it up, and a call to the price
    API gives a fresh one.  The result is [None] when a submission came
    without a fresh quote. *)
Fixpoint quote_guard (fresh : bool) (calls : list call) : option bool :=
  match calls with
  | [] => Some fresh
  | c :: calls' =>
      if is_submission c then
        if fresh then quote_guard false calls' else None
      else if is_price c then quote_guard true calls'
      else quote_guard fresh calls'
  end.

(** Every submission comes after a call to the price API that is later
    than the submission before it; [calls] has the latest call first. *)
Definition quoted_before_each_submission (calls : list call) : Prop :=
  is_Some (quote_guard false (rev calls)).

(** What [m] adds to the trace has [P] for its guard. *)
Definition requotes {W A} (P : (bool -> option bool) -> Prop) (m : M W A) : Prop :=
  forall s, exists new,
    trace (snd (m s)) = new ++ trace s /\
    P (fun fresh => quote_guard fresh (rev new)).

(** Neutral calls keep the guard, a quote makes it fresh, and a
    submission needs it fresh and uses it up. *)
Definition keeps_quote (g : bool -> option bool) : Prop := forall a, g a = Some a.
Definition gives_quote (g : bool -> option bool) : Prop := forall a, g a = Some true.
Definition uses_quote (g : bool -> option bool) : Prop :=
  forall a, g a = if a then Some false else None.

(** ** A page without the elements of the hedge *)

Module Sim4.

(** The order is filled at once, and the page of Variational shows no
    button and no field: a selector matches unless it is one of those of
    the hedge. *)
Definition hedge_selectors : list string :=
  [sel_bid_price_display; sel_ask_price_display; sel_quantity_input;
   sel_submit_button].

Definition no_variational : Env Sim.sim :=
  Sim.sim_env
    (Sim.Scenario (Some Sim.btc_quote) 0
       (fun selector => negb (existsb (String.eqb selector) hedge_selectors))
       (Some 0) false).

End Sim4.

(** * Properties *)

(** ** Laws of the monad *)

Section Laws.

Context {W : Type}.

Lemma bind_ok {A B} (m : M W A) (k : A -> M W B) s a s' :
  m s = (Ok a, s') -> bind m k s = k a s'.
Proof. intros H. unfold bind. now rewrite H. Qed.

Lemma bind_raise {A B} (m : M W A) (k : A -> M W B) s e s' :
  m s = (Raise e, s') -> bind m k s = (Raise e, s').
Proof. intros H. unfold bind. now rewrite H. Qed.

Lemma bind_lift_ok {A B} (r : res A) (k : A -> M W B) s a :
  r = Ok a -> bind (lift r) k s = k a s.
Proof. intros ->. reflexivity. Qed.

Lemma try_except_ok {A} (m : M W A) h s a s' :
  m s = (Ok a, s') -> try_except m h s = (Ok a, s').
Proof. intros H. unfold try_except. now rewrite H. Qed.

Lemma try_except_raise {A} (m : M W A) h s e s' :
  m s = (Raise e, s') -> try_except m h s = h e s'.
Proof. intros H. unfold try_except. now rewrite H. Qed.

Lemma try_except_ValueError_ok {A} (m : M W A) h s a s' :
  m s = (Ok a, s') -> try_except_ValueError m h s = (Ok a, s').
Proof. intros H. unfold try_except_ValueError. now rewrite H. Qed.

Lemma perform_returns {A} c (op : W -> answer A * W) s v w :
  op (world s) = (Returns v, w) ->
  perform c op s = (Ok v, State w (c :: trace s)).
Proof. intros H. unfold perform. now rewrite H. Qed.

Lemma perform_throws {A} c (op : W -> answer A * W) s e w :
  op (world s) = (Throws e, w) ->
  perform c op s = (Raise e, State w (c :: trace s)).
Proof. intros H. unfold perform. now rewrite H. Qed.

Lemma perform_trace {A} c (op : W -> answer A * W) s :
  trace (snd (perform c op s)) = c :: trace s.
Proof. unfold perform. now destruct (op (world s)). Qed.

(** ** What a computation adds to the trace *)

Section Only.

Variable Q : call -> Prop.

Lemma only_ret {A} (a : A) : only Q (ret (W:=W) a).
Proof. intros s. exists []. now split. Qed.

Lemma only_raise {A} e : only Q (@raise W A e).
Proof. intros s. exists []. now split. Qed.

Lemma only_out_of_fuel {A} : only Q (@out_of_fuel W A).
Proof. intros s. exists []. now split. Qed.

Lemma only_lift {A} (r : res A) : only Q (lift (W:=W) r).
Proof. intros s. exists []. now split. Qed.

Lemma only_perform {A} c (op : W -> answer A * W) : Q c -> only Q (perform c op).
Proof.
  intros Hc s. exists [c]. rewrite perform_trace. split; [reflexivity|].
  now constructor.
Qed.

Lemma only_bind {A B} (m : M W A) (k : A -> M W B) :
  only Q m -> (forall a, only Q (k a)) -> only Q (bind m k).
Proof.
  intros Hm Hk s. destruct (Hm s) as (n1 & E1 & F1). unfold bind.
  destruct (m s) as [[a|e|] s1]; simpl in E1.
  - destruct (Hk a s1) as (n2 & E2 & F2). exists (n2 ++ n1).
    rewrite E2, E1, app_assoc. split; [reflexivity|]. now apply Forall_app.
  - exists n1. now split.
  - exists n1. now split.
Qed.

Lemma only_try_except {A} (m : M W A) h :
  only Q m -> (forall e, only Q (h e)) -> only Q (try_except m h).
Proof.
  intros Hm Hh s. destruct (Hm s) as (n1 & E1 & F1). unfold try_except.
  destruct (m s) as [[a|e|] s1]; simpl in E1.
  - exists n1. now split.
  - destruct (Hh e s1) as (n2 & E2 & F2). exists (n2 ++ n1).
    rewrite E2, E1, app_assoc. split; [reflexivity|]. now apply Forall_app.
  - exists n1. now split.
Qed.

Lemma only_try_except_ValueError {A} (m h : M W A) :
  only Q m -> only Q h -> only Q (try_except_ValueError m h).
Proof.
  intros Hm Hh s. destruct (Hm s) as (n1 & E1 & F1).
  unfold try_except_ValueError.
  destruct (m s) as [[a|e|] s1]; simpl in E1;
    try (exists n1; now split).
  destruct e; try (exists n1; now split).
  destruct (Hh s1) as (n2 & E2 & F2). exists (n2 ++ n1).
  rewrite E2, E1, app_assoc. split; [reflexivity|]. now apply Forall_app.
Qed.

Lemma starts_with_perform {A B} c (op : W -> answer A * W) (k : A -> M W B) :
  (forall a, only Q (k a)) -> starts_with c Q (bind (perform c op) k).
Proof.
  intros Hk s. unfold bind.
  pose proof (perform_trace c op s) as E.
  destruct (perform c op s) as [[a|e|] s1]; simpl in E.
  - destruct (Hk a s1) as (n & En & Fn). exists n. now rewrite En, E.
  - exists []. now split.
  - exists []. now split.
Qed.

Lemma starts_with_bind {A B} c (m : M W A) (k : A -> M W B) :
  starts_with c Q m -> (forall a, only Q (k a)) -> starts_with c Q (bind m k).
Proof.
  intros Hm Hk s. destruct (Hm s) as (n1 & E1 & F1). unfold bind.
  destruct (m s) as [[a|e|] s1]; simpl in E1.
  - destruct (Hk a s1) as (n2 & E2 & F2). exists (n2 ++ n1).
    rewrite E2, E1, app_assoc. split; [reflexivity|]. now apply Forall_app.
  - exists n1. now split.
  - exists n1. now split.
Qed.

Lemma starts_with_try_except {A} c (m : M W A) h :
  starts_with c Q m -> (forall e, only Q (h e)) -> starts_with c Q (try_except m h).
Proof.
  intros Hm Hh s. destruct (Hm s) as (n1 & E1 & F1). unfold try_except.
  destruct (m s) as [[a|e|] s1]; simpl in E1.
  - exists n1. now split.
  - destruct (Hh e s1) as (n2 & E2 & F2). exists (n2 ++ n1).
    rewrite E2, E1, app_assoc. split; [reflexivity|]. now apply Forall_app.
  - exists n1. now split.
Qed.

End Only.

Lemma only_weaken (Q R : call -> Prop) {A} (m : M W A) :
  (forall c, Q c -> R c) -> only Q m -> only R m.
Proof.
  intros HQR Hm s. destruct (Hm s) as (n & E & F). exists n.
  split; [exact E|]. eapply Forall_impl; eauto.
Qed.

Lemma starts_with_only (Q R : call -> Prop) c {A} (m : M W A) :
  R c -> (forall c', Q c' -> R c') -> starts_with c Q m -> only R m.
Proof.
  intros Hc HQR Hm s. destruct (Hm s) as (n & E & F). exists (n ++ [c]).
  rewrite <- app_assoc. split; [exact E|].
  apply Forall_app. split; [eapply Forall_impl; eauto | now constructor].
Qed.

End Laws.

(** Case analysis on the next answer of the world. *)
Ltac next_answer :=
  match goal with
  | |- context [env_query_selector ?env ?p ?sel ?w] =>
      destruct (env_query_selector env p sel w) as [[[?|]|?] ?]
  | |- context [env_inner_text ?env ?e ?w] =>
      destruct (env_inner_text env e w) as [[?|?] ?]
  | |- context [env_click ?env ?e ?t ?w] =>
      destruct (env_click env e t w) as [[[]|?] ?]
  | |- context [env_get_attribute ?env ?e ?n ?w] =>
      destruct (env_get_attribute env e n w) as [[[?|]|?] ?]
  | |- context [env_fill ?env ?e ?t ?w] =>
      destruct (env_fill env e t w) as [[[]|?] ?]
  | |- context [env_evaluate ?env ?e ?j ?w] =>
      destruct (env_evaluate env e j w) as [[[|]|?] ?]
  | |- context [env_wait_for_timeout ?env ?p ?ms ?w] =>
      destruct (env_wait_for_timeout env p ms w) as [[[]|?] ?]
  end; simpl.

(** ** The price calculator *)

Section Price.

Context {W : Type} (env : Env W).

(** What the calculator returns when the quote has the side it needs and
    the offset scales to [cents]. *)
Lemma order_price_eval p symbol offset direction prices s w price_num scaled cents :
  env_get_price_from_api env symbol "perp" (world s) = (Returns (Some prices), w) ->
  prices !! (if String.eqb direction "long" then "bid" else "ask") = Some price_num ->
  py_mul offset (PyInt 100) = Ok scaled ->
  py_round scaled = Ok cents ->
  get_and_calculate_order_price env p symbol offset direction s
  = (Ok (Some (price_num,
               if String.eqb direction "long"
               then price_num - cents else price_num + Z.abs cents)),
     State w (GetPriceFromApi symbol "perp" :: trace s)).
Proof.
  intros Hapi Hkey Hmul Hround.
  unfold get_and_calculate_order_price.
  erewrite bind_ok; [|apply perform_returns; exact Hapi].
  apply try_except_ValueError_ok.
  rewrite Hkey.
  unfold lift, bind. rewrite Hmul, Hround. reflexivity.
Qed.

End Price.

(** The distance of an integer from a fraction, against one half. *)
Lemma half_distance_le k m dp :
  (Qabs (inject_Z k - (m # dp)) <= 1 # 2)%Q
  <-> 2 * Z.abs (k * Z.pos dp - m) <= Z.pos dp.
Proof.
  unfold Qabs, Qminus, Qplus, Qopp, Qle, inject_Z. cbn [Qnum Qden].
  rewrite Pos.mul_1_l. lia.
Qed.

Lemma half_distance_eq k m dp :
  (Qabs (inject_Z k - (m # dp)) == 1 # 2)%Q
  <-> 2 * Z.abs (k * Z.pos dp - m) = Z.pos dp.
Proof.
  unfold Qabs, Qminus, Qplus, Qopp, Qeq, inject_Z. cbn [Qnum Qden].
  rewrite Pos.mul_1_l. lia.
Qed.

(** [round_half_even] yields a nearest integer, and the even one of the
    two when the value lies half way. *)
Lemma round_half_even_nearest m e :
  0 <= m ->
  (Qabs (inject_Z (round_half_even m e) - dyadic m e) <= 1 # 2)%Q /\
  ((Qabs (inject_Z (round_half_even m e) - dyadic m e) == 1 # 2)%Q ->
   Z.even (round_half_even m e) = true).
Proof.
  intros Hm. unfold round_half_even, dyadic.
  destruct (0 <=? e) eqn:He.
  - assert (Hz : (inject_Z (m * 2 ^ e) - inject_Z (m * 2 ^ e) == 0)%Q) by ring.
    rewrite Hz. split; [discriminate | intros H; discriminate H].
  - apply Z.leb_gt in He.
    assert (Hd : 0 < 2 ^ (- e)) by (apply Z.pow_pos_nonneg; lia).
    assert (Hpos : Z.pos (Z.to_pos (2 ^ (- e))) = 2 ^ (- e)) by (apply Z2Pos.id; lia).
    pose proof (Z.div_mod m (2 ^ (- e)) ltac:(lia)) as Hdm.
    pose proof (Z.mod_pos_bound m (2 ^ (- e)) Hd) as Hr.
    set (dp := Z.to_pos (2 ^ (- e))) in *.
    rewrite <- Hpos in *. clear Hpos.
    set (d := Z.pos dp) in *.
    set (q := m / d) in *. set (r := m mod d) in *.
    clearbody q r. assert (Hdp : d = Z.pos dp) by reflexivity. clearbody d dp.
    clear He.
    assert (H0 : q * d - m = - r) by (rewrite Hdm at 1; ring).
    assert (H1 : (q + 1) * d - m = d - r) by (rewrite Hdm at 1; ring).
    clear Hdm.
    destruct (Z.compare_spec (2 * r) d) as [Hc|Hc|Hc].
    +       destruct (Z.even q) eqn:Hev.
      * split; [apply half_distance_le; rewrite <- Hdp, ?H0, ?H1; clear - Hr Hc; lia | intros _; exact Hev].
      * split; [apply half_distance_le; rewrite <- Hdp, ?H0, ?H1; clear - Hr Hc; lia | intros _].
        rewrite Z.even_add, Hev. reflexivity.
    + split; [apply half_distance_le; rewrite <- Hdp, ?H0, ?H1; clear - Hr Hc; lia
             | intros H; apply half_distance_eq in H; rewrite <- Hdp, ?H0, ?H1 in H; clear - Hr Hc H; lia].
    + split; [apply half_distance_le; rewrite <- Hdp, ?H0, ?H1; clear - Hr Hc; lia
             | intros H; apply half_distance_eq in H; rewrite <- Hdp, ?H0, ?H1 in H; clear - Hr Hc H; lia].
Qed.

Lemma dyadic_opp m e : (dyadic (- m) e == - dyadic m e)%Q.
Proof.
  unfold dyadic. destruct (0 <=? e).
  - rewrite Z.mul_opp_l, inject_Z_opp. reflexivity.
  - reflexivity.
Qed.

Lemma distance_opp k v w : (w == - v)%Q ->
  (Qabs (inject_Z (- k) - w) == Qabs (inject_Z k - v))%Q.
Proof.
  intros Hw. rewrite Hw, inject_Z_opp.
  rewrite <- (Qabs_opp (inject_Z k - v)).
  apply Qabs_wd. ring.
Qed.

(** [round] yields a nearest integer of a number with a value, and the
    even one of the two when the value lies half way. *)
Lemma py_round_nearest scaled v :
  num_val scaled = Some (Fin v) ->
  exists cents,
    py_round scaled = Ok cents /\
    (Qabs (inject_Z cents - v) <= 1 # 2)%Q /\
    ((Qabs (inject_Z cents - v) == 1 # 2)%Q -> Z.even cents = true).
Proof.
  intros Hv. destruct scaled as [z|f]; simpl in Hv.
  - inversion Hv; subst v. exists z. split; [reflexivity|].
    assert (Hz : (inject_Z z - inject_Z z == 0)%Q) by ring.
    rewrite Hz. split; [discriminate | intros H; discriminate H].
  - destruct f as [s|s| |s m e]; simpl in Hv; try discriminate.
    + inversion Hv; subst v. exists 0. split; [reflexivity|].
      split; [discriminate | intros H; discriminate H].
    + destruct s; discriminate.
    + inversion Hv; subst v. eexists. split; [reflexivity|].
      destruct (round_half_even_nearest (Z.pos m) e ltac:(lia)) as [Hn Ht].
      destruct s; simpl cond_Zopp.
      * change (Z.neg m) with (- Z.pos m).
        rewrite (distance_opp _ _ _ (dyadic_opp (Z.pos m) e)).
        rewrite Z.even_opp. split; assumption.
      * split; assumption.
Qed.

(** C8 (as amended): the offset is scaled to integer cents by rounding
    the binary64 product [price_offset * 100] to a nearest integer, ties
    to the even one; the outcome depends on the offset alone.  The cents
    are subtracted from the bid for a long order, and their absolute value
    is added to the ask for a short one. *)
Theorem offset_cents_round_ties_to_even
    {W} (env : Env W) p symbol offset direction prices s w price_num scaled v :
  env_get_price_from_api env symbol "perp" (world s) = (Returns (Some prices), w) ->
  prices !! (if String.eqb direction "long" then "bid" else "ask") = Some price_num ->
  py_mul offset (PyInt 100) = Ok scaled ->
  num_val scaled = Some (Fin v) ->
  exists cents,
    py_round scaled = Ok cents /\
    (Qabs (inject_Z cents - v) <= 1 # 2)%Q /\
    ((Qabs (inject_Z cents - v) == 1 # 2)%Q -> Z.even cents = true) /\
    fst (get_and_calculate_order_price env p symbol offset direction s)
    = Ok (Some (price_num,
                if String.eqb direction "long"
                then price_num - cents else price_num + Z.abs cents)).
Proof.
  intros Hapi Hkey Hmul Hv.
  destruct (py_round_nearest scaled v Hv) as (cents & Hr & Hn & Ht).
  exists cents. repeat split; try assumption.
  erewrite order_price_eval by eassumption. reflexivity.
Qed.

(** The scaling at an offset of an eighth: the product is twelve and a
    half cents, and the order goes twelve cents below the bid. *)
Lemma offset_cents_round_ties_to_even_witness :
  exists cents,
    py_round (PyFloat (fmul (float_lit "0.125") (float_of_Z 100))) = Ok cents /\
    (Qabs (inject_Z cents - dyadic 7036874417766400 (-49)) <= 1 # 2)%Q /\
    ((Qabs (inject_Z cents - dyadic 7036874417766400 (-49)) == 1 # 2)%Q ->
     Z.even cents = true) /\
    fst (get_and_calculate_order_price (Sim.sim_env Sim.filling) Sim.nado "BTC"
           (PyFloat (float_lit "0.125")) "long" Sim.start)
    = Ok (Some (9060200, 9060200 - cents)).
Proof.
  apply (offset_cents_round_ties_to_even (Sim.sim_env Sim.filling) Sim.nado "BTC"
           (PyFloat (float_lit "0.125")) "long" Sim.btc_quote Sim.start 0 9060200
           (PyFloat (fmul (float_lit "0.125") (float_of_Z 100)))
           (dyadic 7036874417766400 (-49)));
    vm_compute; reflexivity.
Defined.

(** C8 (as stated) fails: an offset of an eighth scales to exactly twelve
    and a half cents; the code takes twelve, rounding half up takes
    thirteen. *)
Lemma offset_half_cent_not_rounded_up :
  exists scaled v,
    py_mul (PyFloat (float_lit "0.125")) (PyInt 100) = Ok (PyFloat scaled) /\
    float_val scaled = Some (Fin v) /\ (v == 25 # 2)%Q /\
    cents_half_up scaled = Some 13 /\
    py_round (PyFloat scaled) = Ok 12 /\
    fst (get_and_calculate_order_price (Sim.sim_env Sim.filling) Sim.nado "BTC"
           (PyFloat (float_lit "0.125")) "long" Sim.start)
    = Ok (Some (9060200, 9060200 - 12)) /\
    9060200 - 12 <> 9060200 - 13.
Proof.
  exists (fmul (float_lit "0.125") (float_of_Z 100)).
  exists (dyadic 7036874417766400 (-49)).
  repeat split; try (vm_compute; reflexivity).
  lia.
Qed.

(** C2 (as amended): when the quote has both sides and the offset scales
    to [cents], the short price is at or above the ask, the long price is
    at or below the bid provided the offset is not negative, and the price
    equals the bid or the ask exactly when the offset rounds to zero
    cents. *)
Theorem order_price_sides
    {W} (env : Env W) p symbol offset prices bid ask s w scaled cents :
  env_get_price_from_api env symbol "perp" (world s) = (Returns (Some prices), w) ->
  prices !! "bid" = Some bid ->
  prices !! "ask" = Some ask ->
  py_mul offset (PyInt 100) = Ok scaled ->
  py_round scaled = Ok cents ->
  exists long_price short_price,
    fst (get_and_calculate_order_price env p symbol offset "long" s)
    = Ok (Some (bid, long_price)) /\
    fst (get_and_calculate_order_price env p symbol offset "short" s)
    = Ok (Some (ask, short_price)) /\
    ask <= short_price /\
    (0 <= cents -> long_price <= bid) /\
    (long_price = bid <-> cents = 0) /\
    (short_price = ask <-> cents = 0).
Proof.
  intros Hapi Hbid Hask Hmul Hround.
  exists (bid - cents), (ask + Z.abs cents).
  split; [|split].
  - erewrite (order_price_eval env p symbol offset "long") by eassumption.
    reflexivity.
  - erewrite (order_price_eval env p symbol offset "short") by eassumption.
    reflexivity.
  - lia.
Qed.

(** An offset of five: the long order goes five below the bid, the short
    order five above the ask. *)
Lemma order_price_sides_witness :
  exists long_price short_price,
    fst (get_and_calculate_order_price (Sim.sim_env Sim.filling) Sim.nado "BTC"
           (PyFloat (float_lit "5.00")) "long" Sim.start)
    = Ok (Some (9060200, long_price)) /\
    fst (get_and_calculate_order_price (Sim.sim_env Sim.filling) Sim.nado "BTC"
           (PyFloat (float_lit "5.00")) "short" Sim.start)
    = Ok (Some (9060400, short_price)) /\
    9060400 <= short_price /\
    (0 <= 500 -> long_price <= 9060200) /\
    (long_price = 9060200 <-> 500 = 0) /\
    (short_price = 9060400 <-> 500 = 0).
Proof.
  apply (order_price_sides (Sim.sim_env Sim.filling) Sim.nado "BTC"
           (PyFloat (float_lit "5.00")) Sim.btc_quote 9060200 9060400 Sim.start 0
           (PyFloat (fmul (float_lit "5.00") (float_of_Z 100))) 500);
    vm_compute; reflexivity.
Defined.

(** C2 (as stated) fails: with an offset of minus five the long price is
    above the bid; and with an offset of a thousandth, which is not zero,
    the short price equals the ask. *)
Lemma order_price_long_above_bid :
  (fst (get_and_calculate_order_price (Sim.sim_env Sim.filling) Sim.nado "BTC"
          (PyFloat (float_lit "-5.00")) "long" Sim.start)
   = Ok (Some (9060200, 9060700))
   /\ ~ 9060700 <= 9060200)
  /\
  (fst (get_and_calculate_order_price (Sim.sim_env Sim.filling) Sim.nado "BTC"
          (PyFloat (float_lit "0.001")) "short" Sim.start)
   = Ok (Some (9060400, 9060400))
   /\ exists v, float_val (float_lit "0.001") = Some (Fin v) /\ ~ (v == 0)%Q).
Proof.
  split; split.
  - vm_compute. reflexivity.
  - lia.
  - vm_compute. reflexivity.
  - eexists. split; [vm_compute; reflexivity|]. intros H. discriminate H.
Qed.

(** ** Comparisons of Python numbers *)

Lemma xcompare_lt_trans a b c :
  xcompare a b = Lt -> xcompare b c = Lt -> xcompare a c = Lt.
Proof.
  destruct a as [|p|], b as [|q|], c as [|r|]; simpl; try congruence.
  rewrite <- !Qlt_alt. apply Qlt_trans.
Qed.

Lemma xcompare_antisym a b : xcompare b a = CompOpp (xcompare a b).
Proof.
  destruct a as [|p|], b as [|q|]; simpl; try reflexivity.
  symmetry. apply Qcompare_antisym.
Qed.

Lemma py_lt_trans a b c : py_lt a b = true -> py_lt b c = true -> py_lt a c = true.
Proof.
  unfold py_lt, num_compare.
  destruct (num_val a) as [x|], (num_val b) as [y|], (num_val c) as [z|];
    try discriminate.
  destruct (xcompare x y) eqn:Hxy; try discriminate.
  destruct (xcompare y z) eqn:Hyz; try discriminate.
  intros _ _. now rewrite (xcompare_lt_trans x y z).
Qed.

Lemma py_lt_not_ge a b : py_lt a b = true -> py_ge a b = false.
Proof.
  unfold py_lt, py_ge. destruct (num_compare a b) as [[]|]; congruence.
Qed.

Lemma py_lt_not_gt a b : py_lt a b = true -> py_gt a b = false.
Proof.
  unfold py_lt, py_gt. destruct (num_compare a b) as [[]|]; congruence.
Qed.

(** From [a > b] and [b >= c] follows [a >= c]. *)
Lemma py_gt_ge_trans a b c : py_gt a b = true -> py_ge b c = true -> py_ge a c = true.
Proof.
  unfold py_gt, py_ge, num_compare.
  destruct (num_val a) as [x|], (num_val b) as [y|], (num_val c) as [z|];
    try discriminate.
  destruct (xcompare x y) eqn:Hxy; try discriminate.
  destruct (xcompare y z) eqn:Hyz; try discriminate; intros _ _.
  - (* y = z *)
    destruct x as [|p|], y as [|q|], z as [|r|]; simpl in *; try congruence.
    apply Qeq_alt in Hyz. rewrite <- Qgt_alt in Hxy.
    assert (H : (r < p)%Q) by (rewrite <- Hyz; exact Hxy).
    apply Qgt_alt in H. now rewrite H.
  - (* y > z *)
    assert (H : xcompare z x = Lt).
    { apply (xcompare_lt_trans z y x).
      - rewrite xcompare_antisym, Hyz. reflexivity.
      - rewrite xcompare_antisym, Hxy. reflexivity. }
    rewrite xcompare_antisym, H. reflexivity.
Qed.

(** ** The fill monitor *)

Section Monitor.

Context {W : Type} (env : Env W).
Variables (p : page) (symbol : string) (initial_position : option string).
Variables (check_interval max_wait_time retry_timeout : py_num).
Variable start_time : spec_float.

Local Abbreviation loop fuel :=
  (monitor_loop env fuel p symbol initial_position
     check_interval max_wait_time retry_timeout start_time).

Local Abbreviation elapsed now := (PyFloat (fsub now start_time)).

(** A poll at or after [retry_timeout] ends the monitor with [None]. *)
Lemma monitor_loop_retry fuel s now s1 :
  time_time env s = (Ok now, s1) ->
  py_ge (elapsed now) retry_timeout = true ->
  loop (S fuel) s = (Ok None, s1).
Proof.
  intros Ht Hge. simpl. erewrite bind_ok by exact Ht.
  now rewrite Hge.
Qed.

(** A poll before [retry_timeout] and after [max_wait_time] ends it with
    [False]. *)
Lemma monitor_loop_timed_out fuel s now s1 :
  time_time env s = (Ok now, s1) ->
  py_ge (elapsed now) retry_timeout = false ->
  py_gt (elapsed now) max_wait_time = true ->
  loop (S fuel) s = (Ok (Some false), s1).
Proof.
  intros Ht Hge Hgt. simpl. erewrite bind_ok by exact Ht.
  now rewrite Hge, Hgt.
Qed.

(** A poll within both limits that reads another position than the
    baseline ends it with [True]. *)
Lemma monitor_loop_filled fuel s now s1 current s2 :
  time_time env s = (Ok now, s1) ->
  py_ge (elapsed now) retry_timeout = false ->
  py_gt (elapsed now) max_wait_time = false ->
  get_nado_position env p symbol s1 = (Ok current, s2) ->
  current <> initial_position ->
  loop (S fuel) s = (Ok (Some true), s2).
Proof.
  intros Ht Hge Hgt Hpos Hne. simpl. erewrite bind_ok by exact Ht.
  rewrite Hge, Hgt.
  erewrite bind_ok.
  2:{ apply try_except_ok. erewrite bind_ok by exact Hpos. reflexivity. }
  rewrite bool_decide_eq_false_2 by exact Hne. reflexivity.
Qed.

(** A poll within both limits that reads the baseline sleeps and polls
    again. *)
Lemma monitor_loop_again fuel s now s1 s2 scaled ms s3 :
  time_time env s = (Ok now, s1) ->
  py_ge (elapsed now) retry_timeout = false ->
  py_gt (elapsed now) max_wait_time = false ->
  get_nado_position env p symbol s1 = (Ok initial_position, s2) ->
  py_lt (elapsed now) max_wait_time = true ->
  py_mul check_interval (PyInt 1000) = Ok scaled ->
  py_int scaled = Ok ms ->
  wait_for_timeout env p ms s2 = (Ok tt, s3) ->
  loop (S fuel) s = loop fuel s3.
Proof.
  intros Ht Hge Hgt Hpos Hlt Hmul Hint Hwait.
  change (loop (S fuel) s) with
    ((let* now := time_time env in
      if py_ge (elapsed now) retry_timeout then ret None
      else if py_gt (elapsed now) max_wait_time then ret (Some false)
      else
        let* changed :=
          try_except
            (let* current_position := get_nado_position env p symbol in
             ret (negb (bool_decide (current_position = initial_position))))
            (fun _ => ret false) in
        if changed then ret (Some true)
        else if py_lt (elapsed now) max_wait_time then
          let* scaled := lift (py_mul check_interval (PyInt 1000)) in
          let* ms := lift (py_int scaled) in
          wait_for_timeout env p ms >> loop fuel
        else ret (Some false)) s).
  erewrite bind_ok by exact Ht.
  rewrite Hge, Hgt.
  erewrite bind_ok.
  2:{ apply try_except_ok. erewrite bind_ok by exact Hpos. reflexivity. }
  rewrite bool_decide_eq_true_2 by reflexivity. cbn [negb].
  rewrite Hlt.
  erewrite bind_lift_ok by exact Hmul.
  erewrite bind_lift_ok by exact Hint.
  erewrite bind_ok by exact Hwait. reflexivity.
Qed.

(** Polls that read the baseline within the limits use up fuel and
    nothing else. *)
Lemma monitor_loop_polls (below : py_num -> Prop) n fuel s s' :
  (forall e, below e ->
     py_ge e retry_timeout = false /\
     py_gt e max_wait_time = false /\
     py_lt e max_wait_time = true) ->
  polls env p symbol initial_position check_interval start_time below n s s' ->
  loop (n + fuel) s = loop fuel s'.
Proof.
  intros Hbelow Hpolls. induction Hpolls as [|n s now s1 s2 scaled ms s3 s' Ht Hb Hpos Hmul Hint Hwait _ IH].
  - reflexivity.
  - destruct (Hbelow _ Hb) as (Hge & Hgt & Hlt).
    change (S n + fuel)%nat with (S (n + fuel)).
    rewrite (monitor_loop_again _ s now s1 s2 scaled ms s3); auto.
Qed.

End Monitor.

(** When [retry_timeout] is below [max_wait_time] and every poll before
    [retry_timeout] has elapsed reads the position of the baseline, the
    monitor returns [None], the answer that asks for a new order. *)
Lemma monitor_resubmits_after_baseline_reads
    {W} (env : Env W) fuel p symbol initial_position
    check_interval max_wait_time retry_timeout n s start_time s0 s1 now s2 :
  py_lt retry_timeout max_wait_time = true ->
  time_time env s = (Ok start_time, s0) ->
  polls env p symbol initial_position check_interval start_time
    (fun elapsed => py_lt elapsed retry_timeout = true) n s0 s1 ->
  time_time env s1 = (Ok now, s2) ->
  py_ge (PyFloat (fsub now start_time)) retry_timeout = true ->
  (n < fuel)%nat ->
  monitor_order_fill env fuel p symbol initial_position
    check_interval max_wait_time retry_timeout s
  = (Ok None, s2).
Proof.
  intros Hlt Hstart Hpolls Hnow Hge Hfuel.
  unfold monitor_order_fill. erewrite bind_ok by exact Hstart.
  replace fuel with (n + S (fuel - S n))%nat by lia.
  erewrite monitor_loop_polls; [|clear Hpolls|exact Hpolls].
  - eapply monitor_loop_retry; eassumption.
  - intros e He. cbv beta in He. repeat split.
    + now apply py_lt_not_ge.
    + apply py_lt_not_gt. eapply py_lt_trans; eassumption.
    + eapply py_lt_trans; eassumption.
Qed.

(** C4 (the code departs from it): [retry_timeout] is below
    [max_wait_time] and the position that the page shows never changes.
    The first poll reads the baseline; at the second poll the look-up of
    the position raises, [get_nado_position] answers [None], which
    differs from the baseline, and the monitor returns [True] 2.5 seconds
    in, not [None].  On the same page without the failed look-up it
    returns [None] once thirty seconds have passed. *)
Theorem unchanged_position_taken_for_fill :
  py_lt (PyInt 30) (PyInt 300) = true
  /\ (forall now, Sim.position_text (Sim.stalled 1000) now = " 0.0000 BTC ")
  /\ fst (get_nado_position Flaky.one_failed_read Sim.nado "BTC" (State 2000 []))
     = Ok (Some "0.0000 BTC")
  /\ fst (env_query_selector Flaky.one_failed_read Sim.nado "button.text-negative" 3500)
     = Throws (Error "TimeoutError")
  /\ fst (get_nado_position Flaky.one_failed_read Sim.nado "BTC" (State 3500 []))
     = Ok None
  /\ (let run :=
        monitor_order_fill Flaky.one_failed_read 40 Sim.nado "BTC"
          (Some "0.0000 BTC") (PyFloat (float_lit "0.5")) (PyInt 300) (PyInt 30)
          Sim.start in
      fst run = Ok (Some true) /\ world (snd run) = 3500)
  /\ fst (monitor_order_fill (Sim.sim_env (Sim.stalled 1000)) 40 Sim.nado "BTC"
            (Some "0.0000 BTC") (PyFloat (float_lit "0.5")) (PyInt 300) (PyInt 30)
            Sim.start)
     = Ok None.
Proof.
  split; [vm_compute; reflexivity|].
  split; [intros now; reflexivity|].
  repeat split; vm_compute; reflexivity.
Qed.

(** C3 (as amended): when every poll so far read the position of the
    baseline and the elapsed time of a poll exceeds [max_wait_time], the
    monitor returns [False] if the elapsed time is below [retry_timeout],
    and [None] if it has reached [retry_timeout]; the latter is always the
    case when [retry_timeout] is at most [max_wait_time]. *)
Theorem monitor_past_max_wait
    {W} (env : Env W) fuel p symbol initial_position
    check_interval max_wait_time retry_timeout n s start_time s0 s1 now s2 :
  time_time env s = (Ok start_time, s0) ->
  polls env p symbol initial_position check_interval start_time
    (fun elapsed => py_lt elapsed retry_timeout = true
                    /\ py_lt elapsed max_wait_time = true) n s0 s1 ->
  time_time env s1 = (Ok now, s2) ->
  py_gt (PyFloat (fsub now start_time)) max_wait_time = true ->
  (n < fuel)%nat ->
  monitor_order_fill env fuel p symbol initial_position
    check_interval max_wait_time retry_timeout s
  = (Ok (if py_ge (PyFloat (fsub now start_time)) retry_timeout
         then None else Some false), s2)
  /\ (py_ge max_wait_time retry_timeout = true ->
      py_ge (PyFloat (fsub now start_time)) retry_timeout = true).
Proof.
  intros Hstart Hpolls Hnow Hgt Hfuel. split.
  - unfold monitor_order_fill. erewrite bind_ok by exact Hstart.
    replace fuel with (n + S (fuel - S n))%nat by lia.
    erewrite monitor_loop_polls; [|clear Hpolls|exact Hpolls].
    + destruct (py_ge (PyFloat (fsub now start_time)) retry_timeout) eqn:Hge.
      * eapply monitor_loop_retry; eassumption.
      * eapply monitor_loop_timed_out; eassumption.
    + intros e [He1 He2]. repeat split.
      * now apply py_lt_not_ge.
      * now apply py_lt_not_gt.
      * exact He2.
  - intros Hle. eapply py_gt_ge_trans; eassumption.
Qed.

(** With a clock that takes ten seconds for each reading, two polls read
    the baseline and the third finds thirty seconds elapsed. *)
Lemma monitor_resubmits_after_baseline_reads_witness :
  exists s,
    monitor_order_fill (Sim.sim_env (Sim.stalled 10000)) 5 Sim.nado "BTC"
      (Some "0.0000 BTC") (PyFloat (float_lit "0.5")) (PyInt 300) (PyInt 30)
      Sim.start
    = (Ok None, s).
Proof.
  eexists.
  eapply (monitor_resubmits_after_baseline_reads (Sim.sim_env (Sim.stalled 10000)) 5
            Sim.nado "BTC"
            (Some "0.0000 BTC") (PyFloat (float_lit "0.5")) (PyInt 300) (PyInt 30) 2).
  - vm_compute. reflexivity.
  - cbv. reflexivity.
  - eapply polls_S; [cbv; reflexivity ..|].
    eapply polls_S; [cbv; reflexivity ..|].
    apply polls_O.
  - cbv. reflexivity.
  - vm_compute. reflexivity.
  - lia.
Defined.

(** With limits of five and thirty seconds and a clock that takes three
    seconds for each reading, one poll reads the baseline and the next
    finds more than five seconds elapsed. *)
Lemma monitor_past_max_wait_witness :
  exists s,
    monitor_order_fill (Sim.sim_env (Sim.stalled 3000)) 5 Sim.nado "BTC"
      (Some "0.0000 BTC") (PyFloat (float_lit "0.5")) (PyInt 5) (PyInt 30)
      Sim.start
    = (Ok (Some false), s).
Proof.
  eexists.
  refine (proj1 (monitor_past_max_wait (Sim.sim_env (Sim.stalled 3000)) 5 Sim.nado
                   "BTC" (Some "0.0000 BTC") (PyFloat (float_lit "0.5"))
                   (PyInt 5) (PyInt 30) 1 Sim.start
                   (Sim.seconds 0) (State 3000 [TimeTime])
                   (State 6500 _) (Sim.seconds 6500) (State 9500 _) _ _ _ _ _)).
  - cbv. reflexivity.
  - eapply polls_S; [cbv; try split; reflexivity ..|].
    apply polls_O.
  - cbv. reflexivity.
  - vm_compute. reflexivity.
  - lia.
Defined.

(** C3 (as stated) fails: with the limits of the retry loop, 300 and 30
    seconds, and a first poll at 301 seconds, the position has not
    changed and the elapsed time exceeds [max_wait_time], and the monitor
    returns [None], not [False]. *)
Lemma monitor_past_max_wait_needs_resubmit :
  fst (monitor_order_fill (Sim.sim_env (Sim.stalled 301000)) 5 Sim.nado "BTC"
         (Some "0.0000 BTC") (PyFloat (float_lit "0.5")) (PyInt 300) (PyInt 30)
         Sim.start)
  = Ok None
  /\ py_gt (PyFloat (fsub (Sim.seconds 301000) (Sim.seconds 0))) (PyInt 300) = true
  /\ Sim.sc_fill_at_ms (Sim.stalled 301000) = None
  /\ Ok None <> Ok (Some false).
Proof.
  repeat split; try (vm_compute; reflexivity). discriminate.
Qed.

(** ** Read errors during polling *)

Section ReadErrors.

Context {W : Type} (env : Env W).

(** Whatever the page does, the position scan returns or raises. *)
Lemma position_scan_finishes p symbol selectors s :
  fst (position_scan env p symbol selectors s) <> OutOfFuel.
Proof.
  revert s. induction selectors as [|selector rest IH]; intros s; simpl.
  - discriminate.
  - unfold bind, query_selector, inner_text, perform.
    destruct (env_query_selector env p selector (world s)) as [[[h|]|e] w]; simpl;
      try discriminate; try apply IH.
    destruct (env_inner_text env _ w) as [[text|e] w']; simpl; try discriminate.
    match goal with |- context [if ?b then _ else _] => destruct b end;
      [discriminate | apply IH].
Qed.

(** [get_nado_position] never raises: a read error is turned into the
    answer [None]. *)
Lemma get_nado_position_returns p symbol s :
  exists r s', get_nado_position env p symbol s = (Ok r, s').
Proof.
  unfold get_nado_position, try_except.
  pose proof (position_scan_finishes p symbol
                ["button.text-negative"; "button.text-positive";
                 has_text "button" "BTC"; has_text "button" "ETH"] s) as H.
  destruct (position_scan env p symbol _ s) as [[r|e|] s']; simpl in H.
  - eauto.
  - unfold ret. eauto.
  - congruence.
Qed.

(** When the first lookup raises, the answer is [None]. *)
Lemma get_nado_position_read_error p symbol s e w :
  env_query_selector env p "button.text-negative" (world s) = (Throws e, w) ->
  get_nado_position env p symbol s
  = (Ok None, State w (QuerySelector p "button.text-negative" :: trace s)).
Proof.
  intros H. unfold get_nado_position.
  erewrite try_except_raise; [reflexivity|].
  simpl. erewrite bind_raise; [reflexivity|].
  unfold query_selector. apply perform_throws. now rewrite H.
Qed.

(** A poll in which the lookup raises ends the monitor with [True] when
    the baseline is a position text. *)
Lemma monitor_loop_read_error fuel p symbol text check_interval max_wait_time
    retry_timeout start_time s now s1 e w :
  time_time env s = (Ok now, s1) ->
  py_ge (PyFloat (fsub now start_time)) retry_timeout = false ->
  py_gt (PyFloat (fsub now start_time)) max_wait_time = false ->
  env_query_selector env p "button.text-negative" (world s1) = (Throws e, w) ->
  fst (monitor_loop env (S fuel) p symbol (Some text)
         check_interval max_wait_time retry_timeout start_time s)
  = Ok (Some true).
Proof.
  intros Ht Hge Hgt Hq.
  pose proof (get_nado_position_read_error p symbol s1 e w Hq) as Hpos.
  erewrite monitor_loop_filled;
    [reflexivity | exact Ht | exact Hge | exact Hgt | exact Hpos | discriminate].
Qed.

End ReadErrors.

(** C5 (the code departs from it): the lookup of the position raises at
    the first poll; [get_nado_position] answers [None], which differs from
    the baseline, and the monitor returns [True] although no position was
    read. *)
Lemma read_error_taken_for_fill :
  fst (env_query_selector (Sim.sim_env Sim.failing_reads) Sim.nado
         "button.text-negative" 0)
  = Throws (Error "TimeoutError")
  /\ fst (get_nado_position (Sim.sim_env Sim.failing_reads) Sim.nado "BTC" Sim.start)
     = Ok None
  /\ fst (monitor_order_fill (Sim.sim_env Sim.failing_reads) 5 Sim.nado "BTC"
            (Some "0.0000 BTC") (PyFloat (float_lit "0.5")) (PyInt 300) (PyInt 30)
            Sim.start)
     = Ok (Some true).
Proof. repeat split; vm_compute; reflexivity. Qed.

(** ** Cancelling the open orders *)

Section Cancel.

Context {W : Type} (env : Env W).

Lemma open_orders_scan_finishes p selectors s :
  fst (open_orders_scan env p selectors s) <> OutOfFuel.
Proof.
  revert s. induction selectors as [|selector rest IH]; intros s; simpl.
  - discriminate.
  - unfold bind, query_selector, inner_text, click, perform.
    next_answer; try discriminate; try apply IH.
    next_answer; try discriminate.
    match goal with |- context [if ?b then _ else _] => destruct b end; [|apply IH].
    next_answer; discriminate.
Qed.

Lemma click_open_orders_button_returns p symbol s :
  exists opened s', click_open_orders_button env p symbol s = (Ok opened, s').
Proof.
  unfold click_open_orders_button, try_except.
  pose proof (open_orders_scan_finishes p
                [sel_open_orders_tab; sel_open_orders; sel_open_orders_id] s) as H.
  destruct (open_orders_scan env p _ s) as [[r|e|] s']; simpl in H.
  - eauto.
  - unfold ret. eauto.
  - congruence.
Qed.

End Cancel.

(** C9 (as amended): [cancel_all_orders] returns what opening the Open
    Orders tab returned.  Once the tab is open the answer is [True],
    whether the Cancel all button is missing, disabled or clicked, and
    whatever is raised; when the tab cannot be opened the answer is
    [False], also when no order is open. *)
Theorem cancel_all_orders_follows_tab {W} (env : Env W) p symbol s :
  exists opened s1 s2,
    click_open_orders_button env p symbol s = (Ok opened, s1) /\
    cancel_all_orders env p symbol s = (Ok opened, s2).
Proof.
  destruct (click_open_orders_button_returns env p symbol s) as (opened & s1 & Hc).
  exists opened, s1.
  unfold cancel_all_orders, try_except at 1.
  erewrite bind_ok by exact Hc.
  destruct opened; simpl.
  - unfold bind, try_except, wait_for_timeout, query_selector, get_attribute,
      click, perform, ret.
    repeat (next_answer; eauto).
  - unfold ret. eauto.
Qed.

(** C9 (as stated) fails: on a page on which no selector matches there is
    no Cancel all button, so no order is open, and [cancel_all_orders]
    returns [False]. *)
Lemma cancel_all_orders_fails_without_tab :
  no_open_orders (Sim.sim_env Sim.blank) Sim.nado Sim.start
  /\ fst (cancel_all_orders (Sim.sim_env Sim.blank) Sim.nado "BTC" Sim.start)
     = Ok false.
Proof. split; [exact I | vm_compute; reflexivity]. Qed.

(** ** What each function adds to the trace *)

(** Goals [only Q m] by the structure of [m]. *)
Ltac only_step :=
  lazymatch goal with
  | |- only _ (ret _) => apply only_ret
  | |- only _ (raise _) => apply only_raise
  | |- only _ out_of_fuel => apply only_out_of_fuel
  | |- only _ (lift _) => apply only_lift
  | |- only _ (perform _ _) => apply only_perform
  | |- only _ (bind _ _) => apply only_bind; [|intros ?]
  | |- only _ (try_except _ _) => apply only_try_except; [|intros ?]
  | |- only _ (try_except_ValueError _ _) => apply only_try_except_ValueError
  | |- only _ (match ?x with _ => _ end) => destruct x
  end.

Ltac only_auto := repeat only_step.

Section Traces.

Context {W : Type} (env : Env W).

(** The calls other than [query_selector] carry no marker. *)
Lemma only_time_time : only unmarked (time_time env).
Proof. unfold time_time. only_auto. reflexivity. Qed.

Lemma only_get_price_from_api symbol product_type :
  only unmarked (get_price_from_api env symbol product_type).
Proof. unfold get_price_from_api. only_auto. reflexivity. Qed.

Lemma only_query_selector (Q : call -> Prop) p selector :
  Q (QuerySelector p selector) -> only Q (query_selector env p selector).
Proof. intros H. unfold query_selector. now apply only_perform. Qed.

Lemma only_inner_text e : only unmarked (inner_text env e).
Proof. unfold inner_text. only_auto. reflexivity. Qed.

Lemma only_click e timeout : only unmarked (click env e timeout).
Proof. unfold click. only_auto. reflexivity. Qed.

Lemma only_get_attribute e name : only unmarked (get_attribute env e name).
Proof. unfold get_attribute. only_auto. reflexivity. Qed.

Lemma only_fill e text : only unmarked (fill env e text).
Proof. unfold fill. only_auto. reflexivity. Qed.

Lemma only_evaluate e js : only unmarked (evaluate env e js).
Proof. unfold evaluate. only_auto. reflexivity. Qed.

Lemma only_wait_for_timeout p ms : only unmarked (wait_for_timeout env p ms).
Proof. unfold wait_for_timeout. only_auto. reflexivity. Qed.

End Traces.

Create HintDb trace_db.

#[local] Hint Resolve only_time_time only_get_price_from_api only_inner_text
  only_click only_get_attribute only_fill only_evaluate only_wait_for_timeout
  : trace_db.

(** [only_auto], with the calls to the world and the functions that are
    already known. *)
Ltac only_known :=
  repeat first
    [ assumption
    | solve [auto with trace_db]
    | apply only_query_selector; reflexivity
    | only_step ].

Section TracesOfFunctions.

Context {W : Type} (env : Env W).

Lemma only_get_and_calculate_order_price p symbol offset direction :
  only unmarked (get_and_calculate_order_price env p symbol offset direction).
Proof. unfold get_and_calculate_order_price. only_known. Qed.

Lemma only_position_scan p symbol selectors :
  Forall (fun selector => unmarked (QuerySelector p selector)) selectors ->
  only unmarked (position_scan env p symbol selectors).
Proof.
  induction 1 as [|selector rest Hsel _ IH]; simpl.
  - only_known.
  - apply only_bind; [now apply only_query_selector|intros button].
    only_known.
Qed.

Lemma only_get_nado_position p symbol :
  only unmarked (get_nado_position env p symbol).
Proof.
  unfold get_nado_position. apply only_try_except; [|intros e; only_known].
  apply only_position_scan.
  repeat (apply List.Forall_cons; [reflexivity|]). apply List.Forall_nil.
Qed.

Lemma only_monitor_loop fuel p symbol initial ci mw rt start_time :
  only unmarked (monitor_loop env fuel p symbol initial ci mw rt start_time).
Proof.
  induction fuel as [|fuel IH]; simpl.
  - only_known.
  - pose proof (only_get_nado_position p symbol).
    only_known.
Qed.

Lemma only_monitor_order_fill fuel p symbol initial ci mw rt :
  only unmarked (monitor_order_fill env fuel p symbol initial ci mw rt).
Proof.
  unfold monitor_order_fill. apply only_bind; [auto with trace_db|intros t].
  apply only_monitor_loop.
Qed.

Lemma only_click_long_tab_button p : only unmarked (click_long_tab_button env p).
Proof. unfold click_long_tab_button. only_known. Qed.

Lemma only_click_short_tab_button p : only unmarked (click_short_tab_button env p).
Proof. unfold click_short_tab_button. only_known. Qed.

Lemma only_click_submit_long_button p symbol :
  only unmarked (click_submit_long_button env p symbol).
Proof. unfold click_submit_long_button. only_known. Qed.

Lemma only_click_submit_short_button p symbol :
  only unmarked (click_submit_short_button env p symbol).
Proof. unfold click_submit_short_button. only_known. Qed.

Lemma only_fill_nado_order_form p order_price size :
  only unmarked (fill_nado_order_form env p order_price size).
Proof. unfold fill_nado_order_form. only_known. Qed.

End TracesOfFunctions.

#[local] Hint Resolve only_get_and_calculate_order_price only_get_nado_position
  only_monitor_order_fill only_click_long_tab_button only_click_short_tab_button
  only_click_submit_long_button only_click_submit_short_button
  only_fill_nado_order_form : trace_db.

(** ** Submissions and cancellations in the trace *)

Lemma submissions_app n1 n2 :
  submissions (n2 ++ n1) = (submissions n2 + submissions n1)%nat.
Proof. unfold submissions. now rewrite List.filter_app, length_app. Qed.

Lemma cancel_guard_app armed l1 l2 :
  cancel_guard armed (l1 ++ l2)
  = guard_then (fun a => cancel_guard a l1) (fun a => cancel_guard a l2) armed.
Proof.
  unfold guard_then. revert armed.
  induction l1 as [|c l1 IH]; intros armed; simpl.
  - reflexivity.
  - destruct (is_submission c).
    + destruct armed; [apply IH | reflexivity].
    + destruct (is_cancellation c); apply IH.
Qed.

Lemma unmarked_not_submission c : unmarked c -> is_submission c = false.
Proof. unfold unmarked, is_submission. now intros ->. Qed.

Lemma unmarked_not_cancellation c : unmarked c -> is_cancellation c = false.
Proof. unfold unmarked, is_cancellation. now intros ->. Qed.

Lemma unmarked_not_hedge c : unmarked c -> is_hedge c = false.
Proof. unfold unmarked, is_hedge. now intros ->. Qed.

Lemma submissions_unmarked new : Forall unmarked new -> submissions new = 0%nat.
Proof.
  unfold submissions. induction 1 as [|c new Hc _ IH]; simpl.
  - reflexivity.
  - now rewrite (unmarked_not_submission c Hc).
Qed.

Lemma cancel_guard_unmarked armed calls :
  Forall unmarked calls -> cancel_guard armed calls = Some armed.
Proof.
  induction 1 as [|c calls Hc _ IH]; simpl.
  - reflexivity.
  - now rewrite (unmarked_not_submission c Hc), (unmarked_not_cancellation c Hc).
Qed.

Lemma Forall_unmarked_rev calls : Forall unmarked calls -> Forall unmarked (rev calls).
Proof. apply List.Forall_rev. Qed.

Section Emits.

Context {W : Type}.

Lemma emits_only {A} (m : M W A) : only unmarked m -> emits quiet m.
Proof.
  intros H s. destruct (H s) as (new & E & F). exists new. split; [exact E|].
  split.
  - now apply submissions_unmarked.
  - intros a. apply cancel_guard_unmarked. now apply Forall_unmarked_rev.
Qed.

Lemma emits_cancellation {A} p (m : M W A) :
  starts_with (QuerySelector p sel_open_orders_tab) unmarked m -> emits cancelled m.
Proof.
  intros H s. destruct (H s) as (rest & E & F).
  exists (rest ++ [QuerySelector p sel_open_orders_tab]).
  rewrite <- app_assoc. split; [exact E|]. split.
  - rewrite submissions_app, (submissions_unmarked rest F). reflexivity.
  - intros a. rewrite rev_app_distr. simpl.
    apply cancel_guard_unmarked. now apply Forall_unmarked_rev.
Qed.

Lemma emits_submission {A} p (m : M W A) :
  starts_with (QuerySelector p sel_limit) unmarked m -> emits submitted m.
Proof.
  intros H s. destruct (H s) as (rest & E & F).
  exists (rest ++ [QuerySelector p sel_limit]).
  rewrite <- app_assoc. split; [exact E|]. split.
  - rewrite submissions_app, (submissions_unmarked rest F). reflexivity.
  - intros a. rewrite rev_app_distr. simpl. destruct a; [|reflexivity].
    apply cancel_guard_unmarked. now apply Forall_unmarked_rev.
Qed.

Lemma emits_bind {A B} (P1 P2 P : nat -> (bool -> option bool) -> Prop)
    (m : M W A) (k : A -> M W B) :
  emits P1 m ->
  (forall a, emits P2 (k a)) ->
  (forall k1 g1, P1 k1 g1 -> P k1 g1) ->
  (forall k1 g1 k2 g2 g, P1 k1 g1 -> P2 k2 g2 ->
     (forall a, g a = guard_then g1 g2 a) -> P (k2 + k1)%nat g) ->
  emits P (bind m k).
Proof.
  intros Hm Hk Hstop Hseq s. destruct (Hm s) as (n1 & E1 & F1). unfold bind.
  destruct (m s) as [[a|e|] s1]; simpl in E1.
  - destruct (Hk a s1) as (n2 & E2 & F2). exists (n2 ++ n1).
    rewrite E2, E1, app_assoc. split; [reflexivity|].
    rewrite submissions_app. eapply Hseq; [exact F1 | exact F2 |].
    intros armed. rewrite rev_app_distr. apply cancel_guard_app.
  - exists n1. split; [exact E1 | now apply Hstop].
  - exists n1. split; [exact E1 | now apply Hstop].
Qed.

Lemma emits_weaken {A} (P P' : nat -> (bool -> option bool) -> Prop) (m : M W A) :
  (forall k g, P k g -> P' k g) -> emits P m -> emits P' m.
Proof.
  intros HP Hm s. destruct (Hm s) as (n & E & F). exists n. split; [exact E|].
  now apply HP.
Qed.

End Emits.

Section TracesOfActions.

Context {W : Type} (env : Env W).

Lemma only_open_orders_scan p selectors :
  Forall (fun selector => unmarked (QuerySelector p selector)) selectors ->
  only unmarked (open_orders_scan env p selectors).
Proof.
  induction 1 as [|selector rest Hsel _ IH]; simpl.
  - only_known.
  - apply only_bind; [now apply only_query_selector|intros button].
    only_known.
Qed.

(** [cancel_all_orders] first looks up the Open Orders tab. *)
Lemma starts_cancel_all_orders p symbol :
  starts_with (QuerySelector p sel_open_orders_tab) unmarked
    (cancel_all_orders env p symbol).
Proof.
  unfold cancel_all_orders, click_open_orders_button.
  apply starts_with_try_except; [|intros e; only_known].
  apply starts_with_bind; [|intros opened; only_known].
  apply starts_with_try_except; [|intros e; only_known].
  simpl open_orders_scan. unfold query_selector at 1.
  apply starts_with_perform. intros button.
  assert (only unmarked (open_orders_scan env p [sel_open_orders; sel_open_orders_id])).
  { apply only_open_orders_scan.
    repeat (apply List.Forall_cons; [reflexivity|]). apply List.Forall_nil. }
  only_known.
Qed.

(** [execute_nado_order] first looks up the Limit button. *)
Lemma starts_execute_nado_order p symbol order_price size direction :
  starts_with (QuerySelector p sel_limit) unmarked
    (execute_nado_order env p symbol order_price size direction).
Proof.
  unfold execute_nado_order, click_limit_button.
  apply starts_with_bind; [|intros limit_ok; only_known].
  apply starts_with_try_except; [|intros e; only_known].
  unfold query_selector at 1.
  apply starts_with_perform. intros button. only_known.
Qed.

End TracesOfActions.

(** ** The retry loop *)

Section RetryTrace.

Context {W : Type} (env : Env W).
Variables (fuel : nat) (p : page) (symbol size : string).
Variables (price_offset : py_num) (direction : string).

Lemma emits_retry_body c :
  emits (one_pass c) (retry_body env fuel p symbol size price_offset direction c).
Proof.
  unfold retry_body.
  eapply (emits_bind (if 0 <? c then cancelled else quiet)
            (fun k g => quiet k g \/ submitted k g)).
  - (* the cancellation of a resubmission *)
    destruct (0 <? c).
    + eapply (emits_bind cancelled quiet).
      * eapply emits_cancellation, starts_cancel_all_orders.
      * intros _. apply emits_only. auto with trace_db.
      * auto.
      * intros k1 g1 k2 g2 g [-> H1] [-> H2] Hg. split; [reflexivity|].
        intros a. rewrite Hg. unfold guard_then. now rewrite H1, H2.
    + apply emits_only. only_known.
  - (* the price, the baseline, the submission and the monitor *)
    intros _.
    eapply (emits_bind quiet (fun k g => quiet k g \/ submitted k g)).
    + apply emits_only. auto with trace_db.
    + intros [[price_num order_price]|].
      2:{ eapply emits_weaken; [|apply emits_only; only_known]. now left. }
      eapply (emits_bind quiet submitted).
      * apply emits_only. auto with trace_db.
      * intros initial_position.
        eapply (emits_bind submitted quiet).
        -- eapply emits_submission, starts_execute_nado_order.
        -- intros submitted_ok. apply emits_only.
           destruct submitted_ok; simpl; only_known.
        -- auto.
        -- intros k1 g1 k2 g2 g [-> H1] [-> H2] Hg. split; [reflexivity|].
           intros a. rewrite Hg. unfold guard_then. rewrite H1.
           destruct a; [apply H2 | reflexivity].
      * now left.
      * intros k1 g1 k2 g2 g [-> H1] [-> H2] Hg. right. split; [reflexivity|].
        intros a. rewrite Hg. unfold guard_then. now rewrite H1, H2.
    + now left.
    + intros k1 g1 k2 g2 g [-> H1] [[-> H2]|[-> H2]] Hg; [left|right];
        (split; [reflexivity|]); intros a; rewrite Hg; unfold guard_then;
        now rewrite H1, H2.
  - (* the pass stops in the cancellation *)
    intros k g Hpre. destruct (0 <? c); destruct Hpre as [-> Hg];
      (split; [lia|]); intros a _; rewrite Hg; eauto.
  - (* the pass goes on *)
    intros k1 g1 k2 g2 g Hpre Hrest Hg.
    assert (Hk1 : k1 = 0%nat).
    { destruct (0 <? c); now destruct Hpre. }
    assert (Hk2 : (k2 <= 1)%nat).
    { destruct Hrest as [[-> _]|[-> _]]; lia. }
    split; [lia|].
    intros a Ha. rewrite Hg. unfold guard_then.
    assert (Hg1 : g1 a = Some true).
    { destruct (0 <? c) eqn:Hc; destruct Hpre as [_ H1]; rewrite H1.
      - reflexivity.
      - apply Z.ltb_ge in Hc. destruct Ha as [Ha| ->]; [lia | reflexivity]. }
    rewrite Hg1.
    destruct Hrest as [[_ H2]|[_ H2]]; rewrite H2; eauto.
Qed.

Lemma emits_retry_loop budget max_retries c :
  0 <= c ->
  emits (passes_within budget c)
    (retry_loop env budget fuel p symbol size price_offset direction max_retries c).
Proof.
  revert c. induction budget as [|budget IH]; intros c Hc; simpl.
  - assert (Hq : forall A (m : M W A), only unmarked m -> emits (passes_within 0 c) m).
    { intros A m Hm. eapply emits_weaken; [|apply emits_only, Hm].
      intros k g [-> Hg]. split; [lia|]. intros a _. rewrite Hg. eauto. }
    destruct (c <? max_retries); apply Hq; only_known.
  - destruct (c <? max_retries).
    + eapply (emits_bind (one_pass c) (passes_within budget (c + 1))).
      * apply emits_retry_body.
      * intros [b|].
        -- eapply emits_weaken; [|apply emits_only; only_known].
           intros k g [-> Hg]. split; [lia|]. intros a _. rewrite Hg. eauto.
        -- apply IH. lia.
      * intros k g [Hk Hg]. split; [lia | exact Hg].
      * intros k1 g1 k2 g2 g [Hk1 H1] [Hk2 H2] Hg. split; [lia|].
        intros a Ha. rewrite Hg. unfold guard_then.
        destruct (H1 a Ha) as [a' ->]. apply H2. left. lia.
    + eapply emits_weaken; [|apply emits_only; only_known].
      intros k g [-> Hg]. split; [lia|]. intros a _. rewrite Hg. eauto.
Qed.

Lemma emits_retry max_retries :
  emits (passes_within (Z.to_nat max_retries) 0)
    (execute_nado_order_with_retry env fuel p symbol size price_offset direction
       max_retries).
Proof. apply emits_retry_loop. lia. Qed.

(** The trace of [execute_nado_order_with_retry]: at most [max_retries]
    submissions, and a cancellation before each resubmission. *)
Lemma execute_nado_order_with_retry_trace max_retries s :
  exists new,
    trace (snd (execute_nado_order_with_retry env fuel p symbol size
                  price_offset direction max_retries s))
    = new ++ trace s /\
    (submissions new <= Z.to_nat max_retries)%nat /\
    cancel_before_each_resubmission new.
Proof.
  destruct (emits_retry_loop (Z.to_nat max_retries) max_retries 0 ltac:(lia) s)
    as (new & E & Hk & Hg).
  exists new. split; [exact E|]. split; [exact Hk|].
  apply Hg. now right.
Qed.

End RetryTrace.

Section RetryPaths.

Context {W : Type} (env : Env W).
Variables (fuel : nat) (p : page) (symbol size : string).
Variables (price_offset : py_num) (direction : string).

Local Abbreviation body := (retry_body env fuel p symbol size price_offset direction).
Local Abbreviation loop budget max_retries :=
  (retry_loop env budget fuel p symbol size price_offset direction max_retries).

Lemma retry_body_monitored c s outcome s' :
  pass_monitored env fuel p symbol size price_offset direction c s outcome s' ->
  body c s = (Ok (decision outcome), s').
Proof.
  intros (order_price & initial & s1 & s2 & (sa & sb & price_num & Hpre & Hprice & Hpos)
          & Hsubmit & Hmonitor).
  unfold retry_body.
  erewrite bind_ok by exact Hpre. cbv beta.
  erewrite bind_ok by exact Hprice. cbv beta iota.
  erewrite bind_ok by exact Hpos. cbv beta.
  erewrite bind_ok by exact Hsubmit. cbn [negb].
  erewrite bind_ok by exact Hmonitor.
  destruct outcome as [[|]|]; reflexivity.
Qed.

Lemma retry_body_not_submitted c s s' :
  pass_not_submitted env p symbol size price_offset direction c s s' ->
  body c s = (Ok (Return false), s').
Proof.
  intros (order_price & initial & s1 & (sa & sb & price_num & Hpre & Hprice & Hpos)
          & Hsubmit).
  unfold retry_body.
  erewrite bind_ok by exact Hpre. cbv beta.
  erewrite bind_ok by exact Hprice. cbv beta iota.
  erewrite bind_ok by exact Hpos. cbv beta.
  erewrite bind_ok by exact Hsubmit. reflexivity.
Qed.

Lemma retry_loop_return budget max_retries c s b s' :
  c < max_retries ->
  body c s = (Ok (Return b), s') ->
  loop (S budget) max_retries c s = (Ok b, s').
Proof.
  intros Hc Hb. simpl. apply Z.ltb_lt in Hc. rewrite Hc.
  erewrite bind_ok by exact Hb. reflexivity.
Qed.

Lemma retry_loop_continue budget max_retries c s s' :
  c < max_retries ->
  body c s = (Ok Continue, s') ->
  loop (S budget) max_retries c s = loop budget max_retries (c + 1) s'.
Proof.
  intros Hc Hb. simpl. apply Z.ltb_lt in Hc. rewrite Hc.
  erewrite bind_ok by exact Hb. reflexivity.
Qed.

Lemma retry_loop_exhausted budget max_retries c s :
  max_retries <= c ->
  loop budget max_retries c s = (Ok false, s).
Proof.
  intros Hc. apply Z.ltb_ge in Hc. destruct budget; simpl; now rewrite Hc.
Qed.

(** Passes that end with [None] use up the budget and nothing else. *)
Lemma retry_loop_resubmits k budget max_retries c s s' :
  resubmits env fuel p symbol size price_offset direction k c s s' ->
  c + Z.of_nat k <= max_retries ->
  loop (k + budget) max_retries c s
  = loop budget max_retries (c + Z.of_nat k) s'.
Proof.
  intros Hr. revert budget. induction Hr as [c s|k c s s1 s' Hpass _ IH];
    intros budget Hk.
  - simpl. now rewrite Z.add_0_r.
  - change (S k + budget)%nat with (S (k + budget)).
    erewrite retry_loop_continue;
      [|lia|apply (retry_body_monitored c s None s1 Hpass)].
    rewrite IH by lia. f_equal. lia.
Qed.

(** After [k] passes that ended with [None], a pass that returns [b]
    makes the loop return [b] at once. *)
Lemma retry_returns_at max_retries k s s1 b s' :
  resubmits env fuel p symbol size price_offset direction k 0 s s1 ->
  Z.of_nat k < max_retries ->
  body (Z.of_nat k) s1 = (Ok (Return b), s') ->
  execute_nado_order_with_retry env fuel p symbol size price_offset direction
    max_retries s
  = (Ok b, s').
Proof.
  intros Hr Hk Hb. unfold execute_nado_order_with_retry.
  replace (Z.to_nat max_retries) with (k + S (Z.to_nat max_retries - S k))%nat by lia.
  rewrite (retry_loop_resubmits k _ max_retries 0 s s1 Hr) by lia.
  apply retry_loop_return; [lia | exact Hb].
Qed.

(** After [max_retries] passes that ended with [None], the loop returns
    [False]. *)
Lemma retry_exhausted max_retries k s s' :
  resubmits env fuel p symbol size price_offset direction k 0 s s' ->
  Z.of_nat k = max_retries ->
  execute_nado_order_with_retry env fuel p symbol size price_offset direction
    max_retries s
  = (Ok false, s').
Proof.
  intros Hr Hk. unfold execute_nado_order_with_retry.
  replace (Z.to_nat max_retries) with (k + 0)%nat by lia.
  rewrite (retry_loop_resubmits k _ max_retries 0 s s' Hr) by lia.
  apply retry_loop_exhausted. lia.
Qed.

End RetryPaths.

(** C6: for every [max_retries] and every run, the retry loop submits at
    most [max_retries] orders, hence resubmits at most [max_retries]
    times, and every resubmission comes after a cancellation; after any
    number of passes that asked for a new order, a pass in which the
    monitor answers [True] makes the loop return [True] at once, and a
    pass in which the monitor answers [False] or the submission fails
    makes it return [False] at once. *)
Theorem retry_loop_bounded_and_guarded
    {W} (env : Env W) fuel p symbol size price_offset direction max_retries s :
  (exists new,
     trace (snd (execute_nado_order_with_retry env fuel p symbol size
                   price_offset direction max_retries s))
     = new ++ trace s /\
     (submissions new <= Z.to_nat max_retries)%nat /\
     (resubmissions new <= Z.to_nat max_retries)%nat /\
     cancel_before_each_resubmission new)
  /\
  (forall k s1 s',
     resubmits env fuel p symbol size price_offset direction k 0 s s1 ->
     Z.of_nat k < max_retries ->
     (pass_monitored env fuel p symbol size price_offset direction
        (Z.of_nat k) s1 (Some true) s' ->
      execute_nado_order_with_retry env fuel p symbol size price_offset
        direction max_retries s = (Ok true, s')) /\
     (pass_monitored env fuel p symbol size price_offset direction
        (Z.of_nat k) s1 (Some false) s' ->
      execute_nado_order_with_retry env fuel p symbol size price_offset
        direction max_retries s = (Ok false, s')) /\
     (pass_not_submitted env p symbol size price_offset direction
        (Z.of_nat k) s1 s' ->
      execute_nado_order_with_retry env fuel p symbol size price_offset
        direction max_retries s = (Ok false, s'))).
Proof.
  split.
  - destruct (execute_nado_order_with_retry_trace env fuel p symbol size
                price_offset direction max_retries s) as (new & E & Hk & Hg).
    exists new. repeat split; try assumption.
    unfold resubmissions. lia.
  - intros k s1 s' Hr Hk. repeat split; intros Hpass.
    + eapply retry_returns_at; [exact Hr | exact Hk |].
      apply (retry_body_monitored env fuel p symbol size price_offset direction
               _ _ (Some true) _ Hpass).
    + eapply retry_returns_at; [exact Hr | exact Hk |].
      apply (retry_body_monitored env fuel p symbol size price_offset direction
               _ _ (Some false) _ Hpass).
    + eapply retry_returns_at; [exact Hr | exact Hk |].
      now apply retry_body_not_submitted.
Qed.

(** A pass of the retry loop on a concrete page. *)
Ltac run_pass :=
  do 4 eexists; split;
  [ do 3 eexists; split;
    [ cbv; reflexivity | split; [ cbv; reflexivity | cbv; reflexivity ] ]
  | split; [ cbv; reflexivity | cbv; reflexivity ] ].

(** A run with one resubmission: the first monitor sees thirty seconds
    pass, the order is cancelled and placed again, and the second monitor
    sees the position change. *)
Lemma retry_loop_bounded_and_guarded_witness :
  exists s',
    execute_nado_order_with_retry (Sim.sim_env Sim.slow_fill) 5 Sim.nado
      "BTC" "0.0001" (PyFloat (float_lit "-5.00")) "long" 3 Sim.start
    = (Ok true, s').
Proof.
  eexists.
  refine (proj1 (proj2 (retry_loop_bounded_and_guarded (Sim.sim_env Sim.slow_fill)
                          5 Sim.nado "BTC" "0.0001" (PyFloat (float_lit "-5.00"))
                          "long" 3 Sim.start) 1%nat _ _ _ _) _).
  - eapply resubmits_S; [run_pass|apply resubmits_O].
  - lia.
  - run_pass.
Defined.

(** ** The hedge *)

(** Goals [only Q m] for a [Q] that is decided by computation. *)
Ltac only_calls :=
  unfold time_time, get_price_from_api, query_selector, inner_text, click,
    get_attribute, fill, evaluate, wait_for_timeout;
  repeat first
    [ assumption
    | only_step
    | reflexivity
    | exact I ].

Section HedgeTrace.

Context {W : Type} (env : Env W).

Lemma unmarked_is_not_hedge {A} (m : M W A) : only unmarked m -> only not_hedge m.
Proof. apply only_weaken. exact unmarked_not_hedge. Qed.

Lemma only_not_hedge_retry_body fuel p symbol size price_offset direction c :
  only not_hedge (retry_body env fuel p symbol size price_offset direction c).
Proof.
  assert (Hcancel : only not_hedge (cancel_all_orders env p symbol)).
  { eapply starts_with_only; [| |apply starts_cancel_all_orders].
    - reflexivity.
    - exact unmarked_not_hedge. }
  assert (Hsubmit : forall order_price,
             only not_hedge (execute_nado_order env p symbol order_price size direction)).
  { intros order_price.
    eapply starts_with_only; [| |apply starts_execute_nado_order].
    - reflexivity.
    - exact unmarked_not_hedge. }
  assert (Hwait : only not_hedge (wait_for_timeout env p 1000)).
  { apply unmarked_is_not_hedge. auto with trace_db. }
  assert (Hprice : only not_hedge
                     (get_and_calculate_order_price env p symbol price_offset direction)).
  { apply unmarked_is_not_hedge. auto with trace_db. }
  assert (Hpos : only not_hedge (get_nado_position env p symbol)).
  { apply unmarked_is_not_hedge. auto with trace_db. }
  assert (Hmon : forall initial a b c',
             only not_hedge (monitor_order_fill env fuel p symbol initial a b c')).
  { intros. apply unmarked_is_not_hedge. auto with trace_db. }
  unfold retry_body.
  repeat first [ assumption | apply Hsubmit | apply Hmon | only_step ].
Qed.

Lemma only_not_hedge_retry_loop budget fuel p symbol size price_offset direction
    max_retries c :
  only not_hedge
    (retry_loop env budget fuel p symbol size price_offset direction max_retries c).
Proof.
  revert c. induction budget as [|budget IH]; intros c; simpl.
  - destruct (c <? max_retries); only_calls.
  - pose proof (only_not_hedge_retry_body fuel p symbol size price_offset direction c).
    destruct (c <? max_retries); [|only_calls].
    apply only_bind; [assumption|]. intros [b|]; [only_calls | apply IH].
Qed.

(** The primary leg makes no call that starts a hedge. *)
Lemma only_not_hedge_retry fuel p symbol size price_offset direction max_retries :
  only not_hedge
    (execute_nado_order_with_retry env fuel p symbol size price_offset direction
       max_retries).
Proof. apply only_not_hedge_retry_loop. Qed.

(** When a hedge follows the primary leg only if it is filled, a hedge in
    the trace shows that the leg was filled. *)
Lemma hedge_needs_fill (leg : M W bool) (hedge : M W bool) s new :
  only not_hedge leg ->
  trace (snd ((let* is_filled := leg in
               if is_filled then hedge >> ret tt else ret tt) s))
  = new ++ trace s ->
  hedge_attempted new ->
  exists s1, leg s = (Ok true, s1).
Proof.
  intros Hleg Htrace Hhedge. destruct (Hleg s) as (n1 & E1 & F1).
  unfold bind in Htrace.
  destruct (leg s) as [[[|]|e|] s1]; simpl in E1; [eauto| | |];
    simpl in Htrace; rewrite E1 in Htrace; apply app_inv_tail in Htrace; subst new;
    exfalso; unfold hedge_attempted in Hhedge;
    apply Exists_exists in Hhedge; destruct Hhedge as (c & Hin & Hc);
    rewrite Forall_forall in F1; specialize (F1 c Hin); unfold not_hedge in F1;
    congruence.
Qed.

Lemma no_call_no_hedge (s : state W) new :
  trace s = new ++ trace s -> hedge_attempted new -> False.
Proof.
  intros E H. change (trace s) with ([] ++ trace s) in E at 1.
  apply app_inv_tail in E. subst new. inversion H.
Qed.

End HedgeTrace.

(** ** The two trade methods *)

Section Methods.

Context {W : Type} (env : Env W).

Lemma pages_not_empty (pages : gmap string page) key pg :
  pages !! key = Some pg -> bool_decide (pages = ∅) = false.
Proof.
  intros H. apply bool_decide_eq_false_2. intros ->.
  rewrite lookup_empty in H. discriminate.
Qed.

(** With a page for Nado and a well-formed first record, [method1] is the
    long leg with three retries, and the short hedge if it is filled. *)
Lemma method1_runs_leg fuel pages configs nado_page config rest symbol offset s :
  pages !! "nado" = Some nado_page ->
  configs = config :: rest ->
  config !! "symbol" = Some symbol ->
  py_float (config_get config "price_offset" "-5") = Ok offset ->
  method1 env fuel pages configs s
  = (let* is_filled :=
       execute_nado_order_with_retry env fuel nado_page symbol
         (config_get config "size" "0.0001") (PyFloat offset) "long" 3 in
     if is_filled
     then execute_variational_short env pages configs >> ret tt
     else ret tt) s.
Proof.
  intros Hnado -> Hsymbol Hoffset. unfold method1.
  rewrite (pages_not_empty pages "nado" nado_page Hnado), Hnado.
  rewrite bool_decide_eq_false_2 by discriminate. cbn [orb].
  erewrite bind_ok by reflexivity. cbv beta.
  erewrite bind_ok by (unfold config_symbol; rewrite Hsymbol; reflexivity).
  cbv beta zeta.
  erewrite bind_lift_ok by exact Hoffset. reflexivity.
Qed.

(** With a page for Nado and a well-formed first record, [method2] is the
    short leg with 999 retries, and the long hedge if it is filled. *)
Lemma method2_runs_leg fuel pages configs nado_page config rest symbol offset s :
  pages !! "nado" = Some nado_page ->
  configs = config :: rest ->
  config !! "symbol" = Some symbol ->
  py_float (config_get config "price_offset" "-5") = Ok offset ->
  method2 env fuel pages configs s
  = (let* is_filled :=
       execute_nado_order_with_retry env fuel nado_page symbol
         (config_get config "size" "0.0001") (PyFloat offset) "short" 999 in
     if is_filled
     then execute_variational_long env pages configs >> ret tt
     else ret tt) s.
Proof.
  intros Hnado -> Hsymbol Hoffset. unfold method2.
  rewrite (pages_not_empty pages "nado" nado_page Hnado), Hnado.
  rewrite bool_decide_eq_false_2 by discriminate. cbn [orb].
  erewrite bind_ok by reflexivity. cbv beta.
  erewrite bind_ok by (unfold config_symbol; rewrite Hsymbol; reflexivity).
  cbv beta zeta.
  erewrite bind_lift_ok by exact Hoffset. reflexivity.
Qed.

(** Otherwise [method1] ends without a call to the world. *)
Lemma method1_cases fuel pages configs s :
  snd (method1 env fuel pages configs s) = s \/
  exists nado_page config rest symbol offset,
    pages !! "nado" = Some nado_page /\
    configs = config :: rest /\
    config !! "symbol" = Some symbol /\
    py_float (config_get config "price_offset" "-5") = Ok offset.
Proof.
  destruct configs as [|config rest]; [now left|].
  destruct (pages !! "nado") as [nado_page|] eqn:Hnado.
  2:{ left. unfold method1. rewrite Hnado.
      rewrite (bool_decide_eq_true_2 (None = None)) by reflexivity.
      now rewrite orb_true_r. }
  destruct (config !! "symbol") as [symbol|] eqn:Hsymbol.
  2:{ left. unfold method1.
      rewrite (pages_not_empty pages "nado" nado_page Hnado), Hnado.
      rewrite bool_decide_eq_false_2 by discriminate. cbn [orb].
      unfold first_config, config_symbol, bind, ret, raise. now rewrite Hsymbol. }
  destruct (py_float (config_get config "price_offset" "-5")) as [offset|e|] eqn:Hoffset.
  - right. exists nado_page, config, rest, symbol, offset. auto.
  - left. unfold method1.
    rewrite (pages_not_empty pages "nado" nado_page Hnado), Hnado.
    rewrite bool_decide_eq_false_2 by discriminate. cbn [orb].
    unfold first_config, config_symbol, bind, ret, lift. now rewrite Hsymbol, Hoffset.
  - left. unfold method1.
    rewrite (pages_not_empty pages "nado" nado_page Hnado), Hnado.
    rewrite bool_decide_eq_false_2 by discriminate. cbn [orb].
    unfold first_config, config_symbol, bind, ret, lift. now rewrite Hsymbol, Hoffset.
Qed.

Lemma method2_cases fuel pages configs s :
  snd (method2 env fuel pages configs s) = s \/
  exists nado_page config rest symbol offset,
    pages !! "nado" = Some nado_page /\
    configs = config :: rest /\
    config !! "symbol" = Some symbol /\
    py_float (config_get config "price_offset" "-5") = Ok offset.
Proof.
  destruct configs as [|config rest]; [now left|].
  destruct (pages !! "nado") as [nado_page|] eqn:Hnado.
  2:{ left. unfold method2. rewrite Hnado.
      rewrite (bool_decide_eq_true_2 (None = None)) by reflexivity.
      now rewrite orb_true_r. }
  destruct (config !! "symbol") as [symbol|] eqn:Hsymbol.
  2:{ left. unfold method2.
      rewrite (pages_not_empty pages "nado" nado_page Hnado), Hnado.
      rewrite bool_decide_eq_false_2 by discriminate. cbn [orb].
      unfold first_config, config_symbol, bind, ret, raise. now rewrite Hsymbol. }
  destruct (py_float (config_get config "price_offset" "-5")) as [offset|e|] eqn:Hoffset.
  - right. exists nado_page, config, rest, symbol, offset. auto.
  - left. unfold method2.
    rewrite (pages_not_empty pages "nado" nado_page Hnado), Hnado.
    rewrite bool_decide_eq_false_2 by discriminate. cbn [orb].
    unfold first_config, config_symbol, bind, ret, lift. now rewrite Hsymbol, Hoffset.
  - left. unfold method2.
    rewrite (pages_not_empty pages "nado" nado_page Hnado), Hnado.
    rewrite bool_decide_eq_false_2 by discriminate. cbn [orb].
    unfold first_config, config_symbol, bind, ret, lift. now rewrite Hsymbol, Hoffset.
Qed.

End Methods.

(** C7: in every run of a trade method, a hedge on Variational is
    attempted only if the primary leg returned [True]; when the leg
    returns [False] (the monitor timed out, the submission failed, or the
    retries are used up) the method ends there, without a hedge and
    without an exception; and using up the retries makes the leg return
    [False]. *)
Theorem hedge_only_after_fill {W} (env : Env W) fuel pages configs s :
  (forall new,
     trace (snd (method1 env fuel pages configs s)) = new ++ trace s ->
     hedge_attempted new ->
     exists nado_page symbol size offset s1,
       execute_nado_order_with_retry env fuel nado_page symbol size offset "long" 3 s
       = (Ok true, s1))
  /\
  (forall new,
     trace (snd (method2 env fuel pages configs s)) = new ++ trace s ->
     hedge_attempted new ->
     exists nado_page symbol size offset s1,
       execute_nado_order_with_retry env fuel nado_page symbol size offset "short" 999 s
       = (Ok true, s1))
  /\
  (forall nado_page config rest symbol offset s1,
     pages !! "nado" = Some nado_page ->
     configs = config :: rest ->
     config !! "symbol" = Some symbol ->
     py_float (config_get config "price_offset" "-5") = Ok offset ->
     (execute_nado_order_with_retry env fuel nado_page symbol
        (config_get config "size" "0.0001") (PyFloat offset) "long" 3 s
      = (Ok false, s1) ->
      method1 env fuel pages configs s = (Ok tt, s1)) /\
     (execute_nado_order_with_retry env fuel nado_page symbol
        (config_get config "size" "0.0001") (PyFloat offset) "short" 999 s
      = (Ok false, s1) ->
      method2 env fuel pages configs s = (Ok tt, s1)) /\
     (resubmits env fuel nado_page symbol (config_get config "size" "0.0001")
        (PyFloat offset) "long" 3 0 s s1 ->
      method1 env fuel pages configs s = (Ok tt, s1)) /\
     (resubmits env fuel nado_page symbol (config_get config "size" "0.0001")
        (PyFloat offset) "short" 999 0 s s1 ->
      method2 env fuel pages configs s = (Ok tt, s1))).
Proof.
  split; [|split].
  - intros new Htrace Hhedge.
    destruct (method1_cases env fuel pages configs s)
      as [Hsame|(nado_page & config & rest & symbol & offset & H1 & H2 & H3 & H4)].
    + rewrite Hsame in Htrace. destruct (no_call_no_hedge s new Htrace Hhedge).
    + rewrite (method1_runs_leg env fuel pages configs nado_page config rest symbol
                 offset s H1 H2 H3 H4) in Htrace.
      destruct (hedge_needs_fill _ _ s new (only_not_hedge_retry env _ _ _ _ _ _ _)
                  Htrace Hhedge) as (s1 & Hleg).
      eauto 10.
  - intros new Htrace Hhedge.
    destruct (method2_cases env fuel pages configs s)
      as [Hsame|(nado_page & config & rest & symbol & offset & H1 & H2 & H3 & H4)].
    + rewrite Hsame in Htrace. destruct (no_call_no_hedge s new Htrace Hhedge).
    + rewrite (method2_runs_leg env fuel pages configs nado_page config rest symbol
                 offset s H1 H2 H3 H4) in Htrace.
      destruct (hedge_needs_fill _ _ s new (only_not_hedge_retry env _ _ _ _ _ _ _)
                  Htrace Hhedge) as (s1 & Hleg).
      eauto 10.
  - intros nado_page config rest symbol offset s1 H1 H2 H3 H4.
    assert (Hm1 : execute_nado_order_with_retry env fuel nado_page symbol
                    (config_get config "size" "0.0001") (PyFloat offset) "long" 3 s
                  = (Ok false, s1) ->
                  method1 env fuel pages configs s = (Ok tt, s1)).
    { intros Hleg. rewrite (method1_runs_leg env fuel pages configs nado_page config
                              rest symbol offset s H1 H2 H3 H4).
      erewrite bind_ok by exact Hleg. reflexivity. }
    assert (Hm2 : execute_nado_order_with_retry env fuel nado_page symbol
                    (config_get config "size" "0.0001") (PyFloat offset) "short" 999 s
                  = (Ok false, s1) ->
                  method2 env fuel pages configs s = (Ok tt, s1)).
    { intros Hleg. rewrite (method2_runs_leg env fuel pages configs nado_page config
                              rest symbol offset s H1 H2 H3 H4).
      erewrite bind_ok by exact Hleg. reflexivity. }
    repeat split; try assumption.
    + intros Hr. apply Hm1. eapply retry_exhausted; [exact Hr | reflexivity].
    + intros Hr. apply Hm2. eapply retry_exhausted; [exact Hr | reflexivity].
Qed.

(** The long leg on a page where the order is never filled: three passes
    ask for a new order, and [method1] ends without a hedge. *)
Lemma hedge_only_after_fill_witness :
  exists s1,
    method1 (Sim.sim_env (Sim.stalled 31000)) 5 Sim.pages [Sim.btc_config] Sim.start
    = (Ok tt, s1).
Proof.
  eexists.
  eapply (proj1 (proj2 (proj2
           (proj2 (proj2 (hedge_only_after_fill (Sim.sim_env (Sim.stalled 31000)) 5
                            Sim.pages [Sim.btc_config] Sim.start))
              Sim.nado Sim.btc_config [] "BTC" (float_lit "-5.00") _
              ltac:(vm_compute; reflexivity) eq_refl
              ltac:(vm_compute; reflexivity) ltac:(vm_compute; reflexivity))))).
  replace (config_get Sim.btc_config "size" "0.0001") with "0.0001"
    by (vm_compute; reflexivity).
  eapply resubmits_S; [run_pass|].
  eapply resubmits_S; [run_pass|].
  eapply resubmits_S; [run_pass|].
  apply resubmits_O.
Defined.

(** ** The retry budgets of the two methods *)

Section Budgets.

Context {W : Type} (env : Env W).

Lemma submissions_none new : Forall not_submission new -> submissions new = 0%nat.
Proof.
  unfold submissions. induction 1 as [|c new Hc _ IH]; simpl.
  - reflexivity.
  - unfold not_submission in Hc. now rewrite Hc.
Qed.

Lemma only_not_submission_short pages configs :
  only not_submission (execute_variational_short env pages configs).
Proof.
  unfold execute_variational_short, first_config, config_symbol,
    click_short_button_variational, fill_quantity_variational,
    click_submit_variational.
  only_calls.
Qed.

Lemma only_not_submission_long pages configs :
  only not_submission (execute_variational_long env pages configs).
Proof.
  unfold execute_variational_long, first_config, config_symbol,
    click_long_button_variational, fill_quantity_variational,
    click_submit_variational.
  only_calls.
Qed.

(** A leg with at most [n] submissions, followed by a hedge, has at most
    [n] submissions. *)
Lemma leg_then_hedge_submissions n c (leg : M W bool) (hedge : M W bool) s :
  emits (passes_within n c) leg ->
  only not_submission hedge ->
  exists new,
    trace (snd ((let* is_filled := leg in
                 if is_filled then hedge >> ret tt else ret tt) s))
    = new ++ trace s /\
    (submissions new <= n)%nat.
Proof.
  intros Hleg Hhedge. destruct (Hleg s) as (n1 & E1 & Hk & _). unfold bind.
  destruct (leg s) as [[[|]|e|] s1]; simpl in E1; try (exists n1; now split).
  destruct (Hhedge s1) as (n2 & E2 & F2).
  exists (n2 ++ n1). split.
  - destruct (hedge s1) as [[b|e|] s2]; simpl in *; now rewrite E2, E1, app_assoc.
  - rewrite submissions_app, (submissions_none n2 F2). exact Hk.
Qed.

Lemma method1_submissions fuel pages configs s :
  exists new,
    trace (snd (method1 env fuel pages configs s)) = new ++ trace s /\
    (submissions new <= 3)%nat.
Proof.
  destruct (method1_cases env fuel pages configs s)
    as [Hsame|(nado_page & config & rest & symbol & offset & H1 & H2 & H3 & H4)].
  - exists []. rewrite Hsame. split; [reflexivity | unfold submissions; simpl; lia].
  - rewrite (method1_runs_leg env fuel pages configs nado_page config rest symbol
               offset s H1 H2 H3 H4).
    destruct (leg_then_hedge_submissions (Z.to_nat 3) 0 _ _ s
                (emits_retry env fuel nado_page symbol
                   (config_get config "size" "0.0001") (PyFloat offset) "long" 3)
                (only_not_submission_short pages (config :: rest)))
      as (new & E & Hk).
    subst configs. exists new. split; [exact E | lia].
Qed.

Lemma method2_submissions fuel pages configs s :
  exists new,
    trace (snd (method2 env fuel pages configs s)) = new ++ trace s /\
    (submissions new <= 999)%nat.
Proof.
  destruct (method2_cases env fuel pages configs s)
    as [Hsame|(nado_page & config & rest & symbol & offset & H1 & H2 & H3 & H4)].
  - exists []. rewrite Hsame. split; [reflexivity | unfold submissions; simpl; lia].
  - rewrite (method2_runs_leg env fuel pages configs nado_page config rest symbol
               offset s H1 H2 H3 H4).
    destruct (leg_then_hedge_submissions (Z.to_nat 999) 0 _ _ s
                (emits_retry env fuel nado_page symbol
                   (config_get config "size" "0.0001") (PyFloat offset) "short" 999)
                (only_not_submission_long pages (config :: rest)))
      as (new & E & Hk).
    subst configs. exists new. split; [exact E | lia].
Qed.

End Budgets.

(** C10: [method1] runs the retry loop with [max_retries = 3] and
    [method2] runs it with [max_retries = 999]; so [method1] never submits
    more than 3 orders and [method2] never more than 999; and on a page
    where the order is never filled and every monitor asks for a new
    order, [method1] submits 3 orders and [method2] submits 999. *)
Theorem retry_budgets_differ {W} (env : Env W) fuel pages configs s :
  (forall nado_page config rest symbol offset,
     pages !! "nado" = Some nado_page ->
     configs = config :: rest ->
     config !! "symbol" = Some symbol ->
     py_float (config_get config "price_offset" "-5") = Ok offset ->
     method1 env fuel pages configs s
     = (let* is_filled :=
          execute_nado_order_with_retry env fuel nado_page symbol
            (config_get config "size" "0.0001") (PyFloat offset) "long" 3 in
        if is_filled
        then execute_variational_short env pages configs >> ret tt
        else ret tt) s
     /\
     method2 env fuel pages configs s
     = (let* is_filled :=
          execute_nado_order_with_retry env fuel nado_page symbol
            (config_get config "size" "0.0001") (PyFloat offset) "short" 999 in
        if is_filled
        then execute_variational_long env pages configs >> ret tt
        else ret tt) s)
  /\
  (exists new,
     trace (snd (method1 env fuel pages configs s)) = new ++ trace s /\
     (submissions new <= 3)%nat)
  /\
  (exists new,
     trace (snd (method2 env fuel pages configs s)) = new ++ trace s /\
     (submissions new <= 999)%nat)
  /\
  submissions (trace (snd (method1 (Sim.sim_env (Sim.stalled 31000)) 5 Sim.pages
                             [Sim.btc_config] Sim.start))) = 3%nat
  /\
  submissions (trace (snd (method2 (Sim.sim_env (Sim.stalled 31000)) 5 Sim.pages
                             [Sim.btc_config] Sim.start))) = 999%nat.
Proof.
  split; [|split; [|split; [|split]]].
  - intros nado_page config rest symbol offset H1 H2 H3 H4. split.
    + now apply (method1_runs_leg env fuel pages configs nado_page config rest).
    + now apply (method2_runs_leg env fuel pages configs nado_page config rest).
  - apply method1_submissions.
  - apply method2_submissions.
  - vm_compute. reflexivity.
  - vm_compute. reflexivity.
Qed.

(** ** The end-to-end scenario *)

Section EndToEnd.

Context {W : Type} (env : Env W).

(** When the position changes before [retry_timeout], and
    [retry_timeout] is below [max_wait_time], the monitor returns
    [True]. *)
Lemma monitor_fills fuel p symbol initial_position check_interval max_wait_time
    retry_timeout n s s' :
  position_changes_within env p symbol initial_position check_interval
    retry_timeout n s s' ->
  py_lt retry_timeout max_wait_time = true ->
  (n < fuel)%nat ->
  monitor_order_fill env fuel p symbol initial_position
    check_interval max_wait_time retry_timeout s
  = (Ok (Some true), s').
Proof.
  intros (start_time & s0 & s1 & now & s2 & current
          & Hstart & Hpolls & Hnow & Hlt & Hpos & Hne) Hrt Hfuel.
  unfold monitor_order_fill. erewrite bind_ok by exact Hstart.
  replace fuel with (n + S (fuel - S n))%nat by lia.
  erewrite monitor_loop_polls; [|clear Hpolls|exact Hpolls].
  - eapply monitor_loop_filled; try eassumption.
    + now apply py_lt_not_ge.
    + apply py_lt_not_gt. eapply py_lt_trans; eassumption.
  - intros e He. cbv beta in He. repeat split.
    + now apply py_lt_not_ge.
    + apply py_lt_not_gt. eapply py_lt_trans; eassumption.
    + eapply py_lt_trans; eassumption.
Qed.

(** The short hedge first looks up the bid display of the Variational
    page, and the only text it enters is the size of the record. *)
Lemma starts_execute_variational_short pages configs config rest variational_page
    symbol :
  pages !! "variational" = Some variational_page ->
  configs = config :: rest ->
  config !! "symbol" = Some symbol ->
  starts_with (QuerySelector variational_page sel_bid_price_display)
    (enters_size (config_get config "size" "0.0001"))
    (execute_variational_short env pages configs).
Proof.
  intros Hpage -> Hsymbol. unfold execute_variational_short.
  rewrite (pages_not_empty pages "variational" variational_page Hpage), Hpage.
  rewrite bool_decide_eq_false_2 by discriminate. cbn [orb].
  intros s.
  erewrite bind_ok by reflexivity. cbv beta.
  erewrite bind_ok by (unfold config_symbol; rewrite Hsymbol; reflexivity).
  cbv beta zeta. revert s.
  match goal with
  | |- forall s, exists r, trace (snd (bind ?m ?k s)) = _ /\ _ =>
      apply (starts_with_bind
               (enters_size (config_get config "size" "0.0001"))
               (QuerySelector variational_page sel_bid_price_display) m k)
  end.
  - unfold click_short_button_variational.
    apply starts_with_try_except; [|intros e; only_calls].
    unfold query_selector at 1. apply starts_with_perform.
    intros span. only_calls.
  - intros short_ok.
    unfold fill_quantity_variational, click_submit_variational. only_calls.
Qed.

End EndToEnd.

(** When the order of the first pass is submitted and the position
    changes within the retry timeout, the long leg returns [True] and
    [method1] goes on to the hedge: it looks up the bid display, the short
    side, of the Variational page, and the only text entered there is the
    size of the record. *)
Lemma long_fill_then_short_hedge
    {W} (env : Env W) fuel pages configs config rest nado_page variational_page
    symbol offset price_num order_price baseline n s sp s1 s2 s3 :
  pages !! "nado" = Some nado_page ->
  pages !! "variational" = Some variational_page ->
  configs = config :: rest ->
  config !! "symbol" = Some symbol ->
  py_float (config_get config "price_offset" "-5") = Ok offset ->
  get_and_calculate_order_price env nado_page symbol (PyFloat offset) "long" s
  = (Ok (Some (price_num, order_price)), sp) ->
  get_nado_position env nado_page symbol sp = (Ok baseline, s1) ->
  execute_nado_order env nado_page symbol order_price
    (config_get config "size" "0.0001") "long" s1 = (Ok true, s2) ->
  position_changes_within env nado_page symbol baseline
    (PyFloat (float_lit "0.5")) (PyInt 30) n s2 s3 ->
  (n < fuel)%nat ->
  execute_nado_order_with_retry env fuel nado_page symbol
    (config_get config "size" "0.0001") (PyFloat offset) "long" 3 s
  = (Ok true, s3)
  /\
  exists later,
    trace (snd (method1 env fuel pages configs s))
    = later ++ QuerySelector variational_page sel_bid_price_display :: trace s3
    /\ Forall (enters_size (config_get config "size" "0.0001")) later.
Proof.
  intros Hnado Hvar Hconfigs Hsymbol Hfloat Hprice Hpos Hsubmit Hchange Hfuel.
  assert (Hleg :
            execute_nado_order_with_retry env fuel nado_page symbol
              (config_get config "size" "0.0001") (PyFloat offset) "long" 3 s
            = (Ok true, s3)).
  { eapply (retry_returns_at env fuel nado_page symbol _ (PyFloat offset) "long"
              3 0 s s);
      [apply resubmits_O | reflexivity |].
    apply (retry_body_monitored env fuel nado_page symbol _ (PyFloat offset)
             "long" 0 s (Some true) s3).
    exists order_price, baseline, s1, s2. split; [|split].
    - exists s, sp, price_num.
      split; [reflexivity|]. split; [exact Hprice | exact Hpos].
    - exact Hsubmit.
    - eapply monitor_fills; [exact Hchange | reflexivity | exact Hfuel]. }
  split; [exact Hleg|].
  rewrite (method1_runs_leg env fuel pages configs nado_page config rest symbol
             offset s Hnado Hconfigs Hsymbol Hfloat).
  erewrite bind_ok by exact Hleg. cbv iota.
  destruct (starts_execute_variational_short env pages configs config rest
              variational_page symbol Hvar Hconfigs Hsymbol s3)
    as (later & E & F).
  exists later. split; [|exact F].
  unfold bind.
  destruct (execute_variational_short env pages configs s3) as [[b|e|] s4];
    exact E.
Qed.




(** * Further properties *)

(** ** Strings *)

Lemma chars_cons c s :
  chars (String c s)
  = match chars s with
    | String d ch :: rest =>
        if is_continuation d then String c (String d ch) :: rest
        else String c EmptyString :: String d ch :: rest
    | rest => String c EmptyString :: rest
    end.
Proof. reflexivity. Qed.

Lemma chars_head c s : exists r rest, chars (String c s) = String c r :: rest.
Proof.
  rewrite chars_cons. destruct (chars s) as [|[|d ch] rest]; eauto.
  destruct (is_continuation d); eauto.
Qed.

(** A character in front of a text that does not continue it is the first
    character of the whole. *)
Lemma chars_chunk c r x :
  all_continuation r = true ->
  (x = EmptyString \/ exists d y, x = String d y /\ is_continuation d = false) ->
  chars (String c (r ++ x)) = String c r :: chars x.
Proof.
  revert c. induction r as [|d r IH]; intros c Hr Hx.
  - change (EmptyString ++ x)%string with x.
    destruct Hx as [->|(d & y & -> & Hd)]; [reflexivity|].
    rewrite chars_cons.
    destruct (chars_head d y) as (r' & rest & E). rewrite E, Hd. reflexivity.
  - simpl in Hr. apply andb_true_iff in Hr. destruct Hr as [Hd Hr].
    change (String d r ++ x)%string with (String d (r ++ x)).
    rewrite chars_cons, (IH d Hr Hx), Hd. reflexivity.
Qed.

Lemma chars_are_chars s : are_chars (chars s).
Proof.
  induction s as [|c s [IH1 IH2]]; [split; constructor|].
  rewrite chars_cons. destruct (chars s) as [|[|d ch] rest].
  - split; [|constructor]. constructor; [|constructor]. exists c, EmptyString. now split.
  - inversion IH1 as [|? ? (? & ? & ? & ?) ?]. discriminate.
  - inversion IH1 as [|? ? (d' & r' & E & Hr) Hrest]; subst. injection E as <- <-.
    simpl in IH2.
    destruct (is_continuation d) eqn:Hd.
    + split; [|exact IH2]. constructor; [|exact Hrest].
      exists c, (String d ch). split; [reflexivity|]. simpl. now rewrite Hd, Hr.
    + split.
      * constructor; [exists c, EmptyString; now split|].
        constructor; [exists d, ch; now split | exact Hrest].
      * simpl. constructor; [exists d, ch; now split | exact IH2].
Qed.

Lemma join_cons ch l : join (ch :: l) = (ch ++ join l)%string.
Proof. reflexivity. Qed.

(** Splitting what the characters make gives the characters back. *)
Lemma chars_join l : are_chars l -> chars (join l) = l.
Proof.
  induction l as [|ch l IH]; intros [H1 H2]; [reflexivity|].
  inversion H1 as [|? ? (c & r & -> & Hr) Hl]; subst.
  simpl in H2.
  rewrite join_cons. change (String c r ++ join l)%string with (String c (r ++ join l)).
  rewrite chars_chunk.
  - f_equal. apply IH. split; [exact Hl|]. destruct l; [constructor|].
    now inversion H2.
  - exact Hr.
  - destruct l as [|ch' l]; [now left|]. right.
    inversion H2 as [|? ? (d & y & -> & Hd) _]; subst.
    exists d, (y ++ join l)%string. now split.
Qed.

Lemma Forall_lstrip (P : string -> Prop) l : Forall P l -> Forall P (lstrip l).
Proof.
  induction 1 as [|ch l Hch Hl IH]; simpl; [constructor|].
  destruct (is_space ch); [exact IH | now constructor].
Qed.

Lemma Forall_rstrip (P : string -> Prop) l : Forall P l -> Forall P (rstrip l).
Proof.
  induction 1 as [|ch l Hch Hl IH]; simpl; [constructor|].
  destruct (rstrip l) as [|x r].
  - destruct (is_space ch); constructor; [exact Hch | constructor].
  - now constructor.
Qed.

Lemma are_chars_tl ch l : are_chars (ch :: l) -> are_chars l.
Proof.
  intros [H1 H2]. inversion H1; subst. split; [assumption|].
  simpl in H2. destruct l; [constructor | now inversion H2].
Qed.

Lemma are_chars_lstrip l : are_chars l -> are_chars (lstrip l).
Proof.
  induction l as [|ch l IH]; intros H; simpl; [exact H|].
  destruct (is_space ch); [|exact H]. apply IH. eapply are_chars_tl. exact H.
Qed.

Lemma are_chars_rstrip l : are_chars l -> are_chars (rstrip l).
Proof.
  intros [H1 H2]. split; [now apply Forall_rstrip|].
  destruct l as [|ch l]; [constructor|]. simpl in *.
  pose proof (Forall_rstrip opens l H2) as H.
  destruct (rstrip l) as [|x r].
  - destruct (is_space ch); constructor.
  - exact H.
Qed.

Lemma lstrip_head l :
  lstrip l = [] \/ exists ch r, lstrip l = ch :: r /\ is_space ch = false.
Proof.
  induction l as [|ch l IH]; simpl; [now left|].
  destruct (is_space ch) eqn:Hch; [exact IH|]. right. eauto.
Qed.

Lemma rstrip_head ch l :
  is_space ch = false -> exists r, rstrip (ch :: l) = ch :: r.
Proof.
  intros Hch. simpl. destruct (rstrip l); [rewrite Hch|]; eauto.
Qed.

Lemma rstrip_idempotent l : rstrip (rstrip l) = rstrip l.
Proof.
  induction l as [|ch l IH]; simpl; [reflexivity|].
  destruct (rstrip l) as [|x r] eqn:Hr.
  - destruct (is_space ch) eqn:Hch; simpl; [reflexivity|]. now rewrite Hch.
  - change (rstrip (ch :: x :: r)) with
      (match rstrip (x :: r) with
       | [] => if is_space ch then [] else [ch]
       | r' => ch :: r'
       end).
    rewrite IH. reflexivity.
Qed.

Lemma rstrip_last l ch : last (rstrip l) = Some ch -> is_space ch = false.
Proof.
  induction l as [|x l IH]; simpl; [discriminate|].
  destruct (rstrip l) as [|y r].
  - destruct (is_space x) eqn:Hx; simpl; [discriminate|]. now intros [= <-].
  - exact IH.
Qed.

(** What [strip] returns has no blank at either end. *)
Lemma py_strip_ends s : no_blank_at_ends (py_strip s).
Proof.
  intros ch. unfold py_strip.
  rewrite chars_join
    by (apply are_chars_rstrip, are_chars_lstrip, chars_are_chars).
  intros [H|H]; [|exact (rstrip_last _ _ H)].
  destruct (lstrip_head (chars s)) as [E|(ch' & r & E & Hch)]; rewrite E in H.
  - discriminate H.
  - destruct (rstrip_head ch' r Hch) as (r' & Hr). rewrite Hr in H.
    now injection H as <-.
Qed.

(** A no-break space at the end of a text is stripped; [float] reads the
    digits of other scripts; the separator U+001C is a blank to [strip]
    and not to [float]. *)
Lemma strip_and_float_beyond_ascii :
  py_strip ("0.0001 BTC" +:+ Texts.no_break_space) = "0.0001 BTC"
  /\ py_float Texts.fullwidth_five = py_float "5"
  /\ py_float (Texts.no_break_space +:+ "5") = py_float "5"
  /\ py_strip (Texts.file_separator +:+ "5") = "5"
  /\ py_float (Texts.file_separator +:+ "5") = Raise ValueError.
Proof. repeat split; vm_compute; reflexivity. Qed.

(** Stripping twice is stripping once. *)
Lemma py_strip_idempotent s : py_strip (py_strip s) = py_strip s.
Proof.
  unfold py_strip.
  rewrite chars_join
    by (apply are_chars_rstrip, are_chars_lstrip, chars_are_chars).
  f_equal.
  destruct (lstrip_head (chars s)) as [H|(ch & r & H & Hch)]; rewrite H.
  - reflexivity.
  - destruct (rstrip_head ch r Hch) as (r' & Hr). rewrite Hr.
    simpl lstrip. rewrite Hch. rewrite <- Hr. apply rstrip_idempotent.
Qed.

Lemma upper_char_idempotent c : upper_char (upper_char c) = upper_char c.
Proof.
  destruct c as [[] [] [] [] [] [] [] []]; reflexivity.
Qed.

(** Upper-casing twice is upper-casing once. *)
Lemma py_upper_idempotent s : py_upper (py_upper s) = py_upper s.
Proof.
  induction s as [|c s IH]; simpl; [reflexivity|].
  now rewrite upper_char_idempotent, IH.
Qed.

(** ** The position read *)

Section PositionRead.

Context {W : Type} (env : Env W).

Lemma position_scan_result p symbol selectors s text s' :
  position_scan env p symbol selectors s = (Ok (Some text), s') ->
  position_text_ok symbol text.
Proof.
  revert s. induction selectors as [|selector rest IH]; intros s; simpl.
  - discriminate.
  - unfold bind, query_selector, inner_text, perform.
    next_answer; try discriminate; try apply IH.
    next_answer; try discriminate.
    match goal with
    | |- context [truthy_str ?t] => destruct (truthy_str t) eqn:Htruthy
    end; [|apply IH].
    simpl andb.
    match goal with |- context [if ?b then _ else _] => destruct b eqn:Hm end;
      [|apply IH].
    unfold ret. intros H. injection H as <- _.
    split; [|split; [|split]].
    + unfold truthy_str in Htruthy. intros Hempty. rewrite Hempty in Htruthy.
      discriminate.
    + apply py_strip_ends.
    + apply py_strip_idempotent.
    + intros _ _.
      apply orb_true_iff in Hm. destruct Hm as [Hm|Hm]; [|now right; right].
      apply orb_true_iff in Hm. destruct Hm as [Hm|Hm]; [now left | now right; left].
Qed.

End PositionRead.

(** X1: [get_nado_position] never raises.  It returns [None], or a text
    that is not empty and has no blank at either end; when the symbol and
    the text are ASCII, the text mentions the symbol (whatever the case of
    the letters), BTC or ETH. *)
Theorem get_nado_position_result {W} (env : Env W) p symbol s :
  exists r s',
    get_nado_position env p symbol s = (Ok r, s') /\
    match r with
    | None => True
    | Some text => position_text_ok symbol text
    end.
Proof.
  destruct (get_nado_position_returns env p symbol s) as (r & s' & H).
  exists r, s'. split; [exact H|].
  destruct r as [text|]; [|exact I].
  unfold get_nado_position, try_except in H.
  destruct (position_scan env p symbol _ s) as [[r'|e|] s1] eqn:Hscan.
  - injection H as -> ->. eapply position_scan_result. exact Hscan.
  - discriminate H.
  - discriminate H.
Qed.

(** ** The calls of the fill monitor *)

Section MonitorCalls.

Context {W : Type} (env : Env W).

Lemma only_bind_lift (Q : call -> Prop) {A B} (r : res A) (k : A -> M W B) :
  (forall a, r = Ok a -> only Q (k a)) -> only Q (bind (lift r) k).
Proof.
  intros Hk s. unfold bind, lift. destruct r as [a|e|].
  - apply (Hk a eq_refl).
  - exists []. now split.
  - exists []. now split.
Qed.

Lemma polls_only_position_scan p ms symbol selectors :
  only (polls_only p ms) (position_scan env p symbol selectors).
Proof.
  induction selectors as [|selector rest IH]; simpl; only_calls.
Qed.

Lemma polls_only_get_nado_position p ms symbol :
  only (polls_only p ms) (get_nado_position env p symbol).
Proof.
  unfold get_nado_position.
  apply only_try_except; [apply polls_only_position_scan | intros e; only_calls].
Qed.

Lemma polls_only_monitor_loop fuel p symbol initial ci mw rt start_time :
  only (polls_only p (poll_interval_ms ci))
    (monitor_loop env fuel p symbol initial ci mw rt start_time).
Proof.
  induction fuel as [|fuel IH]; simpl; [only_calls|].
  pose proof (polls_only_get_nado_position p (poll_interval_ms ci) symbol) as Hpos.
  apply only_bind; [only_calls|intros now].
  destruct (py_ge _ rt); [only_calls|].
  destruct (py_gt _ mw); [only_calls|].
  apply only_bind; [only_calls|intros changed].
  destruct changed; [only_calls|].
  destruct (py_lt _ mw); [|only_calls].
  apply only_bind_lift. intros scaled Hscaled.
  apply only_bind_lift. intros ms Hms.
  apply only_bind; [|intros _; exact IH].
  unfold wait_for_timeout. apply only_perform. split; [reflexivity|].
  unfold poll_interval_ms. now rewrite Hscaled.
Qed.

Lemma polls_only_monitor_order_fill fuel p symbol initial ci mw rt :
  only (polls_only p (poll_interval_ms ci))
    (monitor_order_fill env fuel p symbol initial ci mw rt).
Proof.
  unfold monitor_order_fill.
  apply only_bind; [only_calls | intros t; apply polls_only_monitor_loop].
Qed.

End MonitorCalls.

(** X2: the fill monitor only observes: it reads the clock, looks up
    elements, reads their text and pauses; it never clicks, fills a field,
    runs a script or asks for a price. *)
Theorem monitor_only_observes
    {W} (env : Env W) fuel p symbol initial check_interval max_wait_time retry_timeout :
  only observes
    (monitor_order_fill env fuel p symbol initial check_interval max_wait_time
       retry_timeout).
Proof.
  eapply only_weaken; [|apply polls_only_monitor_order_fill].
  intros [] H; simpl in *; tauto.
Qed.

(** X3: the fill monitor polls at a fixed interval: every pause it makes is
    a pause of [int(check_interval * 1000)] milliseconds on its own
    page. *)
Theorem monitor_pauses_fixed
    {W} (env : Env W) fuel p symbol initial check_interval max_wait_time retry_timeout :
  only (fun c => forall q t, c = WaitForTimeout q t ->
                             q = p /\ poll_interval_ms check_interval = Ok t)
    (monitor_order_fill env fuel p symbol initial check_interval max_wait_time
       retry_timeout).
Proof.
  eapply only_weaken; [|apply polls_only_monitor_order_fill].
  intros c H q t ->. exact H.
Qed.

(** ** A submission that succeeds *)

(** X4: when [execute_nado_order] returns [True] it has made exactly the
    fourteen calls of a submission, in order: in particular it typed the
    order price divided by 100, with two decimals, into the price field
    and the size into the size field, and clicked the submit button of the
    direction. *)
Theorem execute_nado_order_success
    {W} (env : Env W) p symbol order_price size direction s s' :
  execute_nado_order env p symbol order_price size direction s = (Ok true, s') ->
  exists price_actual h1 h2 h3 h4 h5,
    py_truediv_int_float order_price (float_of_Z 100) = Ok price_actual /\
    trace s'
    = rev (submission_calls p symbol size direction (format_2f price_actual)
             h1 h2 h3 h4 h5) ++ trace s.
Proof.
  unfold execute_nado_order, submission_calls, click_limit_button,
    click_long_tab_button, click_short_tab_button, fill_nado_order_form,
    click_submit_long_button, click_submit_short_button.
  destruct (py_truediv_int_float order_price (float_of_Z 100))
    as [price_actual|e|] eqn:Hprice;
    destruct (String.eqb direction "long");
    unfold bind, try_except, lift, ret, query_selector, click, fill,
      wait_for_timeout, perform; simpl;
    repeat (next_answer; try discriminate);
    intros H; injection H as <-;
    do 6 eexists; (split; [reflexivity|]); reflexivity.
Qed.

(** On a page where every element is found, the long order at 90597.00 is
    submitted with these calls. *)
Lemma execute_nado_order_success_witness :
  exists price_actual h1 h2 h3 h4 h5,
    py_truediv_int_float 9059700 (float_of_Z 100) = Ok price_actual /\
    trace (snd (execute_nado_order (Sim.sim_env Sim.filling) Sim.nado "BTC"
                  9059700 "0.0001" "long" Sim.start))
    = rev (submission_calls Sim.nado "BTC" "0.0001" "long"
             (format_2f price_actual) h1 h2 h3 h4 h5) ++ trace Sim.start.
Proof.
  apply (execute_nado_order_success (Sim.sim_env Sim.filling) Sim.nado "BTC"
           9059700 "0.0001" "long" Sim.start).
  vm_compute. reflexivity.
Defined.


(** ** Errors of the price API and of the offset *)

Section PriceErrors.

Context {W : Type} (env : Env W).

Lemma retry_first_pass_raises fuel p symbol size offset direction max_retries s e s' :
  0 < max_retries ->
  get_and_calculate_order_price env p symbol offset direction s = (Raise e, s') ->
  execute_nado_order_with_retry env fuel p symbol size offset direction max_retries s
  = (Raise e, s').
Proof.
  intros Hmax Hprice. unfold execute_nado_order_with_retry.
  destruct (Z.to_nat max_retries) as [|budget] eqn:Hb; [lia|].
  simpl. rewrite (proj2 (Z.ltb_lt 0 max_retries) Hmax).
  erewrite bind_raise; [reflexivity|].
  unfold retry_body. change (0 <? 0) with false. cbv iota.
  erewrite bind_ok by reflexivity.
  erewrite bind_raise; [reflexivity | exact Hprice].
Qed.

Lemma retry_first_pass_no_price fuel p symbol size offset direction max_retries s s' :
  0 < max_retries ->
  get_and_calculate_order_price env p symbol offset direction s = (Ok None, s') ->
  execute_nado_order_with_retry env fuel p symbol size offset direction max_retries s
  = (Ok false, s').
Proof.
  intros Hmax Hprice. unfold execute_nado_order_with_retry.
  destruct (Z.to_nat max_retries) as [|budget] eqn:Hb; [lia|].
  simpl. rewrite (proj2 (Z.ltb_lt 0 max_retries) Hmax).
  assert (Hbody : retry_body env fuel p symbol size offset direction 0 s
                  = (Ok (Return false), s')).
  { unfold retry_body. change (0 <? 0) with false. cbv iota.
    erewrite bind_ok by reflexivity.
    erewrite bind_ok by exact Hprice. reflexivity. }
  erewrite bind_ok by exact Hbody. reflexivity.
Qed.

Lemma price_api_throws p symbol offset direction s e w :
  env_get_price_from_api env symbol "perp" (world s) = (Throws e, w) ->
  get_and_calculate_order_price env p symbol offset direction s
  = (Raise e, State w (GetPriceFromApi symbol "perp" :: trace s)).
Proof.
  intros H. unfold get_and_calculate_order_price.
  erewrite bind_raise; [reflexivity|]. now apply perform_throws.
Qed.

Lemma price_side_missing p symbol offset direction s quote w :
  env_get_price_from_api env symbol "perp" (world s) = (Returns quote, w) ->
  quote_side quote direction = None ->
  get_and_calculate_order_price env p symbol offset direction s
  = (Ok None, State w (GetPriceFromApi symbol "perp" :: trace s)).
Proof.
  intros H Hside. unfold get_and_calculate_order_price.
  erewrite bind_ok by (apply perform_returns; exact H).
  destruct quote as [prices|]; [|reflexivity].
  simpl in Hside. unfold try_except_ValueError. now rewrite Hside.
Qed.

End PriceErrors.

(** X5: an exception of the price API is caught nowhere: the calculator,
    the retry loop and both trade methods raise it, after that one call
    and before any order is placed. *)
Theorem price_api_error_propagates
    {W} (env : Env W) fuel pages configs nado_page config rest symbol offset e s w :
  pages !! "nado" = Some nado_page ->
  configs = config :: rest ->
  config !! "symbol" = Some symbol ->
  py_float (config_get config "price_offset" "-5") = Ok offset ->
  env_get_price_from_api env symbol "perp" (world s) = (Throws e, w) ->
  method1 env fuel pages configs s
  = (Raise e, State w (GetPriceFromApi symbol "perp" :: trace s))
  /\
  method2 env fuel pages configs s
  = (Raise e, State w (GetPriceFromApi symbol "perp" :: trace s)).
Proof.
  intros Hnado Hconfigs Hsymbol Hoffset Hapi. split.
  - rewrite (method1_runs_leg env fuel pages configs nado_page config rest symbol
               offset s Hnado Hconfigs Hsymbol Hoffset).
    erewrite bind_raise; [reflexivity|].
    apply retry_first_pass_raises; [lia|]. now apply price_api_throws.
  - rewrite (method2_runs_leg env fuel pages configs nado_page config rest symbol
               offset s Hnado Hconfigs Hsymbol Hoffset).
    erewrite bind_raise; [reflexivity|].
    apply retry_first_pass_raises; [lia|]. now apply price_api_throws.
Qed.

(** A price API that raises [OverflowError]. *)
Lemma price_api_error_propagates_witness :
  method1 Sim2.api_overflow 5 Sim.pages [Sim.btc_config] Sim.start
  = (Raise OverflowError, State 0 [GetPriceFromApi "BTC" "perp"])
  /\
  method2 Sim2.api_overflow 5 Sim.pages [Sim.btc_config] Sim.start
  = (Raise OverflowError, State 0 [GetPriceFromApi "BTC" "perp"]).
Proof.
  apply (price_api_error_propagates Sim2.api_overflow 5 Sim.pages [Sim.btc_config]
           Sim.nado Sim.btc_config [] "BTC" (float_lit "-5.00")
           OverflowError Sim.start 0);
    vm_compute; reflexivity.
Defined.

(** X6: when the price API has no quote, or the quote lacks the side that
    the direction needs (the bid for long, the ask otherwise), the retry
    loop returns [False] after that one call: it reads no position, places
    no order and does not retry. *)
Theorem missing_quote_ends_leg
    {W} (env : Env W) fuel p symbol size offset direction max_retries s quote w :
  0 < max_retries ->
  env_get_price_from_api env symbol "perp" (world s) = (Returns quote, w) ->
  quote_side quote direction = None ->
  execute_nado_order_with_retry env fuel p symbol size offset direction max_retries s
  = (Ok false, State w (GetPriceFromApi symbol "perp" :: trace s)).
Proof.
  intros Hmax Hapi Hside.
  apply retry_first_pass_no_price; [exact Hmax|].
  now apply price_side_missing with (quote := quote).
Qed.

(** A price API without a quote. *)
Lemma missing_quote_ends_leg_witness :
  execute_nado_order_with_retry (Sim.sim_env Sim2.no_quote) 5 Sim.nado "BTC"
    "0.0001" (PyFloat (float_lit "-5.00")) "long" 3 Sim.start
  = (Ok false, State 0 [GetPriceFromApi "BTC" "perp"]).
Proof.
  apply (missing_quote_ends_leg (Sim.sim_env Sim2.no_quote) 5 Sim.nado "BTC"
           "0.0001" (PyFloat (float_lit "-5.00")) "long" 3 Sim.start None 0);
    [lia | reflexivity | reflexivity].
Defined.

(** X7: a [price_offset] that reads as not-a-number (the text [nan]) ends
    [method1] quietly after the price fetch, as the [ValueError] of
    [round] is caught by the calculator; one that reads as infinite (the
    text [inf]) makes [method1] raise the [OverflowError] of [round],
    which nothing catches.  No order is placed in either case. *)
Theorem offset_nan_or_infinite
    {W} (env : Env W) fuel pages configs nado_page config rest symbol offset
    prices bid s w :
  pages !! "nado" = Some nado_page ->
  configs = config :: rest ->
  config !! "symbol" = Some symbol ->
  py_float (config_get config "price_offset" "-5") = Ok offset ->
  env_get_price_from_api env symbol "perp" (world s) = (Returns (Some prices), w) ->
  prices !! "bid" = Some bid ->
  (offset = S754_nan ->
   method1 env fuel pages configs s
   = (Ok tt, State w (GetPriceFromApi symbol "perp" :: trace s)))
  /\
  (forall sign, offset = S754_infinity sign ->
   method1 env fuel pages configs s
   = (Raise OverflowError, State w (GetPriceFromApi symbol "perp" :: trace s))).
Proof.
  intros Hnado Hconfigs Hsymbol Hoffset Hapi Hbid.
  rewrite (method1_runs_leg env fuel pages configs nado_page config rest symbol
             offset s Hnado Hconfigs Hsymbol Hoffset).
  split.
  - intros ->.
    assert (Hprice : get_and_calculate_order_price env nado_page symbol
                       (PyFloat S754_nan) "long" s
                     = (Ok None, State w (GetPriceFromApi symbol "perp" :: trace s))).
    { unfold get_and_calculate_order_price.
      erewrite bind_ok by (apply perform_returns; exact Hapi).
      unfold try_except_ValueError. simpl. now rewrite Hbid. }
    erewrite bind_ok by (apply retry_first_pass_no_price; [lia | exact Hprice]).
    reflexivity.
  - intros sign ->.
    erewrite bind_raise; [reflexivity|].
    apply retry_first_pass_raises; [lia|].
    unfold get_and_calculate_order_price.
    erewrite bind_ok by (apply perform_returns; exact Hapi).
    unfold try_except_ValueError. simpl. rewrite Hbid. now destruct sign.
Qed.

(** The offsets written [nan] and [-inf]. *)
Lemma offset_nan_or_infinite_witness :
  method1 (Sim.sim_env Sim.filling) 5 Sim.pages [Sim2.nan_offset_config] Sim.start
  = (Ok tt, State 0 [GetPriceFromApi "BTC" "perp"])
  /\
  method1 (Sim.sim_env Sim.filling) 5 Sim.pages [Sim2.inf_offset_config] Sim.start
  = (Raise OverflowError, State 0 [GetPriceFromApi "BTC" "perp"]).
Proof.
  split.
  - apply (offset_nan_or_infinite (Sim.sim_env Sim.filling) 5 Sim.pages
             [Sim2.nan_offset_config] Sim.nado Sim2.nan_offset_config [] "BTC"
             S754_nan Sim.btc_quote 9060200 Sim.start 0);
      vm_compute; reflexivity.
  - apply (proj2 (offset_nan_or_infinite (Sim.sim_env Sim.filling) 5 Sim.pages
             [Sim2.inf_offset_config] Sim.nado Sim2.inf_offset_config [] "BTC"
             (S754_infinity true) Sim.btc_quote 9060200 Sim.start 0
             ltac:(vm_compute; reflexivity) eq_refl ltac:(vm_compute; reflexivity)
             ltac:(vm_compute; reflexivity) eq_refl ltac:(vm_compute; reflexivity))
           true eq_refl).
Defined.

(** ** The record of a method *)

Section Records.

Context {W : Type} (env : Env W).

Lemma method1_reads_record fuel pages nado_page config rest s :
  pages !! "nado" = Some nado_page ->
  method1 env fuel pages (config :: rest) s
  = (let* symbol := config_symbol config in
     let* price_offset := lift (py_float (config_get config "price_offset" "-5")) in
     let* is_filled :=
       execute_nado_order_with_retry env fuel nado_page symbol
         (config_get config "size" "0.0001") (PyFloat price_offset) "long" 3 in
     if is_filled
     then execute_variational_short env pages (config :: rest) >> ret tt
     else ret tt) s.
Proof.
  intros Hnado. unfold method1.
  rewrite (pages_not_empty pages "nado" nado_page Hnado), Hnado.
  rewrite bool_decide_eq_false_2 by discriminate. reflexivity.
Qed.

Lemma method2_reads_record fuel pages nado_page config rest s :
  pages !! "nado" = Some nado_page ->
  method2 env fuel pages (config :: rest) s
  = (let* symbol := config_symbol config in
     let* price_offset := lift (py_float (config_get config "price_offset" "-5")) in
     let* is_filled :=
       execute_nado_order_with_retry env fuel nado_page symbol
         (config_get config "size" "0.0001") (PyFloat price_offset) "short" 999 in
     if is_filled
     then execute_variational_long env pages (config :: rest) >> ret tt
     else ret tt) s.
Proof.
  intros Hnado. unfold method2.
  rewrite (pages_not_empty pages "nado" nado_page Hnado), Hnado.
  rewrite bool_decide_eq_false_2 by discriminate. reflexivity.
Qed.

Lemma record_without_symbol {A} config (k : string -> M W A) s :
  config !! "symbol" = None ->
  (let* symbol := config_symbol config in k symbol) s = (Raise KeyError, s).
Proof. intros H. unfold bind, config_symbol. now rewrite H. Qed.

Lemma record_with_bad_offset {A} config symbol e (k : string -> spec_float -> M W A) s :
  config !! "symbol" = Some symbol ->
  py_float (config_get config "price_offset" "-5") = Raise e ->
  (let* symbol := config_symbol config in
   let* price_offset := lift (py_float (config_get config "price_offset" "-5")) in
   k symbol price_offset) s = (Raise e, s).
Proof. intros H1 H2. unfold bind, config_symbol, lift, ret. now rewrite H1, H2. Qed.

End Records.

(** X8: a first record without a symbol makes both methods raise
    [KeyError], and one whose offset is not the text of a number makes
    them raise the error of [float]: in both cases before any call to
    the page or to the price API. *)
Theorem malformed_record_raises_before_any_call
    {W} (env : Env W) fuel pages configs nado_page config rest e s :
  pages !! "nado" = Some nado_page ->
  configs = config :: rest ->
  (config !! "symbol" = None /\ e = KeyError)
  \/ (is_Some (config !! "symbol")
      /\ py_float (config_get config "price_offset" "-5") = Raise e) ->
  method1 env fuel pages configs s = (Raise e, s)
  /\ method2 env fuel pages configs s = (Raise e, s).
Proof.
  intros Hnado -> [[Hsymbol ->]|[[symbol Hsymbol] Hoffset]].
  - rewrite (method1_reads_record env fuel pages nado_page config rest s Hnado).
    rewrite (method2_reads_record env fuel pages nado_page config rest s Hnado).
    split; now apply record_without_symbol.
  - rewrite (method1_reads_record env fuel pages nado_page config rest s Hnado).
    rewrite (method2_reads_record env fuel pages nado_page config rest s Hnado).
    split.
    + exact (record_with_bad_offset config symbol e _ s Hsymbol Hoffset).
    + exact (record_with_bad_offset config symbol e _ s Hsymbol Hoffset).
Qed.

(** An offset written in letters. *)
Lemma malformed_record_raises_before_any_call_witness :
  method1 (Sim.sim_env Sim.filling) 5 Sim.pages [Sim2.bad_offset_config] Sim.start
  = (Raise ValueError, Sim.start)
  /\ method2 (Sim.sim_env Sim.filling) 5 Sim.pages [Sim2.bad_offset_config] Sim.start
     = (Raise ValueError, Sim.start).
Proof.
  apply (malformed_record_raises_before_any_call (Sim.sim_env Sim.filling) 5
           Sim.pages [Sim2.bad_offset_config] Sim.nado Sim2.bad_offset_config []
           ValueError Sim.start).
  - vm_compute; reflexivity.
  - reflexivity.
  - right. split; [exists "BTC" | ]; vm_compute; reflexivity.
Defined.

(** X9: after a filled long leg [method1] returns normally whatever the
    hedge returns; when no Variational page is open the hedge is skipped
    without a call and without an error, and the filled position stays
    unhedged. *)
Theorem hedge_outcome_is_dropped
    {W} (env : Env W) fuel pages configs nado_page config rest symbol offset s s1 :
  pages !! "nado" = Some nado_page ->
  configs = config :: rest ->
  config !! "symbol" = Some symbol ->
  py_float (config_get config "price_offset" "-5") = Ok offset ->
  execute_nado_order_with_retry env fuel nado_page symbol
    (config_get config "size" "0.0001") (PyFloat offset) "long" 3 s = (Ok true, s1) ->
  (pages !! "variational" = None ->
   method1 env fuel pages configs s = (Ok tt, s1))
  /\
  (forall placed s2,
     execute_variational_short env pages configs s1 = (Ok placed, s2) ->
     method1 env fuel pages configs s = (Ok tt, s2)).
Proof.
  intros Hnado Hconfigs Hsymbol Hoffset Hleg.
  rewrite (method1_runs_leg env fuel pages configs nado_page config rest symbol
             offset s Hnado Hconfigs Hsymbol Hoffset).
  erewrite bind_ok by exact Hleg. cbv iota. split.
  - intros Hnone. unfold execute_variational_short. rewrite Hnone.
    rewrite (bool_decide_eq_true_2 (None = None)) by reflexivity.
    rewrite orb_true_r. reflexivity.
  - intros placed s2 Hhedge. erewrite bind_ok by exact Hhedge. reflexivity.
Qed.

(** The order is filled and only the Nado page is open. *)
Lemma hedge_outcome_is_dropped_witness :
  method1 (Sim.sim_env Sim.filling) 5 Sim2.nado_only [Sim.btc_config] Sim.start
  = (Ok tt,
     snd (execute_nado_order_with_retry (Sim.sim_env Sim.filling) 5 Sim.nado "BTC"
            "0.0001" (PyFloat (float_lit "-5.00")) "long" 3 Sim.start)).
Proof.
  apply (proj1 (hedge_outcome_is_dropped (Sim.sim_env Sim.filling) 5 Sim2.nado_only
                  [Sim.btc_config] Sim.nado Sim.btc_config [] "BTC"
                  (float_lit "-5.00") Sim.start _
                  ltac:(vm_compute; reflexivity) eq_refl
                  ltac:(vm_compute; reflexivity) ltac:(vm_compute; reflexivity)
                  ltac:(vm_compute; reflexivity))).
  vm_compute; reflexivity.
Defined.

(** ** The hedge is placed once *)

(** The calls that were added to [t], when [l] extends [t]. *)
Ltac added_calls l t :=
  lazymatch l with
  | t => constr:(@nil call)
  | ?c :: ?l' => let r := added_calls l' t in constr:(c :: r)
  end.

(** Case analysis on every answer of the world in a hedge, then the
    count of the calls that were added. *)
Ltac count_hedge :=
  unfold bind, try_except, ret, raise, query_selector, evaluate, fill, inner_text,
    click, wait_for_timeout, perform; simpl;
  repeat (first [ next_answer
                | match goal with
                  | |- context [if ?b then _ else _] => destruct b
                  end ]; simpl);
  match goal with
  | |- exists new, ?l = new ++ ?t /\ _ =>
      let n := added_calls l t in
      exists n; split; [reflexivity | cbv; repeat split; lia]
  end.

Section HedgeOnce.

Context {W : Type} (env : Env W).

Lemma hedge_short_calls pages configs s :
  exists new,
    trace (snd (execute_variational_short env pages configs s)) = new ++ trace s /\
    (count_calls is_evaluate new <= 1 /\ count_calls is_fill new <= 1 /\
     count_calls is_click new <= 1 /\ length new <= 9)%nat.
Proof.
  unfold execute_variational_short, first_config, config_symbol,
    click_short_button_variational, fill_quantity_variational,
    click_submit_variational.
  destruct (bool_decide (pages = ∅) || bool_decide (pages !! "variational" = None)).
  { exists []. cbv. repeat split; lia. }
  destruct (pages !! "variational") as [variational_page|].
  2:{ exists []. cbv. repeat split; lia. }
  destruct configs as [|config rest].
  { exists []. cbv. repeat split; lia. }
  destruct (config !! "symbol") as [symbol|] eqn:Hsymbol.
  2:{ exists []. unfold bind, ret, raise. rewrite Hsymbol. cbv. repeat split; lia. }
  unfold bind at 1 2. unfold ret at 1 2. rewrite Hsymbol. cbv beta iota zeta.
  count_hedge.
Qed.

Lemma hedge_long_calls pages configs s :
  exists new,
    trace (snd (execute_variational_long env pages configs s)) = new ++ trace s /\
    (count_calls is_evaluate new <= 1 /\ count_calls is_fill new <= 1 /\
     count_calls is_click new <= 1 /\ length new <= 9)%nat.
Proof.
  unfold execute_variational_long, first_config, config_symbol,
    click_long_button_variational, fill_quantity_variational,
    click_submit_variational.
  destruct (bool_decide (pages = ∅) || bool_decide (pages !! "variational" = None)).
  { exists []. cbv. repeat split; lia. }
  destruct (pages !! "variational") as [variational_page|].
  2:{ exists []. cbv. repeat split; lia. }
  destruct configs as [|config rest].
  { exists []. cbv. repeat split; lia. }
  destruct (config !! "symbol") as [symbol|] eqn:Hsymbol.
  2:{ exists []. unfold bind, ret, raise. rewrite Hsymbol. cbv. repeat split; lia. }
  unfold bind at 1 2. unfold ret at 1 2. rewrite Hsymbol. cbv beta iota zeta.
  count_hedge.
Qed.

End HedgeOnce.

(** X10: a hedge on Variational is attempted once and never repeated:
    whatever the page answers, [execute_variational_short] and
    [execute_variational_long] make at most nine calls, of which at most
    one runs the script that presses the side button, at most one fills
    the quantity and at most one clicks the submit button. *)
Theorem hedge_is_placed_at_most_once {W} (env : Env W) pages configs s :
  (exists new,
     trace (snd (execute_variational_short env pages configs s)) = new ++ trace s /\
     (count_calls is_evaluate new <= 1 /\ count_calls is_fill new <= 1 /\
      count_calls is_click new <= 1 /\ length new <= 9)%nat)
  /\
  (exists new,
     trace (snd (execute_variational_long env pages configs s)) = new ++ trace s /\
     (count_calls is_evaluate new <= 1 /\ count_calls is_fill new <= 1 /\
      count_calls is_click new <= 1 /\ length new <= 9)%nat).
Proof.
  split; [apply hedge_short_calls | apply hedge_long_calls].
Qed.

(** ** The direction *)

Section Direction.

Context {W : Type} (env : Env W).

Lemma retry_body_other_direction fuel p symbol size offset direction c s :
  String.eqb direction "long" = false ->
  retry_body env fuel p symbol size offset direction c s
  = retry_body env fuel p symbol size offset "short" c s.
Proof.
  intros H. unfold retry_body, get_and_calculate_order_price, execute_nado_order.
  rewrite !H. reflexivity.
Qed.

Lemma retry_loop_other_direction budget fuel p symbol size offset direction
    max_retries c s :
  String.eqb direction "long" = false ->
  retry_loop env budget fuel p symbol size offset direction max_retries c s
  = retry_loop env budget fuel p symbol size offset "short" max_retries c s.
Proof.
  intros H. revert c s. induction budget as [|budget IH]; intros c s; simpl.
  - reflexivity.
  - destruct (c <? max_retries); [|reflexivity].
    unfold bind. rewrite (retry_body_other_direction fuel p symbol size offset
                            direction c s H).
    destruct (retry_body env fuel p symbol size offset "short" c s)
      as [[[b|]|e|] s1]; try reflexivity.
    apply IH.
Qed.

End Direction.

(** X11: every direction other than the text [long] is handled as
    [short]: the retry loop quotes the ask, adds the magnitude of the
    offset, and uses the sell tab and the sell button. *)
Theorem any_other_direction_is_short
    {W} (env : Env W) fuel p symbol size offset direction max_retries s :
  direction <> "long" ->
  execute_nado_order_with_retry env fuel p symbol size offset direction max_retries s
  = execute_nado_order_with_retry env fuel p symbol size offset "short" max_retries s.
Proof.
  intros H. apply retry_loop_other_direction. now apply String.eqb_neq.
Qed.

(** The direction written in capitals. *)
Lemma any_other_direction_is_short_witness :
  execute_nado_order_with_retry (Sim.sim_env Sim.filling) 5 Sim.nado "BTC" "0.0001"
    (PyFloat (float_lit "-5.00")) "LONG" 3 Sim.start
  = execute_nado_order_with_retry (Sim.sim_env Sim.filling) 5 Sim.nado "BTC" "0.0001"
      (PyFloat (float_lit "-5.00")) "short" 3 Sim.start.
Proof.
  apply (any_other_direction_is_short (Sim.sim_env Sim.filling) 5 Sim.nado "BTC"
           "0.0001" (PyFloat (float_lit "-5.00")) "LONG" 3 Sim.start).
  discriminate.
Defined.


(** ** The configuration file *)

Lemma load_row_kept row :
  row_is_kept row ->
  load_row row
  = res_bind (cell_strip (row_get row "nado_env_id" None)) (fun nado_env_id =>
    res_bind (cell_strip (row_get row "variational_env_id" None))
      (fun variational_env_id =>
    res_bind (cell_strip (row_get row "symbol" None)) (fun symbol =>
    res_bind (cell_strip (row_get row "size" (Some ""))) (fun size =>
    res_bind (cell_strip (row_get row "price_offset" (Some "-5"))) (fun price_offset =>
    Ok (Some ({[ "nado_env_id" := nado_env_id;
                 "variational_env_id" := variational_env_id;
                 "symbol" := py_upper symbol;
                 "size" := size;
                 "price_offset" := price_offset ]} : gmap string string))))))).
Proof.
  intros (H1 & H2 & H3). unfold load_row. rewrite H1, H2, H3. simpl.
  unfold row_get, row_item in *.
  destruct (row !! "nado_env_id") as [v1|]; [|discriminate].
  destruct (row !! "variational_env_id") as [v2|]; [|discriminate].
  destruct (row !! "symbol") as [v3|]; [|discriminate].
  reflexivity.
Qed.

Lemma load_row_skipped_or_kept row :
  load_row row = Ok None \/ row_is_kept row.
Proof.
  unfold load_row, row_is_kept.
  destruct (truthy_cell (row_get row "nado_env_id" None)); [|now left].
  destruct (truthy_cell (row_get row "variational_env_id" None)); [|now left].
  destruct (truthy_cell (row_get row "symbol" None)); [|now left].
  now right.
Qed.

(** What a kept row becomes. *)
Lemma load_row_record row config :
  load_row row = Ok (Some config) ->
  exists nado_env_id variational_env_id symbol size price_offset,
    cell_strip (row_get row "size" (Some "")) = Ok size /\
    cell_strip (row_get row "price_offset" (Some "-5")) = Ok price_offset /\
    config = {[ "nado_env_id" := nado_env_id;
                "variational_env_id" := variational_env_id;
                "symbol" := py_upper symbol;
                "size" := size;
                "price_offset" := price_offset ]}.
Proof.
  destruct (load_row_skipped_or_kept row) as [Hskip|Hkept]; [congruence|].
  rewrite (load_row_kept row Hkept). unfold res_bind.
  destruct (cell_strip (row_get row "nado_env_id" None)) as [n| |]; try discriminate.
  destruct (cell_strip (row_get row "variational_env_id" None)) as [v| |];
    try discriminate.
  destruct (cell_strip (row_get row "symbol" None)) as [sy| |]; try discriminate.
  destruct (cell_strip (row_get row "size" (Some ""))) as [si| |]; try discriminate.
  destruct (cell_strip (row_get row "price_offset" (Some "-5"))) as [po| |];
    try discriminate.
  intros H. injection H as <-. exists n, v, sy, si, po. auto.
Qed.

Lemma load_row_loaded row config :
  load_row row = Ok (Some config) -> loaded_record config.
Proof.
  intros H. destruct (load_row_record row config H)
    as (n & v & sy & si & po & _ & _ & ->).
  split.
  - unfold config_keys. repeat constructor; simplify_map_eq; eauto.
  - exists (py_upper sy). split; [now simplify_map_eq | apply py_upper_idempotent].
Qed.

Lemma load_row_raises row e :
  load_row row = Raise e -> e = Error "AttributeError".
Proof.
  destruct (load_row_skipped_or_kept row) as [Hskip|Hkept]; [congruence|].
  rewrite (load_row_kept row Hkept). unfold res_bind, cell_strip.
  repeat match goal with
         | |- context [match row_get ?r ?k ?d with _ => _ end] =>
             destruct (row_get r k d)
         end; congruence.
Qed.

Lemma load_rows_loaded rows configs result :
  load_rows rows configs = Ok result ->
  Forall loaded_record configs -> Forall loaded_record result.
Proof.
  revert configs. induction rows as [|row rest IH]; intros configs; simpl.
  - intros H. now injection H as <-.
  - destruct (load_row row) as [[config|]|e|] eqn:Hrow; try discriminate.
    + intros H F. apply (IH _ H). apply Forall_app. split; [exact F|].
      constructor; [|constructor]. exact (load_row_loaded row config Hrow).
    + apply IH.
Qed.

Lemma load_rows_short_row rows configs row :
  In row rows ->
  row_is_kept row ->
  row !! "size" = Some None \/ row !! "price_offset" = Some None ->
  load_rows rows configs = Raise (Error "AttributeError").
Proof.
  intros Hin Hkept Hshort. revert configs.
  induction rows as [|first rest IH]; intros configs; [destruct Hin|].
  simpl. destruct (load_row first) as [[config|]|e|] eqn:Hfirst.
  - destruct Hin as [->|Hin]; [|now apply IH].
    exfalso. rewrite (load_row_kept row Hkept) in Hfirst.
    unfold res_bind, cell_strip, row_get in Hfirst.
    destruct Hshort as [Hs|Hs]; rewrite Hs in Hfirst;
      repeat match type of Hfirst with
             | context [match ?r !! ?k with _ => _ end] =>
                 destruct (r !! k) as [[?|]|]
             end; discriminate.
  - destruct Hin as [->|Hin]; [|now apply IH].
    exfalso. rewrite (load_row_kept row Hkept) in Hfirst.
    unfold res_bind, cell_strip, row_get in Hfirst.
    destruct Hshort as [Hs|Hs]; rewrite Hs in Hfirst;
      repeat match type of Hfirst with
             | context [match ?r !! ?k with _ => _ end] =>
                 destruct (r !! k) as [[?|]|]
             end; discriminate.
  - now rewrite (load_row_raises first e Hfirst).
  - exfalso. revert Hfirst.
    destruct (load_row_skipped_or_kept first) as [Hskip|Hk]; [congruence|].
    rewrite (load_row_kept first Hk). unfold res_bind, cell_strip.
    repeat match goal with
           | |- context [match row_get ?r ?k ?d with _ => _ end] =>
               destruct (row_get r k d)
           end; congruence.
Qed.



(** X13: a row that is kept but does not reach the column of the size or
    of the offset makes [load_config] raise [AttributeError], wherever
    the row stands in the file: no record is returned. *)
Theorem short_row_fails_the_load rows row :
  In row rows ->
  row_is_kept row ->
  row !! "size" = Some None \/ row !! "price_offset" = Some None ->
  load_config (Some rows) = Raise (Error "AttributeError").
Proof.
  intros Hin Hkept Hshort. now apply load_rows_short_row with (row := row).
Qed.

(** A well-formed row followed by one that ends after the symbol. *)
Lemma short_row_fails_the_load_witness :
  load_config (Some [Rows.btc_row; Rows.short_row]) = Raise (Error "AttributeError").
Proof.
  apply (short_row_fails_the_load [Rows.btc_row; Rows.short_row] Rows.short_row).
  - right. left. reflexivity.
  - repeat split; vm_compute; reflexivity.
  - left. vm_compute; reflexivity.
Defined.

(** X14: the default offset [-5] is used when the file has no column
    for the offset, not when the cell is blank: a blank cell is loaded as
    the empty text, and both methods then raise [ValueError] before any
    call. *)
Theorem blank_offset_cell_is_no_default
    {W} (env : Env W) fuel pages nado_page row config rest s :
  load_row row = Ok (Some config) ->
  pages !! "nado" = Some nado_page ->
  (row !! "price_offset" = None ->
   py_float (config_get config "price_offset" "-5") = Ok (float_lit "-5"))
  /\
  (forall text, row !! "price_offset" = Some (Some text) -> py_strip text = "" ->
   method1 env fuel pages (config :: rest) s = (Raise ValueError, s)
   /\ method2 env fuel pages (config :: rest) s = (Raise ValueError, s)).
Proof.
  intros Hrow Hnado.
  destruct (load_row_record row config Hrow)
    as (n & v & sy & si & po & _ & Hpo & ->).
  unfold cell_strip, row_get in Hpo. split.
  - intros Hnone. rewrite Hnone in Hpo. injection Hpo as <-.
    unfold config_get. simplify_map_eq. vm_compute. reflexivity.
  - intros text Htext Hblank. rewrite Htext, Hblank in Hpo. injection Hpo as <-.
    rewrite (method1_reads_record env fuel pages nado_page _ rest s Hnado).
    rewrite (method2_reads_record env fuel pages nado_page _ rest s Hnado).
    split.
    + apply (record_with_bad_offset _ (py_upper sy) ValueError).
      * now simplify_map_eq.
      * unfold config_get. simplify_map_eq. vm_compute. reflexivity.
    + apply (record_with_bad_offset _ (py_upper sy) ValueError).
      * now simplify_map_eq.
      * unfold config_get. simplify_map_eq. vm_compute. reflexivity.
Qed.

(** A row whose offset cell is blank. *)
Lemma blank_offset_cell_is_no_default_witness :
  method1 (Sim.sim_env Sim.filling) 5 Sim.pages
    [ {[ "nado_env_id" := "n1"; "variational_env_id" := "v1"; "symbol" := "BTC";
         "size" := "0.0001"; "price_offset" := "" ]} ] Sim.start
  = (Raise ValueError, Sim.start).
Proof.
  assert (Hrow : load_row Rows.blank_offset_row
                 = Ok (Some {[ "nado_env_id" := "n1"; "variational_env_id" := "v1";
                               "symbol" := "BTC"; "size" := "0.0001";
                               "price_offset" := "" ]}))
    by (vm_compute; reflexivity).
  assert (Hnado : Sim.pages !! "nado" = Some Sim.nado) by (vm_compute; reflexivity).
  assert (Htext : Rows.blank_offset_row !! "price_offset" = Some (Some " "))
    by (vm_compute; reflexivity).
  exact (proj1 (proj2 (blank_offset_cell_is_no_default (Sim.sim_env Sim.filling) 5
                         Sim.pages Sim.nado Rows.blank_offset_row _ [] Sim.start
                         Hrow Hnado)
                  " " Htext eq_refl)).
Defined.


(** ** The price API *)

Section PriceApiRuns.

Import Api.

Context {W : Type} (net : Net W).

(** A failed attempt: a pause and the next attempt, or the end when it
    was the last. *)
Lemma price_attempt_fails product_id max_retries attempt s :
  (forall w, request_fails (fst (net_requests_get net product_id w))) ->
  price_attempt net product_id max_retries attempt s
  = let w1 := snd (net_requests_get net product_id (net_world (world s))) in
    if attempt <? max_retries - 1
    then (Ok Next,
          State (Logged (net_time_sleep net (2 ^ attempt * 1) w1)
                   (TimeSleep (2 ^ attempt * 1) :: RequestsGet product_id
                    :: net_log (world s)))
            (trace s))
    else (Ok GiveUp,
          State (Logged w1 (RequestsGet product_id :: net_log (world s))) (trace s)).
Proof.
  intros Hfails. specialize (Hfails (net_world (world s))).
  unfold price_attempt, try_except_RequestException, bind, requests_get,
    raise_for_status, response_json, time_sleep, perform_net, ret, raise.
  destruct (net_requests_get net product_id (net_world (world s))) as [[r|e] w1].
  - simpl in Hfails. simpl.
    destruct (status_code r =? 429) eqn:H429.
    + destruct (attempt <? max_retries - 1); reflexivity.
    + destruct Hfails as [H|[H|H]].
      * rewrite H in H429. discriminate.
      * replace ((400 <=? status_code r) && (status_code r <? 600)) with true
          by (symmetry; apply andb_true_iff; split;
              [apply Z.leb_le | apply Z.ltb_lt]; lia).
        simpl. destruct (attempt <? max_retries - 1); reflexivity.
      * rewrite H.
        destruct ((400 <=? status_code r) && (status_code r <? 600)); simpl;
          destruct (attempt <? max_retries - 1); reflexivity.
  - simpl in Hfails. subst e. simpl.
    destruct (attempt <? max_retries - 1); reflexivity.
Qed.

Lemma price_attempts_fail todo product_id max_retries attempt s :
  (forall w, request_fails (fst (net_requests_get net product_id w))) ->
  attempt + Z.of_nat todo = max_retries ->
  todo <> 0%nat ->
  exists s',
    price_attempts net todo product_id max_retries attempt s = (Ok Returned, s') /\
    net_log (world s')
    = rev (failed_attempts todo product_id attempt) ++ net_log (world s) /\
    trace s' = trace s.
Proof.
  intros Hfails. revert attempt s.
  induction todo as [|todo IH]; intros attempt s Hsum Hpos; [congruence|].
  cbn [price_attempts]. unfold bind.
  rewrite (price_attempt_fails product_id max_retries attempt s Hfails). cbv zeta.
  destruct todo as [|todo'].
  - replace (attempt <? max_retries - 1) with false
      by (symmetry; apply Z.ltb_ge; lia).
    eexists. split; [reflexivity|]. split; reflexivity.
  - replace (attempt <? max_retries - 1) with true
      by (symmetry; apply Z.ltb_lt; lia).
    match goal with
    | |- context [price_attempts net _ _ _ _ ?s1] =>
        destruct (IH (attempt + 1) s1 ltac:(lia) ltac:(discriminate))
          as (s' & Hrun & Hlog & Htrace)
    end.
    exists s'. split; [exact Hrun|]. split.
    + rewrite Hlog. change (failed_attempts (S (S todo')) product_id attempt)
        with (RequestsGet product_id :: TimeSleep (2 ^ attempt * 1)
              :: failed_attempts (S todo') product_id (attempt + 1)).
      simpl rev. rewrite <- !app_assoc. reflexivity.
    + rewrite Htrace. reflexivity.
Qed.

(** One attempt makes one request, and pauses only before a next
    attempt, for [2 ^ attempt] seconds. *)
Lemma price_attempt_calls product_id max_retries attempt s :
  exists new,
    net_log (world (snd (price_attempt net product_id max_retries attempt s)))
    = new ++ net_log (world s) /\
    trace (snd (price_attempt net product_id max_retries attempt s)) = trace s /\
    requests new = 1%nat /\
    ((fst (price_attempt net product_id max_retries attempt s) = Ok Next
      /\ attempt < max_retries - 1 /\ seconds_slept new = 2 ^ attempt)
     \/ (fst (price_attempt net product_id max_retries attempt s) <> Ok Next
         /\ seconds_slept new = 0)).
Proof.
  unfold price_attempt, try_except_RequestException, bind, requests_get,
    raise_for_status, response_json, time_sleep, perform_net, ret, raise.
  destruct (net_requests_get net product_id (net_world (world s))) as [[r|e] w1];
    simpl.
  - destruct (status_code r =? 429).
    + destruct (attempt <? max_retries - 1) eqn:Hlt; simpl.
      * exists [TimeSleep (2 ^ attempt * 1); RequestsGet product_id].
        repeat split. left. repeat split; [now apply Z.ltb_lt | simpl; lia].
      * exists [RequestsGet product_id]. repeat split. right. split; [discriminate|reflexivity].
    + destruct ((400 <=? status_code r) && (status_code r <? 600)); simpl.
      * destruct (attempt <? max_retries - 1) eqn:Hlt; simpl.
        -- exists [TimeSleep (2 ^ attempt * 1); RequestsGet product_id].
           repeat split. left. repeat split; [now apply Z.ltb_lt | simpl; lia].
        -- exists [RequestsGet product_id]. repeat split. right.
           split; [discriminate|reflexivity].
      * destruct (json_body r) as [v|e]; simpl.
        -- exists [RequestsGet product_id]. repeat split. right.
           split; [discriminate|reflexivity].
        -- destruct e as [| | | |kind]; simpl;
             try (exists [RequestsGet product_id]; repeat split; right;
                  split; [discriminate|reflexivity]).
           destruct (String.eqb kind "RequestException"); simpl.
           ++ destruct (attempt <? max_retries - 1) eqn:Hlt; simpl.
              ** exists [TimeSleep (2 ^ attempt * 1); RequestsGet product_id].
                 repeat split. left. repeat split; [now apply Z.ltb_lt | simpl; lia].
              ** exists [RequestsGet product_id]. repeat split. right.
                 split; [discriminate|reflexivity].
           ++ exists [RequestsGet product_id]. repeat split. right.
              split; [discriminate|reflexivity].
  - destruct e as [| | | |kind]; simpl;
      try (exists [RequestsGet product_id]; repeat split; right;
           split; [discriminate|reflexivity]).
    destruct (String.eqb kind "RequestException"); simpl.
    + destruct (attempt <? max_retries - 1) eqn:Hlt; simpl.
      * exists [TimeSleep (2 ^ attempt * 1); RequestsGet product_id].
        repeat split. left. repeat split; [now apply Z.ltb_lt | simpl; lia].
      * exists [RequestsGet product_id]. repeat split. right.
        split; [discriminate|reflexivity].
    + exists [RequestsGet product_id]. repeat split. right.
      split; [discriminate|reflexivity].
Qed.

Lemma requests_app l1 l2 : requests (l1 ++ l2) = (requests l1 + requests l2)%nat.
Proof. unfold requests. now rewrite List.filter_app, length_app. Qed.

Lemma seconds_slept_app l1 l2 :
  seconds_slept (l1 ++ l2) = seconds_slept l1 + seconds_slept l2.
Proof.
  induction l1 as [|c l1 IH]; simpl; [reflexivity|].
  destruct c; rewrite IH; lia.
Qed.

Lemma price_attempts_calls todo product_id max_retries attempt s :
  0 <= attempt ->
  attempt + Z.of_nat todo = max_retries ->
  exists new,
    net_log (world (snd (price_attempts net todo product_id max_retries attempt s)))
    = new ++ net_log (world s) /\
    trace (snd (price_attempts net todo product_id max_retries attempt s)) = trace s /\
    (requests new <= todo)%nat /\
    0 <= seconds_slept new /\
    (todo <> 0%nat -> seconds_slept new <= 2 ^ (max_retries - 1) - 2 ^ attempt).
Proof.
  revert attempt s. induction todo as [|todo IH]; intros attempt s Hpos Hsum.
  - exists []. simpl. repeat split; try lia. unfold requests. simpl. lia.
  - cbn [price_attempts]. unfold bind.
    destruct (price_attempt_calls product_id max_retries attempt s)
      as (new1 & Hlog1 & Htrace1 & Hreq1 & Hslept1).
    assert (Hle : 2 ^ attempt <= 2 ^ (max_retries - 1))
      by (apply Z.pow_le_mono_r; lia).
    revert Hlog1 Htrace1 Hslept1.
    destruct (price_attempt net product_id max_retries attempt s)
      as [[[| |price_data]|e|] s1]; simpl; intros Hlog1 Htrace1 Hslept1.
    + destruct Hslept1 as [(_ & Hlt & Hslept1)|(Hno & _)]; [|congruence].
      destruct (IH (attempt + 1) s1 ltac:(lia) ltac:(lia))
        as (new2 & Hlog2 & Htrace2 & Hreq2 & Hslept2 & Hbound2).
      exists (new2 ++ new1). rewrite Hlog2, Hlog1, Htrace2, Htrace1.
      rewrite requests_app, seconds_slept_app, app_assoc.
      repeat split; try lia.
      intros _. assert (Htodo : todo <> 0%nat) by lia.
      specialize (Hbound2 Htodo).
      replace (2 ^ (attempt + 1)) with (2 * 2 ^ attempt) in Hbound2
        by (rewrite Z.pow_add_r by lia; lia).
      lia.
    + exists new1. destruct Hslept1 as [(Hno & _)|(_ & Hslept1)]; [congruence|].
      repeat split; try assumption; lia.
    + exists new1. destruct Hslept1 as [(Hno & _)|(_ & Hslept1)]; [congruence|].
      repeat split; try assumption; lia.
    + exists new1. destruct Hslept1 as [(Hno & _)|(_ & Hslept1)]; [congruence|].
      repeat split; try assumption; lia.
    + exists new1. destruct Hslept1 as [(Hno & _)|(_ & Hslept1)]; [congruence|].
      repeat split; try assumption; lia.
Qed.

(** Catching an exception of the decoding does not change the state. *)
Lemma try_except_parsing_state {A} (body : M (logged W) (option A)) s :
  snd (try_except_parsing body (ret None) s) = snd (body s).
Proof.
  unfold try_except_parsing, ret.
  destruct (body s) as [[v|e|] s1]; try reflexivity.
  destruct e as [| | | |kind]; try reflexivity.
  destruct (String.eqb kind "TypeError"); reflexivity.
Qed.

(** The run in which the first request is answered with [price_data]. *)
Lemma get_price_from_api_answered symbol product_type s product_id w1 code
    price_data w2 :
  net_get_product_id net symbol product_type (net_world (world s))
  = (Returns product_id, w1) ->
  truthy product_id = true ->
  net_requests_get net product_id w1
  = (Returns (Response code (Returns price_data)), w2) ->
  code <> 429 ->
  ~ 400 <= code < 600 ->
  truthy price_data = true ->
  get_price_from_api net symbol product_type s
  = (caught_as_none (extract_prices price_data),
     State (Logged w2 (RequestsGet product_id :: GetProductId symbol product_type
                       :: net_log (world s)))
       (trace s)).
Proof.
  intros Hid Htruthy Hget Hcode Hstatus Hdata.
  unfold get_price_from_api, try_except_parsing, bind, get_product_id, perform_net.
  rewrite Hid, Htruthy. simpl.
  unfold price_attempt, try_except_RequestException, bind, requests_get,
    raise_for_status, response_json, perform_net, ret, raise, lift.
  simpl. rewrite Hget. simpl.
  replace (code =? 429) with false by (symmetry; now apply Z.eqb_neq).
  replace ((400 <=? code) && (code <? 600)) with false.
  2:{ symmetry. apply andb_false_iff.
      destruct (Z.leb_spec 400 code); [right; apply Z.ltb_ge; lia | now left]. }
  simpl. rewrite Hdata. simpl.
  destruct (extract_prices price_data) as [v|e|]; simpl; try reflexivity.
  destruct e as [| | | |kind]; try reflexivity.
  simpl. destruct (String.eqb kind "TypeError"); reflexivity.
Qed.

End PriceApiRuns.

(** The run in which every request fails. *)
Lemma get_price_from_api_gives_up
    {W} (net : Api.Net W) symbol product_type s product_id w1 :
  Api.net_get_product_id net symbol product_type (Api.net_world (world s))
  = (Returns product_id, w1) ->
  Api.truthy product_id = true ->
  (forall w, Api.request_fails (fst (Api.net_requests_get net product_id w))) ->
  exists s',
    Api.get_price_from_api net symbol product_type s = (Ok None, s') /\
    Api.net_log (world s')
    = rev (Api.GetProductId symbol product_type :: Api.ten_failed_attempts product_id)
      ++ Api.net_log (world s) /\
    trace s' = trace s.
Proof.
  intros Hid Htruthy Hfails.
  destruct (price_attempts_fail net 10 product_id 10 0
              (State (Api.Logged w1 (Api.GetProductId symbol product_type
                                     :: Api.net_log (world s))) (trace s))
              Hfails eq_refl ltac:(discriminate))
    as (s' & Hrun & Hlog & Htrace).
  exists s'. split; [|split].
  - unfold Api.get_price_from_api, Api.try_except_parsing, bind,
      Api.get_product_id, Api.perform_net.
    rewrite Hid, Htruthy. cbv beta iota zeta. change (negb true) with false.
    cbv beta iota. change (Z.to_nat 10) with 10%nat. rewrite Hrun. reflexivity.
  - rewrite Hlog. simpl. reflexivity.
  - exact Htrace.
Qed.

(** X15: when every request is answered with the status 429 or fails
    with an exception of [requests], [get_price_from_api] gives up after
    ten requests and returns [None]; between them it pauses for 1, 2, 4,
    up to 256 seconds, 511 seconds in all, and it does not pause after
    the tenth. *)
Theorem rate_limited_price_api_gives_up
    {W} (net : Api.Net W) symbol product_type s product_id w1 :
  Api.net_get_product_id net symbol product_type (Api.net_world (world s))
  = (Returns product_id, w1) ->
  Api.truthy product_id = true ->
  (forall w, Api.request_fails (fst (Api.net_requests_get net product_id w))) ->
  exists s',
    Api.get_price_from_api net symbol product_type s = (Ok None, s') /\
    Api.net_log (world s')
    = rev (Api.GetProductId symbol product_type :: Api.ten_failed_attempts product_id)
      ++ Api.net_log (world s) /\
    Api.requests (Api.ten_failed_attempts product_id) = 10%nat /\
    Api.seconds_slept (Api.ten_failed_attempts product_id) = 511.
Proof.
  intros Hid Htruthy Hfails.
  destruct (get_price_from_api_gives_up net symbol product_type s product_id w1
              Hid Htruthy Hfails) as (s' & Hrun & Hlog & _).
  exists s'. repeat split; assumption || reflexivity.
Qed.

(** A network on which every request is answered with the status 429. *)
Lemma rate_limited_price_api_gives_up_witness :
  exists s',
    Api.get_price_from_api (Api.sim_net Api.rate_limited) "BTC" "perp" Api.sim_start
    = (Ok None, s') /\
    Api.net_log (world s')
    = rev (Api.GetProductId "BTC" "perp" :: Api.ten_failed_attempts (Api.JInt 2))
      ++ [] /\
    Api.requests (Api.ten_failed_attempts (Api.JInt 2)) = 10%nat /\
    Api.seconds_slept (Api.ten_failed_attempts (Api.JInt 2)) = 511.
Proof.
  apply (rate_limited_price_api_gives_up (Api.sim_net Api.rate_limited) "BTC" "perp"
           Api.sim_start (Api.JInt 2) 0).
  - reflexivity.
  - reflexivity.
  - intros w. left. reflexivity.
Defined.

(** X16: whatever the network answers, [get_price_from_api] starts with
    the lookup of the product id, and then makes at most ten requests and
    pauses for at most 511 seconds in all. *)
Theorem price_api_requests_are_bounded
    {W} (net : Api.Net W) symbol product_type s :
  exists new,
    Api.net_log (world (snd (Api.get_price_from_api net symbol product_type s)))
    = new ++ [Api.GetProductId symbol product_type] ++ Api.net_log (world s) /\
    (Api.requests new <= 10)%nat /\
    0 <= Api.seconds_slept new <= 511.
Proof.
  unfold Api.get_price_from_api. rewrite try_except_parsing_state.
  unfold bind, Api.get_product_id, Api.perform_net.
  destruct (Api.net_get_product_id net symbol product_type (Api.net_world (world s)))
    as [[product_id|e] w1].
  2:{ exists []. unfold Api.requests. simpl. repeat split; lia. }
  destruct (Api.truthy product_id); cbv beta iota zeta.
  2:{ exists []. unfold Api.requests. simpl. repeat split; lia. }
  change (negb true) with false. cbv beta iota.
  change (Z.to_nat 10) with 10%nat.
  match goal with
  | |- context [Api.price_attempts net 10 product_id 10 0 ?s1] =>
      destruct (price_attempts_calls net 10 product_id 10 0 s1
                  ltac:(lia) ltac:(reflexivity))
        as (new & Hlog & _ & Hreq & Hslept & Hbound);
      revert Hlog;
      destruct (Api.price_attempts net 10 product_id 10 0 s1)
        as [[[|[price_data|]]|e|] s2]
  end; simpl; intros Hlog; specialize (Hbound ltac:(discriminate));
    change (2 ^ (10 - 1) - 2 ^ 0) with 511 in Hbound;
    exists new; try (split; [exact Hlog | split; [exact Hreq | lia]]).
  unfold lift, ret.
  destruct (Api.truthy price_data); simpl;
    (split; [exact Hlog | split; [exact Hreq | lia]]).
Qed.


Section PriceApiRetries.

Import Api.

Context {W : Type} (net : Net W).

(** One failed attempt that is not the last. *)
Lemma price_attempt_fails_once product_id max_retries attempt s :
  request_fails (fst (net_requests_get net product_id (net_world (world s)))) ->
  attempt < max_retries - 1 ->
  price_attempt net product_id max_retries attempt s
  = (Ok Next,
     State (Logged (net_time_sleep net (2 ^ attempt * 1)
                      (snd (net_requests_get net product_id (net_world (world s)))))
              (TimeSleep (2 ^ attempt * 1) :: RequestsGet product_id
               :: net_log (world s)))
       (trace s)).
Proof.
  intros Hfails Hlt.
  unfold price_attempt, try_except_RequestException, bind, requests_get,
    raise_for_status, response_json, time_sleep, perform_net, ret, raise.
  replace (attempt <? max_retries - 1) with true by (symmetry; now apply Z.ltb_lt).
  destruct (net_requests_get net product_id (net_world (world s))) as [[r|e] w1].
  - simpl in Hfails. simpl.
    destruct (status_code r =? 429) eqn:H429; [reflexivity|].
    destruct Hfails as [H|[H|H]].
    + rewrite H in H429. discriminate.
    + replace ((400 <=? status_code r) && (status_code r <? 600)) with true
        by (symmetry; apply andb_true_iff; split;
            [apply Z.leb_le | apply Z.ltb_lt]; lia).
      reflexivity.
    + rewrite H.
      destruct ((400 <=? status_code r) && (status_code r <? 600)); reflexivity.
  - simpl in Hfails. subst e. reflexivity.
Qed.

(** An attempt that is answered. *)
Lemma price_attempt_answered product_id max_retries attempt s code price_data w :
  net_requests_get net product_id (net_world (world s))
  = (Returns (Response code (Returns price_data)), w) ->
  code <> 429 ->
  ~ 400 <= code < 600 ->
  price_attempt net product_id max_retries attempt s
  = (Ok (Break price_data),
     State (Logged w (RequestsGet product_id :: net_log (world s))) (trace s)).
Proof.
  intros Hget Hcode Hstatus.
  unfold price_attempt, try_except_RequestException, bind, requests_get,
    raise_for_status, response_json, perform_net, ret, raise.
  rewrite Hget. simpl.
  replace (code =? 429) with false by (symmetry; now apply Z.eqb_neq).
  replace ((400 <=? code) && (code <? 600)) with false.
  2:{ symmetry. apply andb_false_iff.
      destruct (Z.leb_spec 400 code); [right; apply Z.ltb_ge; lia | now left]. }
  reflexivity.
Qed.

Lemma price_attempts_retried k : forall todo product_id attempt s w code price_data w',
  failures net product_id k attempt (net_world (world s)) w ->
  (k < todo)%nat ->
  0 <= attempt ->
  net_requests_get net product_id w = (Returns (Response code (Returns price_data)), w') ->
  code <> 429 ->
  ~ 400 <= code < 600 ->
  exists new,
    price_attempts net todo product_id (attempt + Z.of_nat todo) attempt s
    = (Ok (After (Some price_data)),
       State (Logged w' (new ++ net_log (world s))) (trace s)) /\
    requests new = S k /\
    seconds_slept new = 2 ^ (attempt + Z.of_nat k) - 2 ^ attempt.
Proof.
  induction k as [|k IH];
    intros todo product_id attempt s w code price_data w' Hfail Hlt Hpos Hget Hcode
      Hstatus.
  - inversion Hfail; subst.
    destruct todo as [|todo]; [lia|]. cbn [price_attempts]. unfold bind.
    rewrite (price_attempt_answered product_id _ attempt s code price_data w'
               Hget Hcode Hstatus).
    exists [RequestsGet product_id]. split; [reflexivity|].
    split; [reflexivity|]. simpl. rewrite Z.add_0_r. lia.
  - inversion Hfail as [|k' a' w0 w0' Hfirst Hrest]; subst.
    destruct todo as [|todo]; [lia|]. cbn [price_attempts]. unfold bind.
    rewrite (price_attempt_fails_once product_id _ attempt s Hfirst) by lia.
    match goal with
    | |- context [price_attempts net todo product_id _ (attempt + 1) ?s1] =>
        destruct (IH todo product_id (attempt + 1) s1 w code price_data w'
                    Hrest ltac:(lia) ltac:(lia) Hget Hcode Hstatus)
          as (new & Hrun & Hreq & Hslept)
    end.
    replace (attempt + Z.of_nat (S todo)) with (attempt + 1 + Z.of_nat todo) by lia.
    rewrite Hrun. simpl.
    exists (new ++ [TimeSleep (2 ^ attempt * 1); RequestsGet product_id]).
    split; [now rewrite <- app_assoc|].
    rewrite requests_app, seconds_slept_app, Hreq, Hslept.
    split; [unfold requests; simpl; lia|]. simpl.
    replace (attempt + 1 + Z.of_nat k) with (attempt + Z.of_nat (S k)) by lia.
    replace (2 ^ (attempt + 1)) with (2 * 2 ^ attempt)
      by (rewrite Z.pow_add_r by lia; lia).
    lia.
Qed.

End PriceApiRetries.

(** X17: a request that is rate-limited or fails is made again: when
    the first [k] requests fail, for a [k] below ten, and the next one
    is answered, [get_price_from_api] returns the prices of that answer,
    after [k + 1] requests and pauses of [2 ^ k - 1] seconds in all. *)
Theorem price_api_retries_until_answered
    {W} (net : Api.Net W) symbol product_type s product_id w1 k w2 code
    price_data w3 :
  Api.net_get_product_id net symbol product_type (Api.net_world (world s))
  = (Returns product_id, w1) ->
  Api.truthy product_id = true ->
  failures net product_id k 0 w1 w2 ->
  (k < 10)%nat ->
  Api.net_requests_get net product_id w2
  = (Returns (Api.Response code (Returns price_data)), w3) ->
  code <> 429 ->
  ~ 400 <= code < 600 ->
  Api.truthy price_data = true ->
  exists new,
    Api.get_price_from_api net symbol product_type s
    = (caught_as_none (Api.extract_prices price_data),
       State (Api.Logged w3 (new ++ Api.GetProductId symbol product_type
                             :: Api.net_log (world s))) (trace s)) /\
    Api.requests new = S k /\
    Api.seconds_slept new = 2 ^ Z.of_nat k - 1.
Proof.
  intros Hid Htruthy Hfail Hk Hget Hcode Hstatus Hdata.
  destruct (price_attempts_retried net k 10 product_id 0
              (State (Api.Logged w1 (Api.GetProductId symbol product_type
                                     :: Api.net_log (world s))) (trace s))
              w2 code price_data w3 Hfail Hk ltac:(lia) Hget Hcode Hstatus)
    as (new & Hrun & Hreq & Hslept).
  exists new.
  split; [|split; [exact Hreq | rewrite Hslept, Z.add_0_l; reflexivity]].
  unfold Api.get_price_from_api, Api.try_except_parsing, bind,
    Api.get_product_id, Api.perform_net.
  rewrite Hid, Htruthy. cbv beta iota zeta. change (negb true) with false.
  cbv beta iota. change (Z.to_nat 10) with 10%nat.
  change (0 + Z.of_nat 10) with 10 in Hrun. rewrite Hrun.
  cbv beta iota. rewrite Hdata. change (negb true) with false. cbv beta iota.
  unfold lift. simpl.
  destruct (Api.extract_prices price_data) as [v|e|]; simpl; try reflexivity.
  destruct e as [| | | |kind]; try reflexivity.
  simpl. destruct (String.eqb kind "TypeError"); reflexivity.
Qed.

(** Two failures, then a quote: three requests, and pauses of one and of
    two seconds. *)
Lemma price_api_retries_until_answered_witness :
  exists new,
    Api.get_price_from_api (Api.sim_net Api.third_time_lucky) "BTC" "perp"
      Api.sim_start
    = (Ok (Some {[ "bid" := 9060200; "ask" := 9060400; "mid" := 9060300 ]}),
       State (Api.Logged 3 (new ++ [Api.GetProductId "BTC" "perp"])) []) /\
    Api.requests new = 3%nat /\
    Api.seconds_slept new = 3.
Proof.
  assert (Hquote : caught_as_none
                     (Api.extract_prices
                        (Api.quote "90602000000000000000000" "90604000000000000000000"))
                   = Ok (Some {[ "bid" := 9060200; "ask" := 9060400;
                                 "mid" := 9060300 ]}))
    by (vm_compute; reflexivity).
  rewrite <- Hquote.
  apply (price_api_retries_until_answered (Api.sim_net Api.third_time_lucky)
           "BTC" "perp" Api.sim_start (Api.JInt 2) 0 2 2 200
           (Api.quote "90602000000000000000000" "90604000000000000000000") 3).
  - reflexivity.
  - reflexivity.
  - apply failures_S; [reflexivity|].
    apply failures_S; [reflexivity|].
    apply failures_O.
  - lia.
  - reflexivity.
  - lia.
  - lia.
  - reflexivity.
Defined.

(** ** The prices of an answer *)

(** X18: the prices that [get_price_from_api] takes from an answer have
    at least one of the sides [bid] and [ask], no key besides [bid],
    [ask] and [mid], and a [mid] exactly when they have both sides. *)
Theorem quote_has_mid_iff_both_sides price_data result :
  Api.extract_prices price_data = Ok (Some result) ->
  (is_Some (result !! "bid") \/ is_Some (result !! "ask")) /\
  (is_Some (result !! "mid")
   <-> is_Some (result !! "bid") /\ is_Some (result !! "ask")) /\
  (forall key, is_Some (result !! key) -> key = "bid" \/ key = "ask" \/ key = "mid").
Proof.
  intros H. unfold Api.extract_prices in H.
  destruct price_data as [| | | | | |fields]; try discriminate.
  unfold res_bind in H.
  destruct (Api.dict_get (Api.JDict fields) "data" (Api.JDict fields))
    as [data_section| |]; try discriminate.
  destruct (Api.dict_get data_section "bid_x18" Api.JNull) as [bid_x18| |];
    try discriminate.
  destruct (Api.dict_get data_section "ask_x18" Api.JNull) as [ask_x18| |];
    try discriminate.
  destruct (Api.truthy bid_x18);
    [destruct (Api.side_price bid_x18) as [[bid bid_int]| |]; try discriminate|];
    (destruct (Api.truthy ask_x18);
     [destruct (Api.side_price ask_x18) as [[ask ask_int]| |]; try discriminate|]);
    try (destruct (Api.mid_price bid ask) as [mid_int| |]; try discriminate);
    match type of H with
    | context [bool_decide ?P] => destruct (bool_decide P) eqn:Hempty
    end; try discriminate; injection H as <-.
  - split; [left; now simplify_map_eq|]. split.
    + split; intros _; [split|]; now simplify_map_eq.
    + intros key [v Hv].
      repeat (apply lookup_insert_Some in Hv; destruct Hv as [[<- _]|[_ Hv]];
              [tauto|]).
      rewrite lookup_empty in Hv. discriminate.
  - split; [left; now simplify_map_eq|]. split.
    + split; [intros [v Hv]|intros [_ [v Hv]]]; simplify_map_eq.
    + intros key [v Hv].
      repeat (apply lookup_insert_Some in Hv; destruct Hv as [[<- _]|[_ Hv]];
              [tauto|]).
      rewrite lookup_empty in Hv. discriminate.
  - split; [right; now simplify_map_eq|]. split.
    + split; [intros [v Hv]|intros [[v Hv] _]]; simplify_map_eq.
    + intros key [v Hv].
      repeat (apply lookup_insert_Some in Hv; destruct Hv as [[<- _]|[_ Hv]];
              [tauto|]).
      rewrite lookup_empty in Hv. discriminate.
Qed.

(** A quote with both sides. *)
Lemma quote_has_mid_iff_both_sides_witness :
  (is_Some (({[ "bid" := 9060200; "ask" := 9060400; "mid" := 9060300 ]}
             : gmap string Z) !! "mid")
   <-> is_Some (({[ "bid" := 9060200; "ask" := 9060400; "mid" := 9060300 ]}
                 : gmap string Z) !! "bid")
       /\ is_Some (({[ "bid" := 9060200; "ask" := 9060400; "mid" := 9060300 ]}
                    : gmap string Z) !! "ask")).
Proof.
  assert (Hquote : Api.extract_prices
                     (Api.quote "90602000000000000000000" "90604000000000000000000")
                   = Ok (Some {[ "bid" := 9060200; "ask" := 9060400;
                                 "mid" := 9060300 ]}))
    by (vm_compute; reflexivity).
  exact (proj1 (proj2 (quote_has_mid_iff_both_sides _ _ Hquote))).
Defined.

(** X19: two errors in an answer are not caught by [get_price_from_api]:
    when the [data] of the answer is not an object it raises
    [AttributeError], and when the text of the bid reads as infinite it
    raises the [OverflowError] of [round]; a bid that reads as
    not-a-number gives [None]. *)
Theorem malformed_answer_is_raised
    {W} (net : Api.Net W) symbol product_type s product_id w1 code fields data w2 :
  Api.net_get_product_id net symbol product_type (Api.net_world (world s))
  = (Returns product_id, w1) ->
  Api.truthy product_id = true ->
  Api.net_requests_get net product_id w1
  = (Returns (Api.Response code (Returns (Api.JDict fields))), w2) ->
  code <> 429 ->
  ~ 400 <= code < 600 ->
  Api.assoc "data" fields = Some data ->
  ((forall section, data <> Api.JDict section) ->
   fst (Api.get_price_from_api net symbol product_type s)
   = Raise (Error "AttributeError"))
  /\
  (forall section text sign,
     data = Api.JDict section ->
     Api.assoc "bid_x18" section = Some (Api.JStr text) ->
     py_float text = Ok (S754_infinity sign) ->
     fst (Api.get_price_from_api net symbol product_type s) = Raise OverflowError)
  /\
  (forall section text,
     data = Api.JDict section ->
     Api.assoc "bid_x18" section = Some (Api.JStr text) ->
     py_float text = Ok S754_nan ->
     fst (Api.get_price_from_api net symbol product_type s) = Ok None).
Proof.
  intros Hid Htruthy Hget Hcode Hstatus Hdata.
  assert (Hfields : Api.truthy (Api.JDict fields) = true)
    by (destruct fields; [discriminate | reflexivity]).
  rewrite (get_price_from_api_answered net symbol product_type s product_id w1 code
             (Api.JDict fields) w2 Hid Htruthy Hget Hcode Hstatus Hfields).
  cbn [fst]. unfold Api.extract_prices, Api.dict_get. rewrite Hdata.
  cbv beta iota delta [default from_option id res_bind]. repeat split.
  - intros Hnot. destruct data; try reflexivity. now destruct (Hnot fields0).
  - intros section text sign -> Hbid Htext.
    assert (Hnonempty : truthy_str text = true).
    { destruct text; [vm_compute in Htext; discriminate | reflexivity]. }
    rewrite Hbid. cbv beta iota delta [Api.truthy]. rewrite Hnonempty.
    unfold Api.side_price, Api.json_float. rewrite Htext.
    destruct sign; reflexivity.
  - intros section text -> Hbid Htext.
    assert (Hnonempty : truthy_str text = true).
    { destruct text; [vm_compute in Htext; discriminate | reflexivity]. }
    rewrite Hbid. cbv beta iota delta [Api.truthy]. rewrite Hnonempty.
    unfold Api.side_price, Api.json_float. rewrite Htext. reflexivity.
Qed.

(** An answer whose bid reads as infinite. *)
Lemma malformed_answer_is_raised_witness :
  fst (Api.get_price_from_api
         (Api.sim_net (fun _ => Returns (Api.Response 200
                                           (Returns (Api.quote "1e400" "1")))))
         "BTC" "perp" Api.sim_start)
  = Raise OverflowError.
Proof.
  apply (proj1 (proj2 (malformed_answer_is_raised
                  (Api.sim_net (fun _ => Returns (Api.Response 200
                                           (Returns (Api.quote "1e400" "1")))))
                  "BTC" "perp" Api.sim_start (Api.JInt 2) 0 200 _ _ 1
                  eq_refl eq_refl eq_refl ltac:(lia) ltac:(lia) eq_refl))
           _ "1e400" false eq_refl eq_refl).
  vm_compute. reflexivity.
Defined.

(** ** Opening the windows *)

Section WindowsOfRecords.

Import Launch.

Context {W : Type} (launcher : Launcher W).

(** A profile whose name is blank is not started. *)
Lemma open_page_blank env_id url s :
  py_strip env_id = "" ->
  open_page launcher env_id url s = (Ok None, s).
Proof.
  intros H. unfold open_page, start, bind. rewrite H.
  change (truthy_str "") with false. rewrite andb_false_r. reflexivity.
Qed.

(** The loop body for a record with its three keys. *)
Lemma open_windows_record config pages symbol variational_env_id nado_env_id s :
  config !! "symbol" = Some symbol ->
  config !! "variational_env_id" = Some variational_env_id ->
  config !! "nado_env_id" = Some nado_env_id ->
  open_windows launcher config pages s
  = (let* variational_page :=
       open_page launcher variational_env_id
         ("https://omni.variational.io/perpetual/" +:+ py_upper symbol) in
     let* nado_page :=
       open_page launcher nado_env_id
         ("https://app.nado.xyz/perpetuals?market=" +:+ py_upper symbol +:+ "USDT0") in
     let pages :=
       match variational_page with
       | Some pg => <[ "variational" := pg ]> pages
       | None => pages
       end in
     let pages :=
       match nado_page with
       | Some pg => <[ "nado" := pg ]> pages
       | None => pages
       end in
     ret pages) s.
Proof.
  intros H1 H2 H3. unfold open_windows, config_item, get_url.
  rewrite H1, H2, H3. reflexivity.
Qed.

(** The loop body changes no entry besides the two of the pages. *)
Lemma open_windows_other config pages s pages' s' key :
  open_windows launcher config pages s = (Ok pages', s') ->
  key <> "nado" -> key <> "variational" ->
  pages' !! key = pages !! key.
Proof.
  unfold open_windows, bind, lift, ret.
  destruct (config_item config "symbol") as [symbol| |]; try discriminate.
  destruct (get_url symbol "variational") as [url_1| |]; try discriminate.
  destruct (get_url symbol "nado") as [url_2| |]; try discriminate.
  destruct (config_item config "variational_env_id") as [venv| |]; try discriminate.
  destruct (open_page launcher venv url_1 s) as [[variational_page|e|] s1];
    try discriminate.
  destruct (config_item config "nado_env_id") as [nenv| |]; try discriminate.
  destruct (open_page launcher nenv url_2 s1) as [[nado_page|e|] s2];
    try discriminate.
  intros H Hn Hv. injection H as <- <-.
  destruct variational_page, nado_page; now simplify_map_eq.
Qed.

Lemma main_open_pages_other configs pages s pages' s' key :
  main_open_pages launcher configs pages s = (Ok pages', s') ->
  key <> "nado" -> key <> "variational" ->
  pages' !! key = pages !! key.
Proof.
  revert pages s. induction configs as [|config rest IH]; intros pages s; simpl.
  - intros H. now injection H as <- <-.
  - unfold bind.
    destruct (open_windows launcher config pages s) as [[pages1|e|] s1] eqn:Hfirst;
      try discriminate.
    intros H Hn Hv. rewrite (IH pages1 s1 H Hn Hv).
    exact (open_windows_other config pages s pages1 s1 key Hfirst Hn Hv).
Qed.

Lemma main_open_pages_app init last pages s :
  main_open_pages launcher (init ++ [last]) pages s
  = (let* pages1 := main_open_pages launcher init pages in
     open_windows launcher last pages1) s.
Proof.
  revert pages s. induction init as [|config rest IH]; intros pages s; simpl.
  - unfold bind, ret.
    destruct (open_windows launcher last pages s) as [[pages1|e|] s1]; reflexivity.
  - unfold bind.
    destruct (open_windows launcher config pages s) as [[pages1|e|] s1];
      try reflexivity.
    rewrite IH. reflexivity.
Qed.

End WindowsOfRecords.

(** X20: a row whose [nado_env_id] holds only blanks is kept by
    [load_config], which loads the profile as the empty text; [main] then
    starts no Nado profile for the record, the pages have no entry for
    Nado, and [method1] and [method2] return without a call. *)
Theorem blank_profile_is_loaded_but_not_opened
    {W V} (launcher : Launch.Launcher W) (env : Env V) fuel row config text
    s pages s' st :
  load_row row = Ok (Some config) ->
  row !! "nado_env_id" = Some (Some text) ->
  py_strip text = "" ->
  Launch.main_open_pages launcher [config] ∅ s = (Ok pages, s') ->
  pages !! "nado" = None
  /\ method1 env fuel pages [config] st = (Ok tt, st)
  /\ method2 env fuel pages [config] st = (Ok tt, st).
Proof.
  intros Hrow Htext Hblank Hopen.
  assert (Hnado : pages !! "nado" = None).
  { destruct (load_row_skipped_or_kept row) as [Hskip|Hkept]; [congruence|].
    rewrite (load_row_kept row Hkept) in Hrow.
    unfold res_bind, cell_strip, row_get in Hrow. rewrite Htext, Hblank in Hrow.
    destruct (row !! "variational_env_id") as [[v|]|]; try discriminate.
    destruct (row !! "symbol") as [[sy|]|]; try discriminate.
    destruct (row !! "size") as [[si|]|]; try discriminate;
      destruct (row !! "price_offset") as [[po|]|]; try discriminate;
      injection Hrow as <-;
      simpl in Hopen; unfold bind in Hopen;
      erewrite open_windows_record in Hopen by (now simplify_map_eq);
      unfold bind in Hopen;
      match type of Hopen with
      | context [Launch.open_page launcher ?v ?u s] =>
          destruct (Launch.open_page launcher v u s) as [[vp|e|] s1];
            try discriminate
      end;
      rewrite (open_page_blank launcher "" _ s1 eq_refl) in Hopen;
      injection Hopen as <- <-; destruct vp; now simplify_map_eq. }
  split; [exact Hnado|].
  unfold method1, method2. rewrite Hnado.
  rewrite (bool_decide_eq_true_2 (None = None)) by reflexivity.
  rewrite orb_true_r. split; reflexivity.
Qed.

(** A row whose Nado profile is two blanks. *)
Lemma blank_profile_is_loaded_but_not_opened_witness :
  method1 (Sim.sim_env Sim.filling) 5 {[ "variational" := 1%nat ]}
    [ {[ "nado_env_id" := ""; "variational_env_id" := "v1"; "symbol" := "BTC";
         "size" := "0.0001"; "price_offset" := "-5.00" ]} ] Sim.start
  = (Ok tt, Sim.start).
Proof.
  assert (Hrow : load_row Launch.blank_profile_row
                 = Ok (Some {[ "nado_env_id" := ""; "variational_env_id" := "v1";
                               "symbol" := "BTC"; "size" := "0.0001";
                               "price_offset" := "-5.00" ]}))
    by (vm_compute; reflexivity).
  assert (Htext : Launch.blank_profile_row !! "nado_env_id" = Some (Some "  "))
    by (vm_compute; reflexivity).
  assert (Hopen : Launch.main_open_pages Launch.sim_launcher
                    [ {[ "nado_env_id" := ""; "variational_env_id" := "v1";
                         "symbol" := "BTC"; "size" := "0.0001";
                         "price_offset" := "-5.00" ]} ] ∅ Launch.sim_start
                  = (Ok {[ "variational" := 1%nat ]},
                     State (Launch.Launched 1%nat
                              [Launch.NewPage "http://127.0.0.1:9222"
                                 "https://omni.variational.io/perpetual/BTC";
                               Launch.PostStart "envId" "v1"]) []))
    by (vm_compute; reflexivity).
  exact (proj1 (proj2 (blank_profile_is_loaded_but_not_opened Launch.sim_launcher
                         (Sim.sim_env Sim.filling) 5 Launch.blank_profile_row _ "  "
                         Launch.sim_start _ _ Sim.start Hrow Htext eq_refl Hopen))).
Defined.




(** ** The two limits of the fill monitor *)

(** An elapsed time that is a number and not at or above [b] is below
    [b]. *)
Lemma not_ge_is_lt f b :
  f <> S754_nan ->
  num_val b <> None ->
  py_ge (PyFloat f) b = false ->
  py_lt (PyFloat f) b = true.
Proof.
  unfold py_ge, py_lt, num_compare. intros Hf Hb.
  destruct (num_val (PyFloat f)) as [x|] eqn:Hx.
  2:{ destruct f; simpl in Hx; congruence. }
  destruct (num_val b) as [y|]; [|congruence].
  destruct (xcompare x y); congruence.
Qed.

Lemma py_lt_is_number a b : py_lt a b = true -> num_val a <> None.
Proof.
  unfold py_lt, num_compare. destruct (num_val a); [discriminate|].
  discriminate.
Qed.

Section MonitorLimits.

Context {W : Type} (env : Env W).

(** A computation whose continuation never gives [v] never gives [v]. *)
Lemma bind_never {A B} (m : M W A) (k : A -> M W B) (v : B) s :
  (forall a s', fst (k a s') <> Ok v) ->
  fst (bind m k s) <> Ok v.
Proof.
  intros H. unfold bind. destruct (m s) as [[a|e|] s']; simpl;
    [apply H | discriminate | discriminate].
Qed.

Lemma monitor_loop_never_false fuel p symbol initial check_interval max_wait_time
    retry_timeout start_time :
  (forall w, fsub (fst (env_time env w)) start_time <> S754_nan) ->
  py_lt retry_timeout max_wait_time = true ->
  forall s,
    fst (monitor_loop env fuel p symbol initial check_interval max_wait_time
           retry_timeout start_time s) <> Ok (Some false).
Proof.
  intros Hstart Hlimits. induction fuel as [|fuel IH]; intros s.
  - discriminate.
  - cbn [monitor_loop]. unfold bind at 1, time_time, perform.
    pose proof (Hstart (world s)) as Hnow.
    destruct (env_time env (world s)) as [now w1]. cbn [fst] in Hnow.
    destruct (py_ge (PyFloat (fsub now start_time)) retry_timeout) eqn:Hge;
      [discriminate|].
    pose proof (not_ge_is_lt _ _ Hnow (py_lt_is_number _ _ Hlimits) Hge) as Hlt.
    pose proof (py_lt_trans _ _ _ Hlt Hlimits) as Hbelow.
    rewrite (py_lt_not_gt _ _ Hbelow), Hbelow.
    apply bind_never. intros [|] s2; [discriminate|].
    apply bind_never. intros scaled s3.
    apply bind_never. intros ms s4.
    apply bind_never. intros _ s5. apply IH.
Qed.

End MonitorLimits.

(** X22: when [retry_timeout] is below [max_wait_time], as in the retry
    loop, which passes 30 and 300, the fill monitor never returns
    [False]: the test on [retry_timeout] comes first, so it returns
    [True], returns [None] or raises.  The clock is assumed to give
    readings whose differences are numbers. *)
Theorem monitor_never_times_out_before_retry
    {W} (env : Env W) fuel p symbol initial check_interval max_wait_time
    retry_timeout s :
  clock_is_ordered env ->
  py_lt retry_timeout max_wait_time = true ->
  fst (monitor_order_fill env fuel p symbol initial check_interval max_wait_time
         retry_timeout s) <> Ok (Some false).
Proof.
  intros Hclock Hlimits. unfold monitor_order_fill, bind, time_time, perform.
  destruct (env_time env (world s)) as [start_time w1] eqn:Hstart.
  apply monitor_loop_never_false; [|exact Hlimits].
  intros w. specialize (Hclock (world s) w). now rewrite Hstart in Hclock.
Qed.

(** The limits of the retry loop, on a clock with two readings. *)
Lemma monitor_never_times_out_before_retry_witness :
  clock_is_ordered Sim3.coarse_clock
  /\ fst (monitor_order_fill Sim3.coarse_clock 5 Sim.nado "BTC" (Some "0.0000 BTC")
            (PyFloat (float_lit "0.5")) (PyInt 300) (PyInt 30) Sim.start)
     <> Ok (Some false).
Proof.
  assert (Hclock : clock_is_ordered Sim3.coarse_clock).
  { intros w w'. simpl.
    destruct (w <? 30000), (w' <? 30000); vm_compute; discriminate. }
  split; [exact Hclock|].
  apply (monitor_never_times_out_before_retry Sim3.coarse_clock 5 Sim.nado "BTC"
           (Some "0.0000 BTC") (PyFloat (float_lit "0.5")) (PyInt 300) (PyInt 30)
           Sim.start Hclock).
  vm_compute. reflexivity.
Defined.


(** ** The methods over the price API *)

(** X23: [method1] and [method2] under rate limiting: when the product
    id is known and every price request fails, each of them makes the
    ten requests, with their pauses of 511 seconds in all, and then
    returns without a single call to the page: no order is placed and
    nothing is retried. *)
Theorem rate_limit_ends_the_methods
    {W V} (net : Api.Net W) (env : Env V) fuel pages configs nado_page config rest
    symbol offset s product_id w1 :
  pages !! "nado" = Some nado_page ->
  configs = config :: rest ->
  config !! "symbol" = Some symbol ->
  py_float (config_get config "price_offset" "-5") = Ok offset ->
  Api.net_get_product_id net symbol "perp" (Api.net_world (snd (world s)))
  = (Returns product_id, w1) ->
  Api.truthy product_id = true ->
  (forall w, Api.request_fails (fst (Api.net_requests_get net product_id w))) ->
  exists s',
    method1 (with_price_api net env) fuel pages configs s = (Ok tt, s') /\
    method2 (with_price_api net env) fuel pages configs s = (Ok tt, s') /\
    trace s' = GetPriceFromApi symbol "perp" :: trace s /\
    fst (world s') = fst (world s) /\
    Api.net_log (snd (world s'))
    = rev (Api.GetProductId symbol "perp" :: Api.ten_failed_attempts product_id)
      ++ Api.net_log (snd (world s)).
Proof.
  intros Hnado Hconfigs Hsymbol Hoffset Hid Htruthy Hfails.
  destruct (get_price_from_api_gives_up net symbol "perp"
              (State (snd (world s)) []) product_id w1 Hid Htruthy Hfails)
    as (s_api & Hrun & Hlog & _).
  assert (Hapi : env_get_price_from_api (with_price_api net env) symbol "perp" (world s)
                 = (Returns None, (fst (world s), world s_api))).
  { simpl. now rewrite Hrun. }
  exists (State (fst (world s), world s_api) (GetPriceFromApi symbol "perp" :: trace s)).
  assert (Hleg : forall direction max_retries, 0 < max_retries ->
            execute_nado_order_with_retry (with_price_api net env) fuel nado_page symbol
              (config_get config "size" "0.0001") (PyFloat offset) direction
              max_retries s
            = (Ok false,
               State (fst (world s), world s_api)
                 (GetPriceFromApi symbol "perp" :: trace s))).
  { intros direction max_retries Hmax.
    apply retry_first_pass_no_price; [exact Hmax|].
    now apply price_side_missing with (quote := None). }
  split; [|split; [|split; [reflexivity | split; [reflexivity | exact Hlog]]]].
  - rewrite (method1_runs_leg _ fuel pages configs nado_page config rest symbol
               offset s Hnado Hconfigs Hsymbol Hoffset).
    erewrite bind_ok by (apply Hleg; lia). reflexivity.
  - rewrite (method2_runs_leg _ fuel pages configs nado_page config rest symbol
               offset s Hnado Hconfigs Hsymbol Hoffset).
    erewrite bind_ok by (apply Hleg; lia). reflexivity.
Qed.

(** The simulated page, and a network that answers every request with
    the status 429. *)
Lemma rate_limit_ends_the_methods_witness :
  exists s',
    method1 (with_price_api (Api.sim_net Api.rate_limited) (Sim.sim_env Sim.filling))
      5 Sim.pages [Sim.btc_config] sim_both_start = (Ok tt, s') /\
    trace s' = [GetPriceFromApi "BTC" "perp"] /\
    Api.requests (Api.net_log (snd (world s'))) = 10%nat /\
    Api.seconds_slept (Api.net_log (snd (world s'))) = 511.
Proof.
  destruct (rate_limit_ends_the_methods (Api.sim_net Api.rate_limited)
              (Sim.sim_env Sim.filling) 5 Sim.pages [Sim.btc_config] Sim.nado
              Sim.btc_config [] "BTC" (float_lit "-5.00") sim_both_start
              (Api.JInt 2) 0
              ltac:(vm_compute; reflexivity) eq_refl ltac:(vm_compute; reflexivity)
              ltac:(vm_compute; reflexivity) eq_refl eq_refl
              (fun w => or_introl eq_refl))
    as (s' & H1 & _ & Htrace & _ & Hlog).
  exists s'. split; [exact H1|]. split; [exact Htrace|].
  rewrite Hlog. split; reflexivity.
Defined.

(** ** The product ids *)

Section ProductIdRuns.

Import Products.

Context {W : Type} (store : Store W).

(** Reading the cache makes no request and writes nothing. *)
Lemma load_product_id_cache_calls s :
  exists new,
    store_log (world (snd (load_product_id_cache store s))) = new ++ store_log (world s)
    /\ Forall reads_cache new.
Proof.
  unfold load_product_id_cache, bind, cache_exists, cache_read, try_except_when,
    perform_store, ret.
  destruct (store_exists store (store_world (world s))) as [[|] w1]; simpl.
  - destruct (store_read store w1) as [[cache|e] w2]; simpl.
    + exists [CacheRead; CacheExists]. split; [reflexivity|]. repeat constructor.
    + exists [CacheRead; CacheExists].
      destruct (is_decode_or_io_error e); split; try reflexivity; repeat constructor.
  - exists [CacheExists]. split; [reflexivity|]. repeat constructor.
Qed.

(** A handler that returns a value leaves the state as the body left
    it. *)
Lemma try_except_when_state {A} catches (body : M (stored W) A) (v : A) s :
  snd (try_except_when catches body (ret v) s) = snd (body s).
Proof.
  unfold try_except_when, ret. destruct (body s) as [[a|e|] s1]; try reflexivity.
  destruct (catches e); reflexivity.
Qed.

(** After the request the rest of [get_product_id_from_api] makes no
    call. *)
Lemma get_product_id_from_api_calls symbol product_type s :
  store_log (world (snd (get_product_id_from_api store symbol product_type s)))
  = RequestsGetSymbols product_type :: store_log (world s).
Proof.
  unfold get_product_id_from_api. rewrite !try_except_when_state.
  unfold bind at 1, requests_get_symbols, perform_store.
  destruct (store_requests_get store product_type (store_world (world s)))
    as [[r|e] w1]; [|reflexivity].
  cbv beta iota.
  unfold bind, raise_for_status, response_json, lift, ret, raise.
  destruct ((400 <=? Api.status_code r) && (Api.status_code r <? 600));
    [reflexivity|].
  destruct (Api.json_body r) as [data|e]; [|reflexivity].
  destruct (Api.dict_get data "data" (Api.JDict [])) as [data_section| |];
    try reflexivity.
  destruct (Api.dict_get data_section "symbols" (Api.JDict [])) as [symbols_dict| |];
    try reflexivity.
  destruct (Api.truthy symbols_dict); [|reflexivity]. cbv beta iota zeta.
  match goal with
  | |- context [Api.dict_get symbols_dict ?k Api.JNull] =>
      destruct (Api.dict_get symbols_dict k Api.JNull) as [symbol_info| |]
  end; try reflexivity.
  destruct (Api.truthy symbol_info); [|reflexivity]. cbv beta iota.
  destruct (Api.dict_get symbol_info "product_id" Api.JNull); reflexivity.
Qed.

Lemma save_product_id_cache_calls cache s :
  store_log (world (snd (save_product_id_cache store cache s)))
  = CacheWrite cache :: store_log (world s).
Proof.
  unfold save_product_id_cache. rewrite try_except_when_state.
  unfold cache_write, perform_store.
  destruct (store_write store cache (store_world (world s))) as [[[]|e] w1];
    reflexivity.
Qed.

Lemma assoc_assoc_set key value fields :
  Api.assoc key (assoc_set key value fields) = Some value.
Proof.
  induction fields as [|[k x] rest IH]; simpl.
  - now rewrite String.eqb_refl.
  - destruct (String.eqb k key) eqn:Hk; simpl; rewrite Hk; [reflexivity | exact IH].
Qed.

Lemma symbol_requests_reads new :
  Forall reads_cache new -> symbol_requests new = 0%nat /\ cache_writes new = 0%nat.
Proof.
  unfold symbol_requests, cache_writes.
  induction 1 as [|c new Hc _ [IH1 IH2]]; simpl; [now split|].
  destruct c; try (now destruct Hc); simpl; now split.
Qed.

Lemma writes_true_id_reads key new :
  Forall reads_cache new -> Forall (writes_true_id key) new.
Proof.
  induction 1 as [|c new Hc _ IH]; constructor; [|exact IH].
  destruct c; try exact I. now destruct Hc.
Qed.

Lemma get_product_id_calls symbol product_type s :
  exists new,
    store_log (world (snd (get_product_id store symbol product_type s)))
    = new ++ store_log (world s) /\
    (symbol_requests new <= 1)%nat /\
    (cache_writes new <= 1)%nat /\
    Forall (writes_true_id (py_upper symbol +:+ "_" +:+ product_type)) new.
Proof.
  unfold get_product_id. cbv zeta. unfold bind at 1.
  destruct (load_product_id_cache_calls s) as (new1 & Hlog1 & Hreads).
  destruct (symbol_requests_reads new1 Hreads) as [Hreq1 Hwrite1].
  pose proof (writes_true_id_reads (py_upper symbol +:+ "_" +:+ product_type)
                new1 Hreads) as Htrue1.
  revert Hlog1.
  destruct (load_product_id_cache store s) as [[cache|e|] s1]; simpl; intros Hlog1;
    try (exists new1; repeat split; [exact Hlog1 | lia | lia | exact Htrue1]).
  unfold bind at 1, lift at 1.
  destruct (json_contains cache (py_upper symbol +:+ "_" +:+ product_type))
    as [[|]| |]; simpl;
    try (exists new1; repeat split; [exact Hlog1 | lia | lia | exact Htrue1]).
  unfold bind at 1.
  pose proof (get_product_id_from_api_calls symbol product_type s1) as Hlog2.
  revert Hlog2.
  destruct (get_product_id_from_api store symbol product_type s1)
    as [[product_id|e|] s2]; simpl; intros Hlog2;
    try (exists (RequestsGetSymbols product_type :: new1);
         rewrite Hlog2, Hlog1; unfold symbol_requests, cache_writes in *; simpl;
         repeat split; [lia | lia | constructor; [exact I | exact Htrue1]]).
  destruct (Api.truthy product_id) eqn:Htruthy; simpl.
  2:{ exists (RequestsGetSymbols product_type :: new1).
      rewrite Hlog2, Hlog1. unfold symbol_requests, cache_writes in *. simpl.
      repeat split; [lia | lia | constructor; [exact I | exact Htrue1]]. }
  unfold bind at 1, lift at 1.
  destruct cache as [| | | | | |fields]; simpl;
    try (exists (RequestsGetSymbols product_type :: new1);
         rewrite Hlog2, Hlog1; unfold symbol_requests, cache_writes in *; simpl;
         repeat split; [lia | lia | constructor; [exact I | exact Htrue1]]).
  unfold bind.
  pose proof (save_product_id_cache_calls
                (Api.JDict (assoc_set (py_upper symbol +:+ "_" +:+ product_type)
                              product_id fields)) s2) as Hlog3.
  revert Hlog3.
  destruct (save_product_id_cache store _ s2) as [[[]|e|] s3]; simpl; intros Hlog3;
    (eexists (CacheWrite _ :: RequestsGetSymbols product_type :: new1);
     rewrite Hlog3, Hlog2, Hlog1; unfold symbol_requests, cache_writes in *; simpl;
     repeat split;
     [lia | lia
      | constructor;
        [exists product_id; split;
         [simpl; now rewrite assoc_assoc_set | exact Htruthy]
        | constructor; [exact I | exact Htrue1]]]).
Qed.

End ProductIdRuns.





(** ** A quote before each submission *)

Lemma quote_guard_app fresh l1 l2 :
  quote_guard fresh (l1 ++ l2)
  = guard_then (fun a => quote_guard a l1) (fun a => quote_guard a l2) fresh.
Proof.
  unfold guard_then. revert fresh.
  induction l1 as [|c l1 IH]; intros fresh; simpl.
  - reflexivity.
  - destruct (is_submission c).
    + destruct fresh; [apply IH | reflexivity].
    + destruct (is_price c); apply IH.
Qed.

Lemma quote_guard_neutral fresh calls :
  Forall neutral calls -> quote_guard fresh calls = Some fresh.
Proof.
  induction 1 as [|c calls Hc _ IH]; simpl; [reflexivity|].
  unfold neutral in Hc. apply orb_false_iff in Hc. destruct Hc as [-> ->].
  exact IH.
Qed.

Section Requotes.

Context {W : Type}.

Lemma requotes_neutral {A} (m : M W A) : only neutral m -> requotes keeps_quote m.
Proof.
  intros H s. destruct (H s) as (new & E & F). exists new. split; [exact E|].
  intros a. apply quote_guard_neutral. now apply List.Forall_rev.
Qed.

Lemma requotes_price {A} symbol product_type (m : M W A) :
  starts_with (GetPriceFromApi symbol product_type) neutral m ->
  requotes gives_quote m.
Proof.
  intros H s. destruct (H s) as (rest & E & F).
  exists (rest ++ [GetPriceFromApi symbol product_type]).
  rewrite <- app_assoc. split; [exact E|].
  intros a. rewrite rev_app_distr. simpl.
  apply quote_guard_neutral. now apply List.Forall_rev.
Qed.

Lemma requotes_submission {A} p (m : M W A) :
  starts_with (QuerySelector p sel_limit) neutral m -> requotes uses_quote m.
Proof.
  intros H s. destruct (H s) as (rest & E & F).
  exists (rest ++ [QuerySelector p sel_limit]).
  rewrite <- app_assoc. split; [exact E|].
  intros a. rewrite rev_app_distr. simpl. destruct a; [|reflexivity].
  apply quote_guard_neutral. now apply List.Forall_rev.
Qed.

Lemma requotes_bind {A B} (P1 P2 P : (bool -> option bool) -> Prop)
    (m : M W A) (k : A -> M W B) :
  requotes P1 m ->
  (forall a, requotes P2 (k a)) ->
  (forall g1, P1 g1 -> P g1) ->
  (forall g1 g2 g, P1 g1 -> P2 g2 -> (forall a, g a = guard_then g1 g2 a) -> P g) ->
  requotes P (bind m k).
Proof.
  intros Hm Hk Hstop Hseq s. destruct (Hm s) as (n1 & E1 & F1). unfold bind.
  destruct (m s) as [[a|e|] s1]; simpl in E1.
  - destruct (Hk a s1) as (n2 & E2 & F2). exists (n2 ++ n1).
    rewrite E2, E1, app_assoc. split; [reflexivity|].
    eapply Hseq; [exact F1 | exact F2 |].
    intros fresh. rewrite rev_app_distr. apply quote_guard_app.
  - exists n1. split; [exact E1 | now apply Hstop].
  - exists n1. split; [exact E1 | now apply Hstop].
Qed.

Lemma requotes_weaken {A} (P P' : (bool -> option bool) -> Prop) (m : M W A) :
  (forall g, P g -> P' g) -> requotes P m -> requotes P' m.
Proof.
  intros HP Hm s. destruct (Hm s) as (n & E & F). exists n. split; [exact E|].
  now apply HP.
Qed.

End Requotes.

Section RequotesOfFunctions.

Context {W : Type} (env : Env W).

Lemma neutral_get_nado_position p symbol :
  only neutral (get_nado_position env p symbol).
Proof. unfold get_nado_position. simpl position_scan. only_calls. Qed.

Lemma neutral_cancel_all_orders p symbol :
  only neutral (cancel_all_orders env p symbol).
Proof.
  unfold cancel_all_orders, click_open_orders_button. simpl open_orders_scan.
  only_calls.
Qed.

Lemma neutral_monitor_loop fuel p symbol initial ci mw rt start_time :
  only neutral (monitor_loop env fuel p symbol initial ci mw rt start_time).
Proof.
  induction fuel as [|fuel IH]; simpl; [only_calls|].
  pose proof (neutral_get_nado_position p symbol) as Hpos.
  apply only_bind; [only_calls|intros now].
  destruct (py_ge _ rt); [only_calls|].
  destruct (py_gt _ mw); [only_calls|].
  apply only_bind; [only_calls|intros changed].
  destruct changed; [only_calls|].
  destruct (py_lt _ mw); [|only_calls].
  apply only_bind; [only_calls|intros scaled].
  apply only_bind; [only_calls|intros ms].
  apply only_bind; [only_calls|intros _; exact IH].
Qed.

Lemma neutral_monitor_order_fill fuel p symbol initial ci mw rt :
  only neutral (monitor_order_fill env fuel p symbol initial ci mw rt).
Proof.
  unfold monitor_order_fill.
  apply only_bind; [only_calls | intros t; apply neutral_monitor_loop].
Qed.

(** [get_and_calculate_order_price] calls the price API and nothing
    else. *)
Lemma starts_get_and_calculate_order_price p symbol offset direction :
  starts_with (GetPriceFromApi symbol "perp") neutral
    (get_and_calculate_order_price env p symbol offset direction).
Proof.
  unfold get_and_calculate_order_price, get_price_from_api.
  apply starts_with_perform. intros prices. only_calls.
Qed.

(** [execute_nado_order] first looks up the Limit button, and asks for no
    price. *)
Lemma starts_neutral_execute_nado_order p symbol order_price size direction :
  starts_with (QuerySelector p sel_limit) neutral
    (execute_nado_order env p symbol order_price size direction).
Proof.
  unfold execute_nado_order, click_limit_button, click_long_tab_button,
    click_short_tab_button, fill_nado_order_form, click_submit_long_button,
    click_submit_short_button.
  apply starts_with_bind; [|intros limit_ok; only_calls].
  apply starts_with_try_except; [|intros e; only_calls].
  unfold query_selector at 1.
  apply starts_with_perform. intros button. only_calls.
Qed.

Lemma requotes_retry_body fuel p symbol size offset direction c :
  requotes (fun g => forall a, is_Some (g a))
    (retry_body env fuel p symbol size offset direction c).
Proof.
  unfold retry_body.
  eapply (requotes_bind keeps_quote (fun g => forall a, is_Some (g a))).
  - apply requotes_neutral.
    pose proof (neutral_cancel_all_orders p symbol).
    destruct (0 <? c); only_calls.
  - intros _.
    eapply (requotes_bind gives_quote (fun g => is_Some (g true))).
    + eapply requotes_price, starts_get_and_calculate_order_price.
    + intros [[price_num order_price]|].
      2:{ eapply requotes_weaken; [|apply requotes_neutral; only_calls].
          intros g Hg. rewrite Hg. eauto. }
      eapply (requotes_bind keeps_quote (fun g => is_Some (g true))).
      * apply requotes_neutral, neutral_get_nado_position.
      * intros initial_position.
        eapply (requotes_bind uses_quote keeps_quote).
        -- eapply requotes_submission, starts_neutral_execute_nado_order.
        -- intros submitted_ok. apply requotes_neutral.
           pose proof (neutral_monitor_order_fill fuel p symbol initial_position
                         (PyFloat (float_lit "0.5")) (PyInt 300) (PyInt 30)).
           destruct submitted_ok; simpl; only_calls.
        -- intros g Hg. rewrite Hg. eauto.
        -- intros g1 g2 g H1 H2 Hg. rewrite Hg. unfold guard_then.
           rewrite H1, H2. eauto.
      * intros g Hg. rewrite Hg. eauto.
      * intros g1 g2 g H1 H2 Hg. rewrite Hg. unfold guard_then. now rewrite H1.
    + intros g Hg a. rewrite Hg. eauto.
    + intros g1 g2 g H1 H2 Hg a. rewrite Hg. unfold guard_then. now rewrite H1.
  - intros g Hg a. rewrite Hg. eauto.
  - intros g1 g2 g H1 H2 Hg a. rewrite Hg. unfold guard_then. rewrite H1. apply H2.
Qed.

Lemma requotes_retry_loop budget fuel p symbol size offset direction max_retries c :
  requotes (fun g => forall a, is_Some (g a))
    (retry_loop env budget fuel p symbol size offset direction max_retries c).
Proof.
  assert (Hq : forall A (m : M W A),
             only neutral m -> requotes (fun g => forall a, is_Some (g a)) m).
  { intros A m Hm. eapply requotes_weaken; [|apply requotes_neutral, Hm].
    intros g Hg a. rewrite Hg. eauto. }
  revert c. induction budget as [|budget IH]; intros c; simpl.
  - destruct (c <? max_retries); apply Hq; only_calls.
  - destruct (c <? max_retries); [|apply Hq; only_calls].
    eapply (requotes_bind (fun g => forall a, is_Some (g a))
              (fun g => forall a, is_Some (g a))).
    + apply requotes_retry_body.
    + intros [b|]; [apply Hq; only_calls | apply IH].
    + auto.
    + intros g1 g2 g H1 H2 Hg a. rewrite Hg. unfold guard_then.
      destruct (H1 a) as [a' ->]. apply H2.
Qed.

End RequotesOfFunctions.

(** X26: the retry loop never submits on a price that was already used:
    in what [execute_nado_order_with_retry] adds to the trace, every
    submission comes after a call to the price API that is later than
    the submission before it. *)
Theorem every_submission_has_a_fresh_quote
    {W} (env : Env W) fuel p symbol size offset direction max_retries s :
  exists new,
    trace (snd (execute_nado_order_with_retry env fuel p symbol size offset
                  direction max_retries s))
    = new ++ trace s /\
    quoted_before_each_submission new.
Proof.
  destruct (requotes_retry_loop env (Z.to_nat max_retries) fuel p symbol size offset
              direction max_retries 0 s) as (new & E & Hg).
  exists new. split; [exact E | apply Hg].
Qed.

(** ** A hedge needs a submission *)

Section FillNeedsSubmission.

Context {W : Type} (env : Env W).
Variables (fuel : nat) (p : page) (symbol size : string).
Variables (offset : py_num) (direction : string).

(** A pass that reports a fill has submitted an order. *)
Lemma retry_body_true c s s' :
  retry_body env fuel p symbol size offset direction c s = (Ok (Return true), s') ->
  exists new, trace s' = new ++ trace s /\ (1 <= submissions new)%nat.
Proof.
  unfold retry_body. intros H.
  assert (Hpre : only neutral
                   (if 0 <? c
                    then cancel_all_orders env p symbol >> wait_for_timeout env p 1000
                    else ret tt)).
  { pose proof (neutral_cancel_all_orders env p symbol).
    destruct (0 <? c); only_calls. }
  unfold bind in H at 1. destruct (Hpre s) as (n1 & E1 & _).
  destruct ((if 0 <? c
             then cancel_all_orders env p symbol >> wait_for_timeout env p 1000
             else ret tt) s) as [[[]|e|] s1]; try discriminate.
  unfold bind in H at 1.
  destruct (starts_get_and_calculate_order_price env p symbol offset direction s1)
    as (n2 & E2 & _).
  destruct (get_and_calculate_order_price env p symbol offset direction s1)
    as [[[[price_num order_price]|]|e|] s2]; try discriminate.
  unfold bind in H at 1.
  destruct (neutral_get_nado_position env p symbol s2) as (n3 & E3 & _).
  destruct (get_nado_position env p symbol s2) as [[initial|e|] s3]; try discriminate.
  unfold bind in H at 1.
  destruct (starts_neutral_execute_nado_order env p symbol order_price size
              direction s3) as (n4 & E4 & _).
  destruct (execute_nado_order env p symbol order_price size direction s3)
    as [[[|]|e|] s4]; try discriminate.
  cbn [negb] in H. cbv iota in H. unfold bind in H.
  destruct (neutral_monitor_order_fill env fuel p symbol initial
              (PyFloat (float_lit "0.5")) (PyInt 300) (PyInt 30) s4)
    as (n5 & E5 & _).
  destruct (monitor_order_fill env fuel p symbol initial
              (PyFloat (float_lit "0.5")) (PyInt 300) (PyInt 30) s4)
    as [[[[|]|]|e|] s5]; try discriminate.
  injection H as <-. simpl in E1, E2, E3, E4, E5.
  exists (n5 ++ (n4 ++ [QuerySelector p sel_limit])
          ++ n3 ++ (n2 ++ [GetPriceFromApi symbol "perp"]) ++ n1).
  split.
  - rewrite E5, E4, E3, E2, E1. repeat rewrite <- app_assoc. reflexivity.
  - rewrite !submissions_app.
    change (submissions [QuerySelector p sel_limit]) with 1%nat. lia.
Qed.

Lemma retry_loop_true budget max_retries c s s' :
  retry_loop env budget fuel p symbol size offset direction max_retries c s
  = (Ok true, s') ->
  exists new, trace s' = new ++ trace s /\ (1 <= submissions new)%nat.
Proof.
  revert c s. induction budget as [|budget IH]; intros c s; simpl.
  - destruct (c <? max_retries); discriminate.
  - destruct (c <? max_retries); [|discriminate].
    unfold bind.
    destruct (emits_retry_body env fuel p symbol size offset direction c s)
      as (n1 & E1 & _).
    destruct (retry_body env fuel p symbol size offset direction c s)
      as [[[b|]|e|] s1] eqn:Hbody; try discriminate.
    + intros H. injection H as -> <-.
      exact (retry_body_true c s s1 Hbody).
    + intros H. destruct (IH (c + 1) s1 H) as (n2 & E2 & Hk).
      exists (n2 ++ n1). simpl in E1. rewrite E2, E1, app_assoc.
      split; [reflexivity|]. rewrite submissions_app. lia.
Qed.

End FillNeedsSubmission.

Section HedgeNeedsSubmission.

Context {W : Type} (env : Env W).

Lemma leg_then_hedge_needs_submission (leg hedge : M W bool) s new :
  only not_hedge leg ->
  only not_submission hedge ->
  (forall s1, leg s = (Ok true, s1) ->
     exists n1, trace s1 = n1 ++ trace s /\ (1 <= submissions n1)%nat) ->
  trace (snd ((let* is_filled := leg in
               if is_filled then hedge >> ret tt else ret tt) s))
  = new ++ trace s ->
  hedge_attempted new ->
  (1 <= submissions new)%nat.
Proof.
  intros Hleg Hhedge Htrue Htrace Hattempt.
  destruct (hedge_needs_fill leg hedge s new Hleg Htrace Hattempt) as (s1 & Hs1).
  destruct (Htrue s1 Hs1) as (n1 & E1 & Hk).
  destruct (Hhedge s1) as (n2 & E2 & _).
  unfold bind in Htrace. rewrite Hs1 in Htrace.
  assert (E : trace (snd ((let (r, s'0) := hedge s1 in
                           match r with
                           | Ok _ => ret () s'0
                           | Raise e => (Raise e, s'0)
                           | OutOfFuel => (OutOfFuel, s'0)
                           end)))
              = trace (snd (hedge s1))).
  { destruct (hedge s1) as [[b|e|] s2]; reflexivity. }
  rewrite E, E2, E1, app_assoc in Htrace. apply app_inv_tail in Htrace. subst new.
  rewrite submissions_app. lia.
Qed.

End HedgeNeedsSubmission.

(** X27: a fill is reported, and a hedge placed, only after an order was
    submitted: when [execute_nado_order_with_retry] returns [True] it
    has submitted at least one order, and in every run of [method1] and of
    [method2] in which a hedge on Variational is attempted an order was
    submitted on Nado. *)
Theorem hedge_needs_a_submission {W} (env : Env W) fuel pages configs s :
  (forall p symbol size offset direction max_retries s',
     execute_nado_order_with_retry env fuel p symbol size offset direction
       max_retries s = (Ok true, s') ->
     exists new, trace s' = new ++ trace s /\ (1 <= submissions new)%nat)
  /\
  (forall new,
     trace (snd (method1 env fuel pages configs s)) = new ++ trace s ->
     hedge_attempted new -> (1 <= submissions new)%nat)
  /\
  (forall new,
     trace (snd (method2 env fuel pages configs s)) = new ++ trace s ->
     hedge_attempted new -> (1 <= submissions new)%nat).
Proof.
  split; [|split].
  - intros p symbol size offset direction max_retries s'.
    apply retry_loop_true.
  - intros new Htrace Hattempt.
    destruct (method1_cases env fuel pages configs s)
      as [Hsame|(nado_page & config & rest & symbol & offset & H1 & H2 & H3 & H4)].
    + rewrite Hsame in Htrace. destruct (no_call_no_hedge s new Htrace Hattempt).
    + rewrite (method1_runs_leg env fuel pages configs nado_page config rest symbol
                 offset s H1 H2 H3 H4) in Htrace.
      eapply leg_then_hedge_needs_submission;
        [apply only_not_hedge_retry | apply only_not_submission_short
         | | exact Htrace | exact Hattempt].
      intros s1. apply retry_loop_true.
  - intros new Htrace Hattempt.
    destruct (method2_cases env fuel pages configs s)
      as [Hsame|(nado_page & config & rest & symbol & offset & H1 & H2 & H3 & H4)].
    + rewrite Hsame in Htrace. destruct (no_call_no_hedge s new Htrace Hattempt).
    + rewrite (method2_runs_leg env fuel pages configs nado_page config rest symbol
                 offset s H1 H2 H3 H4) in Htrace.
      eapply leg_then_hedge_needs_submission;
        [apply only_not_hedge_retry | apply only_not_submission_long
         | | exact Htrace | exact Hattempt].
      intros s1. apply retry_loop_true.
Qed.

(** The order that is filled after two seconds. *)
Lemma hedge_needs_a_submission_witness :
  exists new,
    trace (snd (execute_nado_order_with_retry (Sim.sim_env Sim.filling) 5 Sim.nado
                  "BTC" "0.0001" (PyFloat (float_lit "-5.00")) "long" 3 Sim.start))
    = new ++ [] /\
    (1 <= submissions new)%nat.
Proof.
  apply (proj1 (hedge_needs_a_submission (Sim.sim_env Sim.filling) 5 Sim.pages
                  [Sim.btc_config] Sim.start)
           Sim.nado "BTC" "0.0001" (PyFloat (float_lit "-5.00")) "long" 3
           (snd (execute_nado_order_with_retry (Sim.sim_env Sim.filling) 5 Sim.nado
                   "BTC" "0.0001" (PyFloat (float_lit "-5.00")) "long" 3 Sim.start))).
  vm_compute. reflexivity.
Defined.


(** ** A hedge that fails *)

Section SilentHedge.

Context {W : Type} (env : Env W).

(** Case analysis on every answer of the world in a hedge whose pauses
    return. *)
Ltac hedge_returns Hwait :=
  unfold bind, try_except, ret, raise, query_selector, evaluate, fill, inner_text,
    click, wait_for_timeout, perform; simpl;
  repeat (first [ match goal with
                  | |- context [env_wait_for_timeout env ?p ?ms ?w] =>
                      let w' := fresh "w" in
                      let E := fresh "E" in
                      destruct (Hwait ms w) as [w' E]; rewrite E
                  end
                | next_answer
                | match goal with
                  | |- context [if ?b then _ else _] => destruct b
                  end ]; simpl);
  eauto.

Lemma hedge_short_returns pages configs variational_page config rest symbol s :
  pages !! "variational" = Some variational_page ->
  configs = config :: rest ->
  config !! "symbol" = Some symbol ->
  (forall ms w, exists w',
     env_wait_for_timeout env variational_page ms w = (Returns tt, w')) ->
  exists placed s', execute_variational_short env pages configs s = (Ok placed, s').
Proof.
  intros Hpage -> Hsymbol Hwait.
  unfold execute_variational_short, first_config, config_symbol,
    click_short_button_variational, fill_quantity_variational,
    click_submit_variational.
  rewrite (pages_not_empty pages "variational" variational_page Hpage), Hpage.
  rewrite bool_decide_eq_false_2 by discriminate. cbn [orb].
  unfold bind at 1 2. unfold ret at 1 2. rewrite Hsymbol. cbv beta iota zeta.
  hedge_returns Hwait.
Qed.

Lemma hedge_long_returns pages configs variational_page config rest symbol s :
  pages !! "variational" = Some variational_page ->
  configs = config :: rest ->
  config !! "symbol" = Some symbol ->
  (forall ms w, exists w',
     env_wait_for_timeout env variational_page ms w = (Returns tt, w')) ->
  exists placed s', execute_variational_long env pages configs s = (Ok placed, s').
Proof.
  intros Hpage -> Hsymbol Hwait.
  unfold execute_variational_long, first_config, config_symbol,
    click_long_button_variational, fill_quantity_variational,
    click_submit_variational.
  rewrite (pages_not_empty pages "variational" variational_page Hpage), Hpage.
  rewrite bool_decide_eq_false_2 by discriminate. cbn [orb].
  unfold bind at 1 2. unfold ret at 1 2. rewrite Hsymbol. cbv beta iota zeta.
  hedge_returns Hwait.
Qed.

End SilentHedge.

(** X28: a hedge that fails is not reported.  When the pauses on the
    Variational page return, [execute_variational_short] and
    [execute_variational_long] return [True] or [False] and raise
    nothing, whatever else the page answers or raises; so after a filled
    long leg [method1] returns normally whether or not the hedge was
    placed. *)
Theorem failed_hedge_is_silent
    {W} (env : Env W) fuel pages configs nado_page variational_page config rest
    symbol offset s s1 :
  pages !! "nado" = Some nado_page ->
  pages !! "variational" = Some variational_page ->
  configs = config :: rest ->
  config !! "symbol" = Some symbol ->
  py_float (config_get config "price_offset" "-5") = Ok offset ->
  (forall ms w, exists w',
     env_wait_for_timeout env variational_page ms w = (Returns tt, w')) ->
  (forall s0, exists placed s',
     execute_variational_short env pages configs s0 = (Ok placed, s'))
  /\
  (forall s0, exists placed s',
     execute_variational_long env pages configs s0 = (Ok placed, s'))
  /\
  (execute_nado_order_with_retry env fuel nado_page symbol
     (config_get config "size" "0.0001") (PyFloat offset) "long" 3 s = (Ok true, s1) ->
   exists s', method1 env fuel pages configs s = (Ok tt, s')).
Proof.
  intros Hnado Hpage Hconfigs Hsymbol Hoffset Hwait.
  split; [|split].
  - intros s0.
    exact (hedge_short_returns env pages configs variational_page config rest symbol
             s0 Hpage Hconfigs Hsymbol Hwait).
  - intros s0.
    exact (hedge_long_returns env pages configs variational_page config rest symbol
             s0 Hpage Hconfigs Hsymbol Hwait).
  - intros Hleg.
    rewrite (method1_runs_leg env fuel pages configs nado_page config rest symbol
               offset s Hnado Hconfigs Hsymbol Hoffset).
    erewrite bind_ok by exact Hleg. cbv iota.
    destruct (hedge_short_returns env pages configs variational_page config rest
                symbol s1 Hpage Hconfigs Hsymbol Hwait) as (placed & s2 & Hhedge).
    exists s2. erewrite bind_ok by exact Hhedge. reflexivity.
Qed.

(** A Variational page on which no element is found: the hedge returns
    [False] and raises nothing. *)
Lemma failed_hedge_is_silent_witness :
  (exists placed s',
     execute_variational_short Sim4.no_variational Sim.pages [Sim.btc_config] Sim.start
     = (Ok placed, s'))
  /\
  fst (execute_variational_short Sim4.no_variational Sim.pages [Sim.btc_config]
         Sim.start) = Ok false.
Proof.
  split; [|vm_compute; reflexivity].
  apply (proj1 (failed_hedge_is_silent Sim4.no_variational 5 Sim.pages
                  [Sim.btc_config] Sim.nado Sim.variational Sim.btc_config []
                  "BTC" (float_lit "-5.00") Sim.start Sim.start
                  ltac:(vm_compute; reflexivity) ltac:(vm_compute; reflexivity)
                  eq_refl ltac:(vm_compute; reflexivity)
                  ltac:(vm_compute; reflexivity)
                  (fun ms w => ex_intro _ (w + ms) eq_refl))).
Defined.
